(** * Stripe Terraform provider: normalisation helpers, populate and diff builders

    A shallow embedding of the provider's translation layer
    ([internal/provider]) and the properties of its specification.

    Conventions of the embedding:
    - a Go pointer [*T] is an [option T] ([None] is [nil]);
    - a Go slice is an [option (list T)] ([None] is the nil slice);
    - a Go [map[string]T] is a [gmap string T]; where the code tells a nil
      map from an empty one the map is wrapped in [option];
    - [int64] is [Z] (the code never does arithmetic on it), [float64] is
      the IEEE-754 model [spec_float] of the Standard Library;
    - a method with a pointer receiver that mutates returns the new value;
      the caller decides which variable receives it. *)

From Stdlib Require Import ZArith String List Bool.
From Stdlib Require Import Floats.SpecFloat.
From stdpp Require Import base option list gmap strings fin_maps.

Local Open Scope string_scope.
Local Open Scope list_scope.

(* ===================================================================== *)
(** ** Go values *)
(* ===================================================================== *)

Module Go.

Abbreviation int64 := Z (only parsing).
Abbreviation float64 := spec_float (only parsing).
Abbreviation slice A := (option (list A)) (only parsing).

(** Go's [x == y] on [float64]: IEEE comparison ([+0 == -0], and a NaN
    equals nothing). *)
Definition float64_eq (x y : float64) : bool := SFeqb x y.

(** The literal [0] at type [float64]. *)
Definition float64_0 : float64 := S754_zero false.

Definition float64_isNaN (x : float64) : bool :=
  match x with S754_nan => true | _ => false end.

(** [append(s, x)]. *)
Definition append {A} (s : slice A) (x : A) : slice A :=
  Some (default [] s ++ [x]).

(** [for _, x := range xs { s = append(s, f x) }] starting from [s]. *)
Definition append_all {A B} (f : A → B) (s : slice B) (xs : list A) : slice B :=
  fold_left (λ acc x, append acc (f x)) xs s.

End Go.

(* ===================================================================== *)
(** ** Diagnostics ([terraform-plugin-framework/diag]) *)
(* ===================================================================== *)

Module diag.

Inductive Severity := SeverityError | SeverityWarning.

Record Diagnostic := {
  severity : Severity;
  summary : string;
  detail : string;
  attribute : option string   (* the path of an attribute diagnostic *)
}.

Abbreviation Diagnostics := (list Diagnostic) (only parsing).

#[global] Instance Severity_eq_dec : EqDecision Severity.
Proof. solve_decision. Defined.
#[global] Instance Diagnostic_eq_dec : EqDecision Diagnostic.
Proof. solve_decision. Defined.

Definition NewErrorDiagnostic (s d : string) : Diagnostic :=
  {| severity := SeverityError; summary := s; detail := d; attribute := None |}.

Definition NewAttributeErrorDiagnostic (p s d : string) : Diagnostic :=
  {| severity := SeverityError; summary := s; detail := d; attribute := Some p |}.

Definition isError (d : Diagnostic) : bool :=
  match severity d with SeverityError => true | SeverityWarning => false end.

(** [diags.HasError()]. *)
Definition HasError (ds : Diagnostics) : bool := existsb isError ds.

(** [diags.Contains(d)]. *)
Definition Contains (ds : Diagnostics) (d : Diagnostic) : bool :=
  bool_decide (d ∈ ds).

(** [diags.Append(in...)]: adds the diagnostics that are not yet there. *)
Definition Append (ds : Diagnostics) (new : Diagnostics) : Diagnostics :=
  fold_left (λ acc d, if Contains acc d then acc else acc ++ [d]) new ds.

(** [diags.AddError(summary, detail)]. *)
Definition AddError (ds : Diagnostics) (s d : string) : Diagnostics :=
  Append ds [NewErrorDiagnostic s d].

(** [diags.AddAttributeError(path, summary, detail)]. *)
Definition AddAttributeError (ds : Diagnostics) (p s d : string) : Diagnostics :=
  Append ds [NewAttributeErrorDiagnostic p s d].

End diag.

(* ===================================================================== *)
(** ** Attribute values ([terraform-plugin-framework/types]) *)
(* ===================================================================== *)

Module types.

(** The three states of an attribute value. The zero value of every
    framework value type is its null. *)
Inductive tri (A : Type) : Type :=
| Null
| Unknown
| Value (a : A).
Arguments Null {A}.
Arguments Unknown {A}.
Arguments Value {A} a.

#[global] Instance tri_eq_dec {A} `{EqDecision A} : EqDecision (tri A).
Proof. solve_decision. Defined.

Definition IsNull {A} (v : tri A) : bool :=
  match v with Null => true | _ => false end.

Definition IsUnknown {A} (v : tri A) : bool :=
  match v with Unknown => true | _ => false end.

(** [v.Equal(o)] of the scalar kinds: the states agree and, when both
    are known, so do the values. *)
Definition tri_Equal {A} (eqb : A → A → bool) (v o : tri A) : bool :=
  match v, o with
  | Null, Null => true
  | Unknown, Unknown => true
  | Value a, Value b => eqb a b
  | _, _ => false
  end.

(** The [ValueX()] accessors return the zero value when not known; the
    [ValueXPointer()] accessors return [nil] for null and a pointer to
    the zero value for unknown. *)
Definition value_or {A} (zero : A) (v : tri A) : A :=
  match v with Value a => a | _ => zero end.

Definition value_pointer {A} (zero : A) (v : tri A) : option A :=
  match v with Null => None | Unknown => Some zero | Value a => Some a end.

Abbreviation String := (tri string) (only parsing).
Abbreviation Bool := (tri bool) (only parsing).
Abbreviation Int64 := (tri Z) (only parsing).
Abbreviation Float64 := (tri spec_float) (only parsing).

Abbreviation StringNull := (@Null string) (only parsing).
Abbreviation StringValue := (@Value string) (only parsing).
Abbreviation BoolValue := (@Value bool) (only parsing).
Abbreviation Int64Null := (@Null Z) (only parsing).
Abbreviation Int64Value := (@Value Z) (only parsing).
Abbreviation Float64Null := (@Null spec_float) (only parsing).
Abbreviation Float64Value := (@Value spec_float) (only parsing).

Definition String_Equal : String → String → bool := tri_Equal String.eqb.
Definition Bool_Equal : Bool → Bool → bool := tri_Equal Bool.eqb.
Definition Int64_Equal : Int64 → Int64 → bool := tri_Equal Z.eqb.
(** Numbers compare by value. *)
Definition Float64_Equal : Float64 → Float64 → bool := tri_Equal Go.float64_eq.

Definition ValueString : String → string := value_or "".
Definition ValueStringPointer : String → option string := value_pointer "".
Definition ValueBool : Bool → bool := value_or false.
Definition ValueBoolPointer : Bool → option bool := value_pointer false.
Definition ValueInt64Pointer : Int64 → option Z := value_pointer 0%Z.
Definition ValueFloat64Pointer : Float64 → option spec_float :=
  value_pointer Go.float64_0.

(** Attribute types, as far as the provider's schemas use them: the
    four scalar types, and objects of scalar attributes. *)
Inductive ScalarType := ScalarString | ScalarBool | ScalarInt64 | ScalarFloat64.

Inductive AttrType :=
| Scalar (s : ScalarType)
| ObjectType (AttrTypes : gmap string ScalarType).

Abbreviation StringType := (Scalar ScalarString).
Abbreviation BoolType := (Scalar ScalarBool).
Abbreviation Int64Type := (Scalar ScalarInt64).
Abbreviation Float64Type := (Scalar ScalarFloat64).

#[global] Instance ScalarType_eq_dec : EqDecision ScalarType.
Proof. solve_decision. Defined.
#[global] Instance AttrType_eq_dec : EqDecision AttrType.
Proof. solve_decision. Defined.

(** A collection value ([types.List], [types.Map]): its element type and
    its tri-state contents. The zero value of the Go struct has no
    element type; [ListNull(t)] and [MapNull(t)] have one. *)
Record Coll (C : Type) := {
  elementType : option AttrType;
  content : tri C
}.
Arguments elementType {C} c.
Arguments content {C} c.

(** The elements of the provider's lists are strings (every list
    attribute of its schemas has [ElementType: types.StringType]), so
    the type assertion [v.(types.String)] of the code succeeds. *)
Abbreviation List := (Coll (list (tri string))) (only parsing).
Abbreviation Map E := (Coll (gmap string E)) (only parsing).

Definition zero {C} : Coll C := {| elementType := None; content := Null |}.

Definition ListNull (t : AttrType) : List :=
  {| elementType := Some t; content := Null |}.
Definition MapNull {E} (t : AttrType) : Map E :=
  {| elementType := Some t; content := Null |}.
Definition ListValue (t : AttrType) (l : list (tri string)) : List :=
  {| elementType := Some t; content := Value l |}.
Definition MapValue {E} (t : AttrType) (m : gmap string E) : Map E :=
  {| elementType := Some t; content := Value m |}.

Definition Coll_IsNull {C} (c : Coll C) : bool := IsNull (content c).
Definition Coll_IsUnknown {C} (c : Coll C) : bool := IsUnknown (content c).

(** [l.Elements()]: no element unless known. *)
Definition List_Elements (l : List) : list (tri string) :=
  value_or [] (content l).
Definition Map_Elements {E} (m : Map E) : gmap string E :=
  value_or ∅ (content m).

Fixpoint list_Equal {E} (eqb : E → E → bool) (l o : list E) : bool :=
  match l, o with
  | [], [] => true
  | x :: l', y :: o' => eqb x y && list_Equal eqb l' o'
  | _, _ => false
  end.

(** [for k, v := range m.elements]: [other] has [k], with an equal value. *)
Definition map_Equal {E} (eqb : E → E → bool) (m o : gmap string E) : bool :=
  Nat.eqb (size m) (size o)
  && forallb (λ kv, match o !! kv.1 with
                    | Some w => eqb kv.2 w
                    | None => false
                    end) (map_to_list m).

(** [v.Equal(o)] of lists and maps. A value without element type is
    equal to nothing, not even to itself; the provider's own test
    "No fields updated" of the product builder relies on it. *)
Definition Coll_Equal {C} (eqb : C → C → bool) (v o : Coll C) : bool :=
  match elementType v, elementType o with
  | Some tv, Some to =>
      bool_decide (tv = to) && tri_Equal eqb (content v) (content o)
  | _, _ => false
  end.

Definition List_Equal : List → List → bool :=
  Coll_Equal (list_Equal String_Equal).
Definition Map_Equal {E} (eqb : E → E → bool) : Map E → Map E → bool :=
  Coll_Equal (map_Equal eqb).

(** [types.Object] of a nested attribute, as the struct it converts to
    and from; [v.Equal(o)] compares the states and then the attributes. *)
Abbreviation Object A := (tri A) (only parsing).

End types.

Import types (tri, Null, Unknown, Value).

(* ===================================================================== *)
(** ** The Go runtime and the framework's reflection, as interfaces *)
(* ===================================================================== *)

(** [for k, v := range m] visits the entries of a map once each, in an
    order the language leaves unspecified. A loop over a map is the fold
    of its body over [range m]; nothing is known of [range m] but that it
    enumerates the entries. *)
Class MapRange := {
  range : ∀ {V : Type}, gmap string V → list (string * V);
  range_perm : ∀ {V : Type} (m : gmap string V), range m ≡ₚ map_to_list m
}.

(** One admissible order: the one of [map_to_list]. *)
#[local] Instance sorted_range : MapRange :=
  {| range := λ V m, map_to_list m; range_perm := λ V m, reflexivity _ |}.

(* ===================================================================== *)
(** ** Remote objects and request parameters ([stripe-go]) *)
(* ===================================================================== *)

Module stripe.

(** [stripe.String(v)], [stripe.Int64(v)], [stripe.Float64(v)]: a pointer
    to a copy of the value. *)
Definition String (v : string) : option string := Some v.
Definition Int64 (v : Z) : option Z := Some v.
Definition Float64 (v : spec_float) : option spec_float := Some v.

(** [p.AddMetadata(key, value)] of the embedded [stripe.Params]: the map
    is made on the first call. *)
Definition AddMetadata (md : option (gmap string string)) (key value : string)
  : option (gmap string string) :=
  Some (<[key := value]> (default ∅ md)).

(** [p.AddExpand(f)]. *)
Definition AddExpand (ex : Go.slice string) (f : string) : Go.slice string :=
  Go.append ex f.

Module WebhookEndpoint.
Record t := {
  ID : string;
  APIVersion : string;
  Application : string;
  Description : string;
  EnabledEvents : Go.slice string;
  Metadata : option (gmap string string);
  Secret : string;
  Status : string;
  URL : string
}.
End WebhookEndpoint.

Module WebhookEndpointParams.
Record t := {
  APIVersion : option string;
  Description : option string;
  Disabled : option bool;
  EnabledEvents : Go.slice (option string);
  Metadata : option (gmap string string);
  URL : option string
}.
(** [&stripe.WebhookEndpointParams{}]. *)
Definition empty : t :=
  {| APIVersion := None; Description := None; Disabled := None;
     EnabledEvents := None; Metadata := None; URL := None |}.
End WebhookEndpointParams.

Module ProductPackageDimensions.
Record t := { Height : spec_float; Length : spec_float;
              Weight : spec_float; Width : spec_float }.
End ProductPackageDimensions.

Module Product.
Record t := {
  ID : string;
  Active : bool;
  DefaultPrice : option string;        (* [*stripe.Price], by its [ID] *)
  Description : string;
  Images : Go.slice string;
  MarketingFeatures : Go.slice string; (* [[]*ProductMarketingFeature], by [Name] *)
  Metadata : option (gmap string string);
  Name : string;
  PackageDimensions : option ProductPackageDimensions.t;
  Shippable : bool;
  StatementDescriptor : string;
  TaxCode : option string;             (* [*stripe.TaxCode], by its [ID] *)
  UnitLabel : string;
  URL : string
}.
End Product.

Module ProductPackageDimensionsParams.
Record t := { Height : option spec_float; Length : option spec_float;
              Weight : option spec_float; Width : option spec_float }.
End ProductPackageDimensionsParams.

Module ProductParams.
Record t := {
  ID : option string;
  Active : option bool;
  DefaultPrice : option string;
  Description : option string;
  Images : Go.slice (option string);
  MarketingFeatures : Go.slice (option string); (* by [Name] *)
  Metadata : option (gmap string string);
  Name : option string;
  PackageDimensions : option ProductPackageDimensionsParams.t;
  Shippable : option bool;
  StatementDescriptor : option string;
  TaxCode : option string;
  UnitLabel : option string;
  URL : option string
}.
(** [&stripe.ProductParams{}]. *)
Definition empty : t :=
  {| ID := None; Active := None; DefaultPrice := None; Description := None;
     Images := None; MarketingFeatures := None; Metadata := None;
     Name := None; PackageDimensions := None; Shippable := None;
     StatementDescriptor := None; TaxCode := None; UnitLabel := None;
     URL := None |}.
End ProductParams.

Module Price.
Record t := {
  ID : string;
  Active : bool;
  BillingScheme : string;
  Currency : string;
  LookupKey : string;
  Nickname : string;
  Product : option string;             (* [*stripe.Product], by its [ID] *)
  TaxBehavior : string;
  TiersMode : string;
  UnitAmount : Z;
  UnitAmountDecimal : spec_float
}.
End Price.

Module PriceParams.
(** The provider sets no field of [stripe.PriceParams]. *)
Record t := { ID : option string }.
Definition empty : t := {| ID := None |}.
End PriceParams.

Module CouponCurrencyOptions.
Record t := { AmountOff : Z }.
End CouponCurrencyOptions.

Module Coupon.
Record t := {
  ID : string;
  AmountOff : Z;
  AppliesTo : option (Go.slice string);  (* [*CouponAppliesTo], by [Products] *)
  Currency : string;
  CurrencyOptions : option (gmap string CouponCurrencyOptions.t);
  Duration : string;
  DurationInMonths : Z;
  MaxRedemptions : Z;
  Metadata : option (gmap string string);
  Name : string;
  PercentOff : spec_float;
  RedeemBy : Z
}.
(** [&stripe.Coupon{}]. *)
Definition empty : t :=
  {| ID := ""; AmountOff := 0; AppliesTo := None; Currency := "";
     CurrencyOptions := None; Duration := ""; DurationInMonths := 0;
     MaxRedemptions := 0; Metadata := None; Name := "";
     PercentOff := Go.float64_0; RedeemBy := 0 |}.
End Coupon.

Module CouponCurrencyOptionsParams.
Record t := { AmountOff : option Z }.
End CouponCurrencyOptionsParams.

Module CouponParams.
Record t := {
  Expand : Go.slice string;
  ID : option string;
  AmountOff : option Z;
  AppliesTo : option (Go.slice (option string)); (* [*CouponAppliesToParams], by [Products] *)
  Currency : option string;
  CurrencyOptions : option (gmap string CouponCurrencyOptionsParams.t);
  Duration : option string;
  DurationInMonths : option Z;
  MaxRedemptions : option Z;
  Metadata : option (gmap string string);
  Name : option string;
  PercentOff : option spec_float;
  RedeemBy : option Z
}.
(** [&stripe.CouponParams{}]. *)
Definition empty : t :=
  {| Expand := None; ID := None; AmountOff := None; AppliesTo := None;
     Currency := None; CurrencyOptions := None; Duration := None;
     DurationInMonths := None; MaxRedemptions := None; Metadata := None;
     Name := None; PercentOff := None; RedeemBy := None |}.
Definition set_Expand (p : t) (ex : Go.slice string) : t :=
  {| Expand := ex; ID := ID p; AmountOff := AmountOff p;
     AppliesTo := AppliesTo p; Currency := Currency p;
     CurrencyOptions := CurrencyOptions p; Duration := Duration p;
     DurationInMonths := DurationInMonths p;
     MaxRedemptions := MaxRedemptions p; Metadata := Metadata p;
     Name := Name p; PercentOff := PercentOff p; RedeemBy := RedeemBy p |}.
End CouponParams.

End stripe.

(* ===================================================================== *)
(** ** Resource models ([internal/provider]) *)
(* ===================================================================== *)

Module WebhookEndpointResourceModel.
Record t := {
  Id : types.String;
  APIVersion : types.String;
  Application : types.String;
  Description : types.String;
  Disabled : types.Bool;
  EnabledEvents : types.List;
  Metadata : types.Map (tri string);
  Secret : types.String;
  URL : types.String
}.
(** [var m WebhookEndpointResourceModel]. *)
Definition zero : t :=
  {| Id := Null; APIVersion := Null; Application := Null;
     Description := Null; Disabled := Null; EnabledEvents := types.zero;
     Metadata := types.zero; Secret := Null; URL := Null |}.
End WebhookEndpointResourceModel.

Module ProductPackageDimensionsResourceModel.
Record t := {
  Height : types.Float64;
  Length : types.Float64;
  Weight : types.Float64;
  Width : types.Float64
}.
Definition zero : t :=
  {| Height := Null; Length := Null; Weight := Null; Width := Null |}.
Definition Types : gmap string types.ScalarType :=
  {[ "height" := types.ScalarFloat64; "length" := types.ScalarFloat64;
     "weight" := types.ScalarFloat64; "width" := types.ScalarFloat64 ]}.
(** Equality of two known objects of this type: attribute by attribute. *)
Definition Equal (a b : t) : bool :=
  types.Float64_Equal (Height a) (Height b)
  && types.Float64_Equal (Length a) (Length b)
  && types.Float64_Equal (Weight a) (Weight b)
  && types.Float64_Equal (Width a) (Width b).
End ProductPackageDimensionsResourceModel.

Module ProductResourceModel.
Record t := {
  Id : types.String;
  Active : types.Bool;
  DefaultPrice : types.String;
  Description : types.String;
  Images : types.List;
  MarketingFeatures : types.List;
  Metadata : types.Map (tri string);
  Name : types.String;
  PackageDimensions : types.Object ProductPackageDimensionsResourceModel.t;
  Shippable : types.Bool;
  StatementDescriptor : types.String;
  TaxCode : types.String;
  UnitLabel : types.String;
  URL : types.String
}.
(** [var m ProductResourceModel]. *)
Definition zero : t :=
  {| Id := Null; Active := Null; DefaultPrice := Null; Description := Null;
     Images := types.zero; MarketingFeatures := types.zero;
     Metadata := types.zero; Name := Null; PackageDimensions := Null;
     Shippable := Null; StatementDescriptor := Null; TaxCode := Null;
     UnitLabel := Null; URL := Null |}.
End ProductResourceModel.

Module PriceResourceModel.
(** The nested objects of a price are never read or written by the
    handler; their attributes are left out. *)
Record t := {
  Id : types.String;
  Active : types.Bool;
  BillingScheme : types.String;
  Currency : types.String;
  CurrencyOptions : types.Object unit;
  CustomUnitAmount : types.Object unit;
  LookupKey : types.String;
  Metadata : types.Map (tri string);
  Nickname : types.String;
  Product : types.String;
  Recurring : types.Object unit;
  TaxBehavior : types.String;
  Tiers : types.List;
  TiersMode : types.String;
  TransformQuantity : types.Object unit;
  UnitAmount : types.Int64;
  UnitAmountDecimal : types.Float64
}.
(** [var m PriceResourceModel]. *)
Definition zero : t :=
  {| Id := Null; Active := Null; BillingScheme := Null; Currency := Null;
     CurrencyOptions := Null; CustomUnitAmount := Null; LookupKey := Null;
     Metadata := types.zero; Nickname := Null; Product := Null;
     Recurring := Null; TaxBehavior := Null; Tiers := types.zero;
     TiersMode := Null; TransformQuantity := Null; UnitAmount := Null;
     UnitAmountDecimal := Null |}.
End PriceResourceModel.

Module CouponCurrencyOptionsModel.
Record t := {
  AmountOff : types.Int64;
  TopLevel : types.Bool
}.
Definition Types : gmap string types.ScalarType :=
  {[ "amount_off" := types.ScalarInt64; "top_level" := types.ScalarBool ]}.
(** Equality of two known objects of this type: attribute by attribute. *)
Definition Equal (a b : t) : bool :=
  types.Int64_Equal (AmountOff a) (AmountOff b)
  && types.Bool_Equal (TopLevel a) (TopLevel b).
End CouponCurrencyOptionsModel.

Module CouponResourceModel.
(** The elements of [currency_options] are taken as known objects (the
    struct [CouponCurrencyOptionsModel] they convert to), whose two
    attributes are tri-state. *)
Record t := {
  Id : types.String;
  AppliesTo : types.List;
  CurrencyOptions : types.Map CouponCurrencyOptionsModel.t;
  Duration : types.String;
  DurationInMonths : types.Int64;
  MaxRedemptions : types.Int64;
  Metadata : types.Map (tri string);
  Name : types.String;
  PercentOff : types.Float64;
  RedeemBy : types.Int64
}.
(** [var m CouponResourceModel]. *)
Definition zero : t :=
  {| Id := Null; AppliesTo := types.zero; CurrencyOptions := types.zero;
     Duration := Null; DurationInMonths := Null; MaxRedemptions := Null;
     Metadata := types.zero; Name := Null; PercentOff := Null;
     RedeemBy := Null |}.
Definition set_Id (m : t) (id : types.String) : t :=
  {| Id := id; AppliesTo := AppliesTo m;
     CurrencyOptions := CurrencyOptions m; Duration := Duration m;
     DurationInMonths := DurationInMonths m;
     MaxRedemptions := MaxRedemptions m; Metadata := Metadata m;
     Name := Name m; PercentOff := PercentOff m; RedeemBy := RedeemBy m |}.
End CouponResourceModel.

(** The framework's conversions from Go values ([types.ListValueFrom],
    [types.MapValueFrom], [types.ObjectValueFrom]) at the types the
    provider calls them at. Each returns a value and diagnostics. *)
Class ValueFrom := {
  ListValueFrom :
    types.AttrType → Go.slice string → types.List * diag.Diagnostics;
  MapValueFrom :
    types.AttrType → option (gmap string string)
    → types.Map (tri string) * diag.Diagnostics;
  MapValueFrom_CouponCurrencyOptionsModel :
    types.AttrType → gmap string CouponCurrencyOptionsModel.t
    → types.Map CouponCurrencyOptionsModel.t * diag.Diagnostics;
  ObjectValueFrom_ProductPackageDimensionsResourceModel :
    gmap string types.ScalarType → ProductPackageDimensionsResourceModel.t
    → types.Object ProductPackageDimensionsResourceModel.t * diag.Diagnostics
}.

(** The framework's own conversions. A nil slice or map converts to the
    null value, any other to a known value of the converted elements;
    converting these well-typed Go values raises no diagnostic. *)
#[local] Instance reflect_ValueFrom : ValueFrom := {|
  ListValueFrom t s :=
    (match s with
     | None => types.ListNull t
     | Some l => types.ListValue t (Value <$> l)
     end, []);
  MapValueFrom t m :=
    (match m with
     | None => types.MapNull t
     | Some m => types.MapValue t (Value <$> m)
     end, []);
  MapValueFrom_CouponCurrencyOptionsModel t m := (types.MapValue t m, []);
  ObjectValueFrom_ProductPackageDimensionsResourceModel _ o := (Value o, [])
|}.

(** [m.ElementsAs(ctx, &target, false)] into a Go map of structs: the
    elements of a known map, none for a null map; an unknown map is an
    error and leaves the target as it was (empty, at each call site). *)
Definition ElementsAs {E} (m : types.Map E) : gmap string E * diag.Diagnostics :=
  match types.content m with
  | Null => (∅, [])
  | Unknown =>
      (∅, [diag.NewErrorDiagnostic "Value Conversion Error" "unhandled unknown value"])
  | Value els => (els, [])
  end.

(** [o.As(ctx, &target, ObjectAsOptions{})] into a Go struct: the struct
    of a known object; a null or unknown object is an error and leaves
    the target at its zero value. *)
Definition As (o : types.Object ProductPackageDimensionsResourceModel.t)
  : ProductPackageDimensionsResourceModel.t * diag.Diagnostics :=
  match o with
  | Value s => (s, [])
  | Null =>
      (ProductPackageDimensionsResourceModel.zero,
       [diag.NewErrorDiagnostic "Value Conversion Error" "unhandled null value"])
  | Unknown =>
      (ProductPackageDimensionsResourceModel.zero,
       [diag.NewErrorDiagnostic "Value Conversion Error" "unhandled unknown value"])
  end.

(* ===================================================================== *)
(** ** Shared helpers ([utils.go]) *)
(* ===================================================================== *)

Definition convertListToStringPtrs (tflist : types.List) : Go.slice (option string) :=
  if types.Coll_IsUnknown tflist || types.Coll_IsNull tflist then None
  else
    Go.append_all
      (λ element : tri string,
         if types.IsNull element then None
         else Some (types.ValueString element))
      None (types.List_Elements tflist).

Definition Float64NullIfEmpty (input : spec_float) : types.Float64 :=
  if Go.float64_eq input Go.float64_0 then types.Float64Null
  else types.Float64Value input.

Definition Int64NullIfEmpty (input : Z) : types.Int64 :=
  if Z.eqb input 0 then types.Int64Null else types.Int64Value input.

Definition StringNullIfEmpty (input : string) : types.String :=
  if String.eqb input "" then types.StringNull else types.StringValue input.

Definition ListValueNullIfEmpty (input : types.List) (elementType : types.AttrType)
  : types.List :=
  if types.Coll_IsNull input || Nat.eqb (length (types.List_Elements input)) 0
  then types.ListNull elementType
  else input.

Definition MapValueNullIfEmpty {E} (input : types.Map E) (elementType : types.AttrType)
  : types.Map E :=
  if types.Coll_IsNull input || Nat.eqb (size (types.Map_Elements input)) 0
  then types.MapNull elementType
  else input.

Definition EmptyStringIfNull (s : types.String) : option string :=
  if types.IsNull s then stripe.String "" else types.ValueStringPointer s.

(** [if diags.HasError() { respDiag.Append(diags...) }] on the callee's
    own copy [respDiag] of the diagnostics. *)
Definition appendIfError (respDiag diags : diag.Diagnostics) : diag.Diagnostics :=
  if diag.HasError diags then diag.Append respDiag diags else respDiag.

(** The block shared by the three [buildUpdateParams]:
    [for k, v := range planMetadata { params.AddMetadata(k, v.ValueString()) }]
    [for k := range stateMetadata { if _, exists := planMetadata[k]; !exists { params.AddMetadata(k, "") } }]. *)
Definition addPlanMetadata `{MapRange} (planMetadata : gmap string (tri string))
    (md : option (gmap string string)) : option (gmap string string) :=
  fold_left (λ md kv, stripe.AddMetadata md kv.1 (types.ValueString kv.2))
            (range planMetadata) md.

Definition clearStateMetadata `{MapRange} (planMetadata stateMetadata : gmap string (tri string))
    (md : option (gmap string string)) : option (gmap string string) :=
  fold_left (λ md kv, match planMetadata !! kv.1 with
                      | None => stripe.AddMetadata md kv.1 ""
                      | Some _ => md
                      end)
            (range stateMetadata) md.

Definition updateMetadata `{MapRange} (state plan : types.Map (tri string))
  : option (gmap string string) :=
  if negb (types.Map_Equal types.String_Equal plan state) then
    let planMetadata := types.Map_Elements plan in
    let stateMetadata := types.Map_Elements state in
    clearStateMetadata planMetadata stateMetadata
      (addPlanMetadata planMetadata None)
  else None.

(** [fmt.Sprintf("...: %s", diags)]: the text of the diagnostics, rendered
    here as their summaries and details. *)
Definition Sprintf_diags (pfx : string) (ds : diag.Diagnostics) : string :=
  pfx +:+ String.concat "; " ((λ d, diag.summary d +:+ ": " +:+ diag.detail d) <$> ds).

(* ===================================================================== *)
(** ** Webhook endpoint ([resource_webhook_endpoint.go]) *)
(* ===================================================================== *)

(** [respDiag] is the callee's copy of the caller's diagnostics (a slice
    passed by value); the function returns the model as it leaves it and
    the final value of that copy. *)
Definition WebhookEndpointResource_populateModel `{ValueFrom}
    (model : WebhookEndpointResourceModel.t)
    (webhookEndpoint : stripe.WebhookEndpoint.t)
    (respDiag : diag.Diagnostics)
  : WebhookEndpointResourceModel.t * diag.Diagnostics :=
  let APIVersion' := StringNullIfEmpty (stripe.WebhookEndpoint.APIVersion webhookEndpoint) in
  let Application' := StringNullIfEmpty (stripe.WebhookEndpoint.Application webhookEndpoint) in
  let Description' := StringNullIfEmpty (stripe.WebhookEndpoint.Description webhookEndpoint) in
  let mk ee md dis url :=
    {| WebhookEndpointResourceModel.Id := WebhookEndpointResourceModel.Id model;
       WebhookEndpointResourceModel.APIVersion := APIVersion';
       WebhookEndpointResourceModel.Application := Application';
       WebhookEndpointResourceModel.Description := Description';
       WebhookEndpointResourceModel.Disabled := dis;
       WebhookEndpointResourceModel.EnabledEvents := ee;
       WebhookEndpointResourceModel.Metadata := md;
       WebhookEndpointResourceModel.Secret := WebhookEndpointResourceModel.Secret model;
       WebhookEndpointResourceModel.URL := url |} in
  let '(enabledEvents, diags) :=
    ListValueFrom types.StringType (stripe.WebhookEndpoint.EnabledEvents webhookEndpoint) in
  if diag.HasError diags then
    (mk (WebhookEndpointResourceModel.EnabledEvents model)
        (WebhookEndpointResourceModel.Metadata model)
        (WebhookEndpointResourceModel.Disabled model)
        (WebhookEndpointResourceModel.URL model),
     diag.AddError respDiag "Conversion Error"
       (Sprintf_diags "Error converting enabledEvents: " diags))
  else
    let '(metadata, diags) :=
      MapValueFrom types.StringType (stripe.WebhookEndpoint.Metadata webhookEndpoint) in
    if diag.HasError diags then
      (mk enabledEvents
          (WebhookEndpointResourceModel.Metadata model)
          (WebhookEndpointResourceModel.Disabled model)
          (WebhookEndpointResourceModel.URL model),
       diag.AddError respDiag "Conversion Error"
         (Sprintf_diags "Error converting metadata: " diags))
    else
      (mk enabledEvents
          (MapValueNullIfEmpty metadata types.StringType)
          (if String.eqb (stripe.WebhookEndpoint.Status webhookEndpoint) "disabled"
           then types.BoolValue true else types.BoolValue false)
          (types.StringValue (stripe.WebhookEndpoint.URL webhookEndpoint)),
       respDiag).

Definition WebhookEndpointResource_buildCreateParams `{MapRange}
    (plan : WebhookEndpointResourceModel.t) : stripe.WebhookEndpointParams.t :=
  {| stripe.WebhookEndpointParams.APIVersion :=
       if negb (types.IsNull (WebhookEndpointResourceModel.APIVersion plan))
       then types.ValueStringPointer (WebhookEndpointResourceModel.APIVersion plan)
       else None;
     stripe.WebhookEndpointParams.Description :=
       if negb (types.IsNull (WebhookEndpointResourceModel.Description plan))
       then types.ValueStringPointer (WebhookEndpointResourceModel.Description plan)
       else None;
     stripe.WebhookEndpointParams.Disabled := None;
     stripe.WebhookEndpointParams.EnabledEvents :=
       if negb (types.Coll_IsNull (WebhookEndpointResourceModel.EnabledEvents plan))
       then convertListToStringPtrs (WebhookEndpointResourceModel.EnabledEvents plan)
       else None;
     stripe.WebhookEndpointParams.Metadata :=
       if negb (types.Coll_IsNull (WebhookEndpointResourceModel.Metadata plan))
       then addPlanMetadata
              (types.Map_Elements (WebhookEndpointResourceModel.Metadata plan)) None
       else None;
     stripe.WebhookEndpointParams.URL :=
       if negb (types.IsNull (WebhookEndpointResourceModel.URL plan))
       then types.ValueStringPointer (WebhookEndpointResourceModel.URL plan)
       else None |}.

Definition WebhookEndpointResource_buildUpdateParams `{MapRange}
    (state plan : WebhookEndpointResourceModel.t) : stripe.WebhookEndpointParams.t :=
  {| stripe.WebhookEndpointParams.APIVersion := None;
     stripe.WebhookEndpointParams.Description :=
       if negb (types.String_Equal (WebhookEndpointResourceModel.Description plan)
                                   (WebhookEndpointResourceModel.Description state))
       then
         if types.IsNull (WebhookEndpointResourceModel.Description plan)
         then stripe.String ""
         else types.ValueStringPointer (WebhookEndpointResourceModel.Description plan)
       else None;
     stripe.WebhookEndpointParams.Disabled :=
       if negb (types.Bool_Equal (WebhookEndpointResourceModel.Disabled plan)
                                 (WebhookEndpointResourceModel.Disabled state))
       then types.ValueBoolPointer (WebhookEndpointResourceModel.Disabled plan)
       else None;
     stripe.WebhookEndpointParams.EnabledEvents :=
       if negb (types.List_Equal (WebhookEndpointResourceModel.EnabledEvents plan)
                                 (WebhookEndpointResourceModel.EnabledEvents state))
       then convertListToStringPtrs (WebhookEndpointResourceModel.EnabledEvents plan)
       else None;
     stripe.WebhookEndpointParams.Metadata :=
       updateMetadata (WebhookEndpointResourceModel.Metadata state)
                      (WebhookEndpointResourceModel.Metadata plan);
     stripe.WebhookEndpointParams.URL :=
       if negb (types.String_Equal (WebhookEndpointResourceModel.URL plan)
                                   (WebhookEndpointResourceModel.URL state))
       then types.ValueStringPointer (WebhookEndpointResourceModel.URL plan)
       else None |}.

(* ===================================================================== *)
(** ** Product ([resource_product.go]) *)
(* ===================================================================== *)

(** [h != 0 && l != 0 && w != 0 && wd != 0] on the remote dimensions. *)
Definition allDimensionsSet (d : stripe.ProductPackageDimensions.t) : bool :=
  negb (Go.float64_eq (stripe.ProductPackageDimensions.Height d) Go.float64_0)
  && negb (Go.float64_eq (stripe.ProductPackageDimensions.Length d) Go.float64_0)
  && negb (Go.float64_eq (stripe.ProductPackageDimensions.Weight d) Go.float64_0)
  && negb (Go.float64_eq (stripe.ProductPackageDimensions.Width d) Go.float64_0).

Definition ProductResource_populateModel `{ValueFrom}
    (model : ProductResourceModel.t) (product : stripe.Product.t)
    (respDiag : diag.Diagnostics)
  : ProductResourceModel.t * diag.Diagnostics :=
  let Active' := types.BoolValue (stripe.Product.Active product) in
  let DefaultPrice' :=
    match stripe.Product.DefaultPrice product with
    | Some id => types.StringValue id
    | None => ProductResourceModel.DefaultPrice model
    end in
  let Description' := StringNullIfEmpty (stripe.Product.Description product) in
  let '(images, diags) := ListValueFrom types.StringType (stripe.Product.Images product) in
  let respDiag := appendIfError respDiag diags in
  let Images' := ListValueNullIfEmpty images types.StringType in
  let '(MarketingFeatures', respDiag) :=
    match stripe.Product.MarketingFeatures product with
    | Some features =>
        let marketingFeatures := Go.append_all (λ name : string, name) None features in
        let '(m, diags) := ListValueFrom types.StringType marketingFeatures in
        (ListValueNullIfEmpty m types.StringType, appendIfError respDiag diags)
    | None => (ProductResourceModel.MarketingFeatures model, respDiag)
    end in
  let '(metadata, diags) := MapValueFrom types.StringType (stripe.Product.Metadata product) in
  let respDiag := appendIfError respDiag diags in
  let Metadata' := MapValueNullIfEmpty metadata types.StringType in
  let Name' := types.StringValue (stripe.Product.Name product) in
  let '(PackageDimensions', respDiag) :=
    match stripe.Product.PackageDimensions product with
    | Some d =>
        if allDimensionsSet d then
          let '(p, diags) :=
            ObjectValueFrom_ProductPackageDimensionsResourceModel
              ProductPackageDimensionsResourceModel.Types
              {| ProductPackageDimensionsResourceModel.Height :=
                   types.Float64Value (stripe.ProductPackageDimensions.Height d);
                 ProductPackageDimensionsResourceModel.Length :=
                   types.Float64Value (stripe.ProductPackageDimensions.Length d);
                 ProductPackageDimensionsResourceModel.Weight :=
                   types.Float64Value (stripe.ProductPackageDimensions.Weight d);
                 ProductPackageDimensionsResourceModel.Width :=
                   types.Float64Value (stripe.ProductPackageDimensions.Width d) |} in
          (p, appendIfError respDiag diags)
        else (Null, respDiag)
    | None => (Null, respDiag)
    end in
  ({| ProductResourceModel.Id := ProductResourceModel.Id model;
      ProductResourceModel.Active := Active';
      ProductResourceModel.DefaultPrice := DefaultPrice';
      ProductResourceModel.Description := Description';
      ProductResourceModel.Images := Images';
      ProductResourceModel.MarketingFeatures := MarketingFeatures';
      ProductResourceModel.Metadata := Metadata';
      ProductResourceModel.Name := Name';
      ProductResourceModel.PackageDimensions := PackageDimensions';
      ProductResourceModel.Shippable := types.BoolValue (stripe.Product.Shippable product);
      ProductResourceModel.StatementDescriptor :=
        StringNullIfEmpty (stripe.Product.StatementDescriptor product);
      ProductResourceModel.TaxCode :=
        match stripe.Product.TaxCode product with
        | Some id => types.StringValue id
        | None => ProductResourceModel.TaxCode model
        end;
      ProductResourceModel.UnitLabel := StringNullIfEmpty (stripe.Product.UnitLabel product);
      ProductResourceModel.URL := StringNullIfEmpty (stripe.Product.URL product) |},
   respDiag).

(** [&stripe.ProductPackageDimensionsParams{...}] from the four
    [ValueFloat64Pointer()] of the converted struct. *)
Definition packageDimensionsParams (p : ProductPackageDimensionsResourceModel.t)
  : stripe.ProductPackageDimensionsParams.t :=
  {| stripe.ProductPackageDimensionsParams.Height :=
       types.ValueFloat64Pointer (ProductPackageDimensionsResourceModel.Height p);
     stripe.ProductPackageDimensionsParams.Length :=
       types.ValueFloat64Pointer (ProductPackageDimensionsResourceModel.Length p);
     stripe.ProductPackageDimensionsParams.Weight :=
       types.ValueFloat64Pointer (ProductPackageDimensionsResourceModel.Weight p);
     stripe.ProductPackageDimensionsParams.Width :=
       types.ValueFloat64Pointer (ProductPackageDimensionsResourceModel.Width p) |}.

(** [params.MarketingFeatures = []*ProductMarketingFeatureParams{}] and
    one [append] per element of the plan's list. *)
Definition marketingFeaturesParams (l : types.List) : Go.slice (option string) :=
  Go.append_all (λ str : tri string, types.ValueStringPointer str)
                (Some []) (types.List_Elements l).

(** The diagnostics the builders append go to their own copy of
    [respDiag]; the builders return the parameters only. *)
Definition ProductResource_buildCreateParams `{MapRange}
    (plan : ProductResourceModel.t) : stripe.ProductParams.t :=
  let str (v : types.String) :=
    if negb (types.IsUnknown v) then types.ValueStringPointer v else None in
  let boolean (v : types.Bool) :=
    if negb (types.IsUnknown v) then types.ValueBoolPointer v else None in
  {| stripe.ProductParams.ID := str (ProductResourceModel.Id plan);
     stripe.ProductParams.Active := boolean (ProductResourceModel.Active plan);
     stripe.ProductParams.DefaultPrice := str (ProductResourceModel.DefaultPrice plan);
     stripe.ProductParams.Description := str (ProductResourceModel.Description plan);
     stripe.ProductParams.Images :=
       if negb (types.Coll_IsUnknown (ProductResourceModel.Images plan))
       then convertListToStringPtrs (ProductResourceModel.Images plan)
       else None;
     stripe.ProductParams.MarketingFeatures :=
       if negb (types.Coll_IsUnknown (ProductResourceModel.MarketingFeatures plan))
          && negb (types.Coll_IsNull (ProductResourceModel.MarketingFeatures plan))
       then marketingFeaturesParams (ProductResourceModel.MarketingFeatures plan)
       else None;
     stripe.ProductParams.Metadata :=
       if negb (types.Coll_IsNull (ProductResourceModel.Metadata plan))
       then addPlanMetadata (types.Map_Elements (ProductResourceModel.Metadata plan)) None
       else None;
     stripe.ProductParams.Name := str (ProductResourceModel.Name plan);
     stripe.ProductParams.PackageDimensions :=
       if negb (types.IsUnknown (ProductResourceModel.PackageDimensions plan))
          && negb (types.IsNull (ProductResourceModel.PackageDimensions plan))
       then Some (packageDimensionsParams
                    (As (ProductResourceModel.PackageDimensions plan)).1)
       else None;
     stripe.ProductParams.Shippable := boolean (ProductResourceModel.Shippable plan);
     stripe.ProductParams.StatementDescriptor :=
       str (ProductResourceModel.StatementDescriptor plan);
     stripe.ProductParams.TaxCode := str (ProductResourceModel.TaxCode plan);
     stripe.ProductParams.UnitLabel := str (ProductResourceModel.UnitLabel plan);
     stripe.ProductParams.URL := str (ProductResourceModel.URL plan) |}.

Definition ProductResource_buildUpdateParams `{MapRange}
    (state plan : ProductResourceModel.t) : stripe.ProductParams.t :=
  let cleared (p s : types.String) :=
    if negb (types.String_Equal p s) then EmptyStringIfNull p else None in
  let boolean (p s : types.Bool) :=
    if negb (types.Bool_Equal p s) then types.ValueBoolPointer p else None in
  {| stripe.ProductParams.ID := None;
     stripe.ProductParams.Active :=
       boolean (ProductResourceModel.Active plan) (ProductResourceModel.Active state);
     stripe.ProductParams.DefaultPrice :=
       cleared (ProductResourceModel.DefaultPrice plan)
               (ProductResourceModel.DefaultPrice state);
     stripe.ProductParams.Description :=
       cleared (ProductResourceModel.Description plan)
               (ProductResourceModel.Description state);
     stripe.ProductParams.Images :=
       if negb (types.List_Equal (ProductResourceModel.Images plan)
                                 (ProductResourceModel.Images state))
       then convertListToStringPtrs (ProductResourceModel.Images plan)
       else None;
     stripe.ProductParams.MarketingFeatures :=
       if negb (types.List_Equal (ProductResourceModel.MarketingFeatures plan)
                                 (ProductResourceModel.MarketingFeatures state))
       then marketingFeaturesParams (ProductResourceModel.MarketingFeatures plan)
       else None;
     stripe.ProductParams.Metadata :=
       updateMetadata (ProductResourceModel.Metadata state)
                      (ProductResourceModel.Metadata plan);
     stripe.ProductParams.Name :=
       if negb (types.String_Equal (ProductResourceModel.Name plan)
                                   (ProductResourceModel.Name state))
       then types.ValueStringPointer (ProductResourceModel.Name plan)
       else None;
     stripe.ProductParams.PackageDimensions :=
       if negb (types.tri_Equal ProductPackageDimensionsResourceModel.Equal
                  (ProductResourceModel.PackageDimensions plan)
                  (ProductResourceModel.PackageDimensions state))
       then
         if types.IsNull (ProductResourceModel.PackageDimensions plan)
         then Some {| stripe.ProductPackageDimensionsParams.Height := stripe.Float64 Go.float64_0;
                      stripe.ProductPackageDimensionsParams.Length := stripe.Float64 Go.float64_0;
                      stripe.ProductPackageDimensionsParams.Weight := stripe.Float64 Go.float64_0;
                      stripe.ProductPackageDimensionsParams.Width := stripe.Float64 Go.float64_0 |}
         else Some (packageDimensionsParams
                      (As (ProductResourceModel.PackageDimensions plan)).1)
       else None;
     stripe.ProductParams.Shippable :=
       boolean (ProductResourceModel.Shippable plan) (ProductResourceModel.Shippable state);
     stripe.ProductParams.StatementDescriptor :=
       cleared (ProductResourceModel.StatementDescriptor plan)
               (ProductResourceModel.StatementDescriptor state);
     stripe.ProductParams.TaxCode :=
       cleared (ProductResourceModel.TaxCode plan) (ProductResourceModel.TaxCode state);
     stripe.ProductParams.UnitLabel :=
       cleared (ProductResourceModel.UnitLabel plan) (ProductResourceModel.UnitLabel state);
     stripe.ProductParams.URL :=
       cleared (ProductResourceModel.URL plan) (ProductResourceModel.URL state) |}.

(* ===================================================================== *)
(** ** Coupon ([resource_coupon.go]) *)
(* ===================================================================== *)

(** The type of the elements of [currency_options]:
    [types.ObjectType{AttrTypes: CouponCurrencyOptionsModel{}.Types()}]. *)
Definition currencyOptionsType : types.AttrType :=
  types.ObjectType CouponCurrencyOptionsModel.Types.

(** The body of [for currency, cco := range coupon.CurrencyOptions]. *)
Definition populateCurrencyOption (coupon : stripe.Coupon.t)
    (currencyOptions : gmap string CouponCurrencyOptionsModel.t)
    (entry : string * stripe.CouponCurrencyOptions.t)
  : gmap string CouponCurrencyOptionsModel.t :=
  let '(currency, cco) := entry in
  <[currency :=
      {| CouponCurrencyOptionsModel.AmountOff :=
           Int64NullIfEmpty (stripe.CouponCurrencyOptions.AmountOff cco);
         CouponCurrencyOptionsModel.TopLevel :=
           if String.eqb (stripe.Coupon.Currency coupon) currency
           then types.BoolValue true else types.BoolValue false |}]>
    currencyOptions.

Definition CouponResource_populateModel `{MapRange} `{ValueFrom}
    (model : CouponResourceModel.t) (coupon : stripe.Coupon.t)
    (respDiag : diag.Diagnostics)
  : CouponResourceModel.t * diag.Diagnostics :=
  let '(AppliesTo', respDiag) :=
    match stripe.Coupon.AppliesTo coupon with
    | Some (Some products) =>
        let '(appliesTo, diags) := ListValueFrom types.StringType (Some products) in
        (ListValueNullIfEmpty appliesTo types.StringType, appendIfError respDiag diags)
    | _ => (types.ListNull types.StringType, respDiag)
    end in
  let currencyOptions :=
    fold_left (populateCurrencyOption coupon)
              (range (default ∅ (stripe.Coupon.CurrencyOptions coupon))) ∅ in
  let '(t, diags) :=
    MapValueFrom_CouponCurrencyOptionsModel currencyOptionsType currencyOptions in
  let respDiag := appendIfError respDiag diags in
  let CurrencyOptions' := MapValueNullIfEmpty t currencyOptionsType in
  let '(metadata, diags) := MapValueFrom types.StringType (stripe.Coupon.Metadata coupon) in
  let respDiag := appendIfError respDiag diags in
  ({| CouponResourceModel.Id := CouponResourceModel.Id model;
      CouponResourceModel.AppliesTo := AppliesTo';
      CouponResourceModel.CurrencyOptions := CurrencyOptions';
      CouponResourceModel.Duration := StringNullIfEmpty (stripe.Coupon.Duration coupon);
      CouponResourceModel.DurationInMonths :=
        Int64NullIfEmpty (stripe.Coupon.DurationInMonths coupon);
      CouponResourceModel.MaxRedemptions :=
        Int64NullIfEmpty (stripe.Coupon.MaxRedemptions coupon);
      CouponResourceModel.Metadata := MapValueNullIfEmpty metadata types.StringType;
      CouponResourceModel.Name := StringNullIfEmpty (stripe.Coupon.Name coupon);
      CouponResourceModel.PercentOff := Float64NullIfEmpty (stripe.Coupon.PercentOff coupon);
      CouponResourceModel.RedeemBy := Int64NullIfEmpty (stripe.Coupon.RedeemBy coupon) |},
   respDiag).

(** What the loop over the plan's currency options writes:
    [params.AmountOff], [params.Currency] and [params.CurrencyOptions]. *)
Record CurrencyRouting := {
  routedAmountOff : option Z;
  routedCurrency : option string;
  routedOptions : gmap string stripe.CouponCurrencyOptionsParams.t
}.

(** The body of [for key, element := range currencyOptions] of
    [buildCreateParams]. *)
Definition routeCurrencyOption (acc : CurrencyRouting)
    (entry : string * CouponCurrencyOptionsModel.t) : CurrencyRouting :=
  let '(key, element) := entry in
  if types.ValueBool (CouponCurrencyOptionsModel.TopLevel element) then
    {| routedAmountOff :=
         types.ValueInt64Pointer (CouponCurrencyOptionsModel.AmountOff element);
       routedCurrency := stripe.String key;
       routedOptions := routedOptions acc |}
  else
    {| routedAmountOff := routedAmountOff acc;
       routedCurrency := routedCurrency acc;
       routedOptions :=
         <[key := {| stripe.CouponCurrencyOptionsParams.AmountOff :=
                       types.ValueInt64Pointer
                         (CouponCurrencyOptionsModel.AmountOff element) |}]>
           (routedOptions acc) |}.

Definition routeCurrencyOptions `{MapRange}
    (currencyOptions : gmap string CouponCurrencyOptionsModel.t) : CurrencyRouting :=
  fold_left routeCurrencyOption (range currencyOptions)
    {| routedAmountOff := None; routedCurrency := None; routedOptions := ∅ |}.

Definition CouponResource_buildCreateParams `{MapRange}
    (data : CouponResourceModel.t) : stripe.CouponParams.t :=
  let str (v : types.String) :=
    if negb (types.IsUnknown v) then types.ValueStringPointer v else None in
  let int (v : types.Int64) :=
    if negb (types.IsUnknown v) then types.ValueInt64Pointer v else None in
  let hasCurrencyOptions :=
    negb (types.Coll_IsUnknown (CouponResourceModel.CurrencyOptions data))
    && negb (types.Coll_IsNull (CouponResourceModel.CurrencyOptions data)) in
  let routing :=
    routeCurrencyOptions (ElementsAs (CouponResourceModel.CurrencyOptions data)).1 in
  {| stripe.CouponParams.Expand := None;
     stripe.CouponParams.ID :=
       if negb (types.IsNull (CouponResourceModel.Id data))
          && negb (types.IsUnknown (CouponResourceModel.Id data))
       then types.ValueStringPointer (CouponResourceModel.Id data)
       else None;
     stripe.CouponParams.AmountOff :=
       if hasCurrencyOptions then routedAmountOff routing else None;
     stripe.CouponParams.AppliesTo :=
       if negb (types.Coll_IsUnknown (CouponResourceModel.AppliesTo data))
          && negb (types.Coll_IsNull (CouponResourceModel.AppliesTo data))
       then Some (Go.append_all (λ str : tri string, types.ValueStringPointer str)
                    None (types.List_Elements (CouponResourceModel.AppliesTo data)))
       else None;
     stripe.CouponParams.Currency :=
       if hasCurrencyOptions then routedCurrency routing else None;
     stripe.CouponParams.CurrencyOptions :=
       if hasCurrencyOptions then Some (routedOptions routing) else None;
     stripe.CouponParams.Duration := str (CouponResourceModel.Duration data);
     stripe.CouponParams.DurationInMonths :=
       int (CouponResourceModel.DurationInMonths data);
     stripe.CouponParams.MaxRedemptions := int (CouponResourceModel.MaxRedemptions data);
     stripe.CouponParams.Metadata :=
       if negb (types.Coll_IsUnknown (CouponResourceModel.Metadata data))
       then addPlanMetadata (types.Map_Elements (CouponResourceModel.Metadata data)) None
       else None;
     stripe.CouponParams.Name := str (CouponResourceModel.Name data);
     stripe.CouponParams.PercentOff :=
       if negb (types.IsUnknown (CouponResourceModel.PercentOff data))
       then types.ValueFloat64Pointer (CouponResourceModel.PercentOff data)
       else None;
     stripe.CouponParams.RedeemBy := int (CouponResourceModel.RedeemBy data) |}.

(** The body of [for k, v := range planCurrencyOptions] of
    [buildUpdateParams]. *)
Definition addCurrencyOption
    (stateCurrencyOptions : gmap string CouponCurrencyOptionsModel.t)
    (acc : gmap string stripe.CouponCurrencyOptionsParams.t)
    (entry : string * CouponCurrencyOptionsModel.t)
  : gmap string stripe.CouponCurrencyOptionsParams.t :=
  let '(k, v) := entry in
  match stateCurrencyOptions !! k with
  | None =>
      <[k := {| stripe.CouponCurrencyOptionsParams.AmountOff :=
                  types.ValueInt64Pointer (CouponCurrencyOptionsModel.AmountOff v) |}]> acc
  | Some _ => acc
  end.

Definition CouponResource_buildUpdateParams `{MapRange}
    (state plan : CouponResourceModel.t) : stripe.CouponParams.t :=
  {| stripe.CouponParams.Expand := None;
     stripe.CouponParams.ID := None;
     stripe.CouponParams.AmountOff := None;
     stripe.CouponParams.AppliesTo := None;
     stripe.CouponParams.Currency := None;
     stripe.CouponParams.CurrencyOptions :=
       if negb (types.Map_Equal CouponCurrencyOptionsModel.Equal
                  (CouponResourceModel.CurrencyOptions plan)
                  (CouponResourceModel.CurrencyOptions state))
       then
         let stateCurrencyOptions :=
           (ElementsAs (CouponResourceModel.CurrencyOptions state)).1 in
         let planCurrencyOptions :=
           (ElementsAs (CouponResourceModel.CurrencyOptions plan)).1 in
         Some (fold_left (addCurrencyOption stateCurrencyOptions)
                         (range planCurrencyOptions) ∅)
       else None;
     stripe.CouponParams.Duration := None;
     stripe.CouponParams.DurationInMonths := None;
     stripe.CouponParams.MaxRedemptions := None;
     stripe.CouponParams.Metadata :=
       updateMetadata (CouponResourceModel.Metadata state)
                      (CouponResourceModel.Metadata plan);
     stripe.CouponParams.Name :=
       if negb (types.String_Equal (CouponResourceModel.Name plan)
                                   (CouponResourceModel.Name state))
       then EmptyStringIfNull (CouponResourceModel.Name plan)
       else None;
     stripe.CouponParams.PercentOff := None;
     stripe.CouponParams.RedeemBy := None |}.

(* ===================================================================== *)
(** ** Price ([resource_price.go]) *)
(* ===================================================================== *)

(** [price.Product] is a pointer the function dereferences: on [nil] it
    panics and there is no result. *)
Definition PriceResource_populateModel
    (model : PriceResourceModel.t) (price : stripe.Price.t)
  : option PriceResourceModel.t :=
  match stripe.Price.Product price with
  | None => None
  | Some productID =>
      Some
        {| PriceResourceModel.Id := PriceResourceModel.Id model;
           PriceResourceModel.Active := types.BoolValue (stripe.Price.Active price);
           PriceResourceModel.BillingScheme :=
             types.StringValue (stripe.Price.BillingScheme price);
           PriceResourceModel.Currency := types.StringValue (stripe.Price.Currency price);
           PriceResourceModel.CurrencyOptions := PriceResourceModel.CurrencyOptions model;
           PriceResourceModel.CustomUnitAmount := PriceResourceModel.CustomUnitAmount model;
           PriceResourceModel.LookupKey := types.StringValue (stripe.Price.LookupKey price);
           PriceResourceModel.Metadata := PriceResourceModel.Metadata model;
           PriceResourceModel.Nickname := types.StringValue (stripe.Price.Nickname price);
           PriceResourceModel.Product := types.StringValue productID;
           PriceResourceModel.Recurring := PriceResourceModel.Recurring model;
           PriceResourceModel.TaxBehavior :=
             types.StringValue (stripe.Price.TaxBehavior price);
           PriceResourceModel.Tiers := types.zero;
           PriceResourceModel.TiersMode := types.StringValue (stripe.Price.TiersMode price);
           PriceResourceModel.TransformQuantity :=
             PriceResourceModel.TransformQuantity model;
           PriceResourceModel.UnitAmount := types.Int64Value (stripe.Price.UnitAmount price);
           PriceResourceModel.UnitAmountDecimal :=
             types.Float64Value (stripe.Price.UnitAmountDecimal price) |}
  end.

Definition PriceResource_buildCreateParams (plan : PriceResourceModel.t)
  : stripe.PriceParams.t := stripe.PriceParams.empty.

Definition PriceResource_buildUpdateParams (state plan : PriceResourceModel.t)
  : stripe.PriceParams.t := stripe.PriceParams.empty.

(* ===================================================================== *)
(** ** Lifecycle handlers *)
(* ===================================================================== *)

Module resource.

(** The response of a lifecycle call, which the handler receives by
    pointer: the state to persist ([None] while [resp.State.Set] was not
    called) and the diagnostics of the invocation. *)
Record Response (M : Type) := {
  State : option M;
  Diagnostics : diag.Diagnostics
}.
Arguments State {M} r.
Arguments Diagnostics {M} r.

(** [resp.Diagnostics = ds], the state left as it is. *)
Definition withDiagnostics {M} (r : Response M) (ds : diag.Diagnostics) : Response M :=
  {| State := State r; Diagnostics := ds |}.

(** [resp.Diagnostics.Append(resp.State.Set(ctx, &m)...)] after the
    diagnostics [ds]: writing a model of the schema's own types into the
    state raises no diagnostic. *)
Definition setState {M} (ds : diag.Diagnostics) (m : M) : Response M :=
  {| State := Some m; Diagnostics := diag.Append ds [] |}.

End resource.

(** The calls a handler makes on the API client [r.sc], in order. *)
Inductive Call :=
| CouponsNew (params : stripe.CouponParams.t)
| CouponsGet (id : string) (params : stripe.CouponParams.t)
| CouponsUpdate (id : string) (params : stripe.CouponParams.t)
| CouponsDel (id : string)
| ProductsNew (params : stripe.ProductParams.t)
| ProductsGet (id : string)
| PricesNew (params : stripe.PriceParams.t)
| PricesGet (id : string)
| PricesUpdate (id : string) (params : stripe.PriceParams.t).

(** The remote API behind [r.sc]: each operation answers with the remote
    object or with an error (its message). *)
Class Client := {
  Coupons_New : stripe.CouponParams.t → stripe.Coupon.t + string;
  Coupons_Get : string → stripe.CouponParams.t → stripe.Coupon.t + string;
  Coupons_Update : string → stripe.CouponParams.t → stripe.Coupon.t + string;
  Coupons_Del : string → stripe.Coupon.t + string;
  Products_New : stripe.ProductParams.t → stripe.Product.t + string;
  Products_Get : string → stripe.Product.t + string
}.

(** [params.AddExpand("currency_options")]. *)
Definition expandCurrencyOptions (params : stripe.CouponParams.t) : stripe.CouponParams.t :=
  stripe.CouponParams.set_Expand params
    (stripe.AddExpand (stripe.CouponParams.Expand params) "currency_options").

(** In each handler [planGet] and [stateGet] are what [req.Plan.Get] and
    [req.State.Get] deliver: the decoded model and the diagnostics of the
    decoding. [populateModel] and the builders are handed
    [resp.Diagnostics] by value; what they append to it stays in their
    copy, which the handler never sees (second component dropped). *)
Definition CouponResource_Create `{MapRange} `{ValueFrom} `{Client}
    (planGet : CouponResourceModel.t * diag.Diagnostics)
    (resp : resource.Response CouponResourceModel.t)
  : resource.Response CouponResourceModel.t * list Call :=
  let '(plan, getDiags) := planGet in
  let diags := diag.Append (resource.Diagnostics resp) getDiags in
  if diag.HasError diags then (resource.withDiagnostics resp diags, [])
  else
    let params := expandCurrencyOptions (CouponResource_buildCreateParams plan) in
    match Coupons_New params with
    | inr err =>
        (resource.withDiagnostics resp
           (diag.AddError diags "Client Error"
              ("Unable to create webhook endpoint, got error: " +:+ err)),
         [CouponsNew params])
    | inl coupon =>
        let plan :=
          CouponResourceModel.set_Id plan (types.StringValue (stripe.Coupon.ID coupon)) in
        let '(plan, _) := CouponResource_populateModel plan coupon diags in
        (resource.setState diags plan, [CouponsNew params])
    end.

Definition CouponResource_Read `{MapRange} `{ValueFrom} `{Client}
    (stateGet : CouponResourceModel.t * diag.Diagnostics)
    (resp : resource.Response CouponResourceModel.t)
  : resource.Response CouponResourceModel.t * list Call :=
  let '(state, getDiags) := stateGet in
  let diags := diag.Append (resource.Diagnostics resp) getDiags in
  if diag.HasError diags then (resource.withDiagnostics resp diags, [])
  else
    let params := expandCurrencyOptions stripe.CouponParams.empty in
    let id := types.ValueString (CouponResourceModel.Id state) in
    match Coupons_Get id params with
    | inr err =>
        (resource.withDiagnostics resp
           (diag.AddError diags "Client Error"
              ("Unable to read webhook endpoint, got error: " +:+ err)),
         [CouponsGet id params])
    | inl coupon =>
        let '(state, _) := CouponResource_populateModel state coupon diags in
        (resource.setState diags state, [CouponsGet id params])
    end.

Definition CouponResource_Update `{MapRange} `{ValueFrom} `{Client}
    (stateGet planGet : CouponResourceModel.t * diag.Diagnostics)
    (resp : resource.Response CouponResourceModel.t)
  : resource.Response CouponResourceModel.t * list Call :=
  let '(state, stateDiags) := stateGet in
  let diags := diag.Append (resource.Diagnostics resp) stateDiags in
  if diag.HasError diags then (resource.withDiagnostics resp diags, [])
  else
    let '(plan, planDiags) := planGet in
    let diags := diag.Append diags planDiags in
    if diag.HasError diags then (resource.withDiagnostics resp diags, [])
    else
      let params := expandCurrencyOptions (CouponResource_buildUpdateParams state plan) in
      let id := types.ValueString (CouponResourceModel.Id plan) in
      match Coupons_Update id params with
      | inr err =>
          (resource.withDiagnostics resp
             (diag.AddError diags "Client Error"
                ("Unable to create webhook endpoint, got error: " +:+ err)),
           [CouponsUpdate id params])
      | inl coupon =>
          let '(plan, _) := CouponResource_populateModel plan coupon diags in
          (resource.setState diags plan, [CouponsUpdate id params])
      end.

Definition CouponResource_Delete `{Client}
    (stateGet : CouponResourceModel.t * diag.Diagnostics)
    (resp : resource.Response CouponResourceModel.t)
  : resource.Response CouponResourceModel.t * list Call :=
  let '(state, getDiags) := stateGet in
  let diags := diag.Append (resource.Diagnostics resp) getDiags in
  if diag.HasError diags then (resource.withDiagnostics resp diags, [])
  else
    let id := types.ValueString (CouponResourceModel.Id state) in
    match Coupons_Del id with
    | inr err =>
        (resource.withDiagnostics resp
           (diag.AddError diags "Client Error"
              ("Unable to delete webhook endpoint, got error: " +:+ err)),
         [CouponsDel id])
    | inl _ => (resource.withDiagnostics resp diags, [CouponsDel id])
    end.

Definition CouponResource_ImportState `{MapRange} `{ValueFrom} `{Client}
    (reqID : string) (resp : resource.Response CouponResourceModel.t)
  : resource.Response CouponResourceModel.t * list Call :=
  let diags := resource.Diagnostics resp in
  let params := expandCurrencyOptions stripe.CouponParams.empty in
  match Coupons_Get reqID params with
  | inr err =>
      (resource.withDiagnostics resp
         (diag.AddError diags "Client Error"
            ("Unable to import webhook endpoint, got error: " +:+ err)),
       [CouponsGet reqID params])
  | inl coupon =>
      let state :=
        CouponResourceModel.set_Id CouponResourceModel.zero (types.StringValue reqID) in
      let '(state, _) := CouponResource_populateModel state coupon diags in
      (resource.setState diags state, [CouponsGet reqID params])
  end.

(** [plan.Id = types.StringValue(product.ID)]. *)
Definition ProductResourceModel_set_Id (m : ProductResourceModel.t) (id : types.String)
  : ProductResourceModel.t :=
  {| ProductResourceModel.Id := id;
     ProductResourceModel.Active := ProductResourceModel.Active m;
     ProductResourceModel.DefaultPrice := ProductResourceModel.DefaultPrice m;
     ProductResourceModel.Description := ProductResourceModel.Description m;
     ProductResourceModel.Images := ProductResourceModel.Images m;
     ProductResourceModel.MarketingFeatures := ProductResourceModel.MarketingFeatures m;
     ProductResourceModel.Metadata := ProductResourceModel.Metadata m;
     ProductResourceModel.Name := ProductResourceModel.Name m;
     ProductResourceModel.PackageDimensions := ProductResourceModel.PackageDimensions m;
     ProductResourceModel.Shippable := ProductResourceModel.Shippable m;
     ProductResourceModel.StatementDescriptor := ProductResourceModel.StatementDescriptor m;
     ProductResourceModel.TaxCode := ProductResourceModel.TaxCode m;
     ProductResourceModel.UnitLabel := ProductResourceModel.UnitLabel m;
     ProductResourceModel.URL := ProductResourceModel.URL m |}.

(** The product handler tests [resp.Diagnostics.HasError()] after the
    builder and after [populateModel]; both tests read the handler's own
    diagnostics, which those calls cannot have changed. *)
Definition ProductResource_Create `{MapRange} `{ValueFrom} `{Client}
    (planGet : ProductResourceModel.t * diag.Diagnostics)
    (resp : resource.Response ProductResourceModel.t)
  : resource.Response ProductResourceModel.t * list Call :=
  let '(plan, getDiags) := planGet in
  let diags := diag.Append (resource.Diagnostics resp) getDiags in
  if diag.HasError diags then (resource.withDiagnostics resp diags, [])
  else
    let params := ProductResource_buildCreateParams plan in
    if diag.HasError diags then (resource.withDiagnostics resp diags, [])
    else
      match Products_New params with
      | inr err =>
          (resource.withDiagnostics resp
             (diag.AddError diags "Client Error"
                ("Unable to create webhook endpoint, got error: " +:+ err)),
           [ProductsNew params])
      | inl product =>
          let plan :=
            ProductResourceModel_set_Id plan (types.StringValue (stripe.Product.ID product)) in
          let '(plan, _) := ProductResource_populateModel plan product diags in
          if diag.HasError diags then (resource.withDiagnostics resp diags, [ProductsNew params])
          else (resource.setState diags plan, [ProductsNew params])
      end.

(** [PriceResource.Delete]: no call on the client. *)
Definition PriceResource_Delete `{Client}
    (stateGet : PriceResourceModel.t * diag.Diagnostics)
    (resp : resource.Response PriceResourceModel.t)
  : resource.Response PriceResourceModel.t * list Call :=
  let '(state, getDiags) := stateGet in
  let diags := diag.Append (resource.Diagnostics resp) getDiags in
  if diag.HasError diags then (resource.withDiagnostics resp diags, [])
  else
    let diags :=
      diag.AddError diags "Client Error"
        "Stripe API does not support deleting prices. Please archive the price instead." in
    if diag.HasError diags then (resource.withDiagnostics resp diags, [])
    else (resource.withDiagnostics resp diags, []).

(* ===================================================================== *)
(** ** The plan modifier of [disabled] ([customboolplanmodifier]) *)
(* ===================================================================== *)

Module planmodifier.

(** [req.State.Raw] is the prior state of the whole resource, null when
    the resource is being created; the modifier only asks whether it is
    null. *)
Record BoolRequest := {
  Path : string;
  ConfigValue : types.Bool;
  PlanValue : types.Bool;
  StateValue : types.Bool;
  State_Raw : tri unit
}.

Record BoolResponse := {
  resp_PlanValue : types.Bool;
  RequiresReplace : bool;
  Diagnostics : diag.Diagnostics
}.

End planmodifier.

Record disallowOnCreateOnValueModifier := { value : bool }.

Definition DisallowOnCreateOnValue (value : bool) : disallowOnCreateOnValueModifier :=
  {| value := value |}.

(** [fmt.Sprintf("%t", b)]. *)
Definition Sprintf_t (b : bool) : string := if b then "true" else "false".

Definition Description (m : disallowOnCreateOnValueModifier) : string :=
  "Cannot create resource with attribute set to " +:+ Sprintf_t (value m).

Definition PlanModifyBool (m : disallowOnCreateOnValueModifier)
    (req : planmodifier.BoolRequest) (resp : planmodifier.BoolResponse)
  : planmodifier.BoolResponse :=
  if types.IsNull (planmodifier.State_Raw req)
     && types.Bool_Equal (planmodifier.PlanValue req) (types.BoolValue (value m))
  then
    {| planmodifier.resp_PlanValue := planmodifier.resp_PlanValue resp;
       planmodifier.RequiresReplace := planmodifier.RequiresReplace resp;
       planmodifier.Diagnostics :=
         diag.AddAttributeError (planmodifier.Diagnostics resp) (planmodifier.Path req)
           "Client Error"
           ("Cannot create resource with attribute set to " +:+ Sprintf_t (value m)) |}
  else resp.

(** The modifier on the [disabled] attribute of the webhook endpoint. *)
Definition disabledPlanModifier : disallowOnCreateOnValueModifier :=
  DisallowOnCreateOnValue true.

(* ===================================================================== *)
(** ** Vocabulary of the properties *)
(* ===================================================================== *)

(** A remote scalar [remote] is null-normalised into [v]: [v] is null
    when [remote] is the zero value, and is [remote] itself otherwise. *)
Definition normalizes {A} (isZero : A → bool) (remote : A) (v : tri A) : Prop :=
  match v with
  | Null => isZero remote = true
  | Unknown => False
  | Value a => a = remote ∧ isZero remote = false
  end.

Definition isEmptyString (s : string) : bool := String.eqb s "".
Definition isZeroInt64 (n : Z) : bool := Z.eqb n 0.
Definition isZeroFloat64 (x : spec_float) : bool := Go.float64_eq x Go.float64_0.

(** A value is concrete: neither null nor unknown. *)
Definition isConcrete {A} (v : tri A) : bool :=
  match v with Value _ => true | _ => false end.

(** A collection value carries its element type, as every list and map
    decoded from Terraform state or plan does. *)
Definition typed {C} (c : types.Coll C) : bool :=
  match types.elementType c with Some _ => true | None => false end.

Definition Float64_isNumber (v : types.Float64) : bool :=
  match v with Value x => negb (Go.float64_isNaN x) | _ => true end.

(** Well-formed models: collections are typed and no float attribute of
    the package dimensions is a NaN (Terraform numbers never are). *)
Definition WebhookEndpointResourceModel_wf (m : WebhookEndpointResourceModel.t) : bool :=
  typed (WebhookEndpointResourceModel.EnabledEvents m)
  && typed (WebhookEndpointResourceModel.Metadata m).

Definition PackageDimensions_wf
    (o : types.Object ProductPackageDimensionsResourceModel.t) : bool :=
  match o with
  | Value p =>
      Float64_isNumber (ProductPackageDimensionsResourceModel.Height p)
      && Float64_isNumber (ProductPackageDimensionsResourceModel.Length p)
      && Float64_isNumber (ProductPackageDimensionsResourceModel.Weight p)
      && Float64_isNumber (ProductPackageDimensionsResourceModel.Width p)
  | _ => true
  end.

Definition ProductResourceModel_wf (m : ProductResourceModel.t) : bool :=
  typed (ProductResourceModel.Images m)
  && typed (ProductResourceModel.MarketingFeatures m)
  && typed (ProductResourceModel.Metadata m)
  && PackageDimensions_wf (ProductResourceModel.PackageDimensions m).

Definition CouponResourceModel_wf (m : CouponResourceModel.t) : bool :=
  typed (CouponResourceModel.CurrencyOptions m)
  && typed (CouponResourceModel.Metadata m).

(** The optional strings of a product that [buildUpdateParams] diffs with
    [EmptyStringIfNull]. *)
Inductive ProductOptionalString :=
| default_price | description | statement_descriptor | tax_code | unit_label | url.

Definition ProductResourceModel_get (f : ProductOptionalString)
    (m : ProductResourceModel.t) : types.String :=
  match f with
  | default_price => ProductResourceModel.DefaultPrice m
  | description => ProductResourceModel.Description m
  | statement_descriptor => ProductResourceModel.StatementDescriptor m
  | tax_code => ProductResourceModel.TaxCode m
  | unit_label => ProductResourceModel.UnitLabel m
  | url => ProductResourceModel.URL m
  end.

Definition ProductParams_get (f : ProductOptionalString)
    (p : stripe.ProductParams.t) : option string :=
  match f with
  | default_price => stripe.ProductParams.DefaultPrice p
  | description => stripe.ProductParams.Description p
  | statement_descriptor => stripe.ProductParams.StatementDescriptor p
  | tax_code => stripe.ProductParams.TaxCode p
  | unit_label => stripe.ProductParams.UnitLabel p
  | url => stripe.ProductParams.URL p
  end.

(** What the metadata of a change-set holds under key [k], given the
    elements of the state's and of the plan's metadata. *)
Definition metadataDiffAt (stateMetadata planMetadata : gmap string (tri string))
    (k : string) : option string :=
  match planMetadata !! k, stateMetadata !! k with
  | Some v, _ => Some (types.ValueString v)
  | None, Some _ => Some ""
  | None, None => None
  end.

(** The entries of a metadata parameter ([nil] has none). *)
Definition metadataAt (md : option (gmap string string)) (k : string) : option string :=
  default ∅ md !! k.

(** The per-currency parameter of one currency option. *)
Definition currencyOptionParams (e : CouponCurrencyOptionsModel.t)
  : stripe.CouponCurrencyOptionsParams.t :=
  {| stripe.CouponCurrencyOptionsParams.AmountOff :=
       types.ValueInt64Pointer (CouponCurrencyOptionsModel.AmountOff e) |}.

Definition isTopLevel (e : CouponCurrencyOptionsModel.t) : bool :=
  types.ValueBool (CouponCurrencyOptionsModel.TopLevel e).

(** A conversion that fails on metadata, as [types.MapValueFrom] does on
    an error: the unknown map and an error diagnostic. The other
    conversions are the framework's. *)
Definition conversionError : diag.Diagnostic :=
  diag.NewErrorDiagnostic "Value Conversion Error"
    "An unexpected error was encountered trying to convert the value.".

Definition failingMapValueFrom : ValueFrom := {|
  ListValueFrom := ListValueFrom (ValueFrom := reflect_ValueFrom);
  MapValueFrom t _ :=
    ({| types.elementType := Some t; types.content := Unknown |}, [conversionError]);
  MapValueFrom_CouponCurrencyOptionsModel :=
    MapValueFrom_CouponCurrencyOptionsModel (ValueFrom := reflect_ValueFrom);
  ObjectValueFrom_ProductPackageDimensionsResourceModel :=
    ObjectValueFrom_ProductPackageDimensionsResourceModel (ValueFrom := reflect_ValueFrom)
|}.

(** A remote API whose coupon operations all answer with [coupon], and
    whose product operations answer with an error. *)
Definition couponClient (coupon : stripe.Coupon.t) : Client := {|
  Coupons_New _ := inl coupon;
  Coupons_Get _ _ := inl coupon;
  Coupons_Update _ _ := inl coupon;
  Coupons_Del _ := inl coupon;
  Products_New _ := inr "no such product";
  Products_Get _ := inr "no such product"
|}.

(** The response a handler starts from. *)
Definition freshResponse {M} : resource.Response M :=
  {| resource.State := None; resource.Diagnostics := [] |}.

(** The error of [PriceResource.Delete]. *)
Definition priceDeleteError : diag.Diagnostic :=
  diag.NewErrorDiagnostic "Client Error"
    "Stripe API does not support deleting prices. Please archive the price instead.".

(** The error of the plan modifier of [disabled] at path [p]. *)
Definition disabledOnCreateError (p : string) : diag.Diagnostic :=
  diag.NewAttributeErrorDiagnostic p "Client Error"
    "Cannot create resource with attribute set to true".

(* ===================================================================== *)
(** ** Sample values (those of the provider's unit tests) *)
(* ===================================================================== *)

(** The floats [1.0], [2.0] and [0.5] in binary64. *)
Definition float64_1 : spec_float := S754_finite false 4503599627370496 (-52).
Definition float64_2 : spec_float := S754_finite false 4503599627370496 (-51).
Definition float64_half : spec_float := S754_finite false 4503599627370496 (-53).

(** The remote product of the test "Empty fields". *)
Definition emptyProduct : stripe.Product.t :=
  {| stripe.Product.ID := "";
     stripe.Product.Active := false;
     stripe.Product.DefaultPrice := None;
     stripe.Product.Description := "";
     stripe.Product.Images := Some [];
     stripe.Product.MarketingFeatures := Some [];
     stripe.Product.Metadata := Some ∅;
     stripe.Product.Name := "";
     stripe.Product.PackageDimensions :=
       Some {| stripe.ProductPackageDimensions.Height := Go.float64_0;
               stripe.ProductPackageDimensions.Length := Go.float64_0;
               stripe.ProductPackageDimensions.Weight := Go.float64_0;
               stripe.ProductPackageDimensions.Width := Go.float64_0 |};
     stripe.Product.Shippable := false;
     stripe.Product.StatementDescriptor := "";
     stripe.Product.TaxCode := None;
     stripe.Product.UnitLabel := "";
     stripe.Product.URL := "" |}.

(** A remote product whose package has no height but the three other
    dimensions. *)
Definition flatProduct : stripe.Product.t :=
  {| stripe.Product.ID := "prod_1";
     stripe.Product.Active := true;
     stripe.Product.DefaultPrice := None;
     stripe.Product.Description := "";
     stripe.Product.Images := None;
     stripe.Product.MarketingFeatures := None;
     stripe.Product.Metadata := None;
     stripe.Product.Name := "Product 1";
     stripe.Product.PackageDimensions :=
       Some {| stripe.ProductPackageDimensions.Height := Go.float64_0;
               stripe.ProductPackageDimensions.Length := float64_2;
               stripe.ProductPackageDimensions.Weight := float64_half;
               stripe.ProductPackageDimensions.Width := float64_1 |};
     stripe.Product.Shippable := true;
     stripe.Product.StatementDescriptor := "";
     stripe.Product.TaxCode := None;
     stripe.Product.UnitLabel := "";
     stripe.Product.URL := "" |}.

(** The product model [ProductResourceModel{Name: types.StringValue(n)}]
    of the test "No fields updated". *)
Definition namedProductModel (n : string) : ProductResourceModel.t :=
  {| ProductResourceModel.Id := Null;
     ProductResourceModel.Active := Null;
     ProductResourceModel.DefaultPrice := Null;
     ProductResourceModel.Description := Null;
     ProductResourceModel.Images := types.zero;
     ProductResourceModel.MarketingFeatures := types.zero;
     ProductResourceModel.Metadata := types.zero;
     ProductResourceModel.Name := types.StringValue n;
     ProductResourceModel.PackageDimensions := Null;
     ProductResourceModel.Shippable := Null;
     ProductResourceModel.StatementDescriptor := Null;
     ProductResourceModel.TaxCode := Null;
     ProductResourceModel.UnitLabel := Null;
     ProductResourceModel.URL := Null |}.

(** A product model as decoded from state: typed null collections. *)
Definition storedProductModel (n : string) (d : types.String) : ProductResourceModel.t :=
  {| ProductResourceModel.Id := types.StringValue "prod_1";
     ProductResourceModel.Active := types.BoolValue true;
     ProductResourceModel.DefaultPrice := Null;
     ProductResourceModel.Description := d;
     ProductResourceModel.Images := types.ListNull types.StringType;
     ProductResourceModel.MarketingFeatures :=
       types.ListValue types.StringType [types.StringValue "Feature 1"];
     ProductResourceModel.Metadata :=
       types.MapValue types.StringType {[ "foo" := types.StringValue "bar" ]};
     ProductResourceModel.Name := types.StringValue n;
     ProductResourceModel.PackageDimensions :=
       Value {| ProductPackageDimensionsResourceModel.Height := types.Float64Value float64_1;
                ProductPackageDimensionsResourceModel.Length := types.Float64Value float64_2;
                ProductPackageDimensionsResourceModel.Weight := types.Float64Value float64_half;
                ProductPackageDimensionsResourceModel.Width := types.Float64Value float64_1 |};
     ProductResourceModel.Shippable := types.BoolValue false;
     ProductResourceModel.StatementDescriptor := Null;
     ProductResourceModel.TaxCode := Null;
     ProductResourceModel.UnitLabel := Null;
     ProductResourceModel.URL := Null |}.

(** A webhook endpoint model as decoded from state. *)
Definition storedWebhookModel (d : types.String) (md : gmap string (tri string))
  : WebhookEndpointResourceModel.t :=
  {| WebhookEndpointResourceModel.Id := types.StringValue "we_1";
     WebhookEndpointResourceModel.APIVersion := Null;
     WebhookEndpointResourceModel.Application := Null;
     WebhookEndpointResourceModel.Description := d;
     WebhookEndpointResourceModel.Disabled := types.BoolValue false;
     WebhookEndpointResourceModel.EnabledEvents :=
       types.ListValue types.StringType [types.StringValue "charge.succeeded"];
     WebhookEndpointResourceModel.Metadata := types.MapValue types.StringType md;
     WebhookEndpointResourceModel.Secret := types.StringValue "whsec";
     WebhookEndpointResourceModel.URL := types.StringValue "https://example.com" |}.

(** The coupon models of the tests of [buildUpdateParams] and
    [buildCreateParams]: a name, currency options and metadata. *)
Definition couponModel (co : types.Map CouponCurrencyOptionsModel.t)
    (md : types.Map (tri string)) (name : types.String) : CouponResourceModel.t :=
  {| CouponResourceModel.Id := Null;
     CouponResourceModel.AppliesTo := types.zero;
     CouponResourceModel.CurrencyOptions := co;
     CouponResourceModel.Duration := Null;
     CouponResourceModel.DurationInMonths := Null;
     CouponResourceModel.MaxRedemptions := Null;
     CouponResourceModel.Metadata := md;
     CouponResourceModel.Name := name;
     CouponResourceModel.PercentOff := Null;
     CouponResourceModel.RedeemBy := Null |}.

Definition currencyOption (amountOff : Z) (topLevel : bool) : CouponCurrencyOptionsModel.t :=
  {| CouponCurrencyOptionsModel.AmountOff := types.Int64Value amountOff;
     CouponCurrencyOptionsModel.TopLevel := types.BoolValue topLevel |}.

Definition currencyOptionsMap (m : gmap string CouponCurrencyOptionsModel.t)
  : types.Map CouponCurrencyOptionsModel.t :=
  types.MapValue currencyOptionsType m.

Definition metadataMap (m : gmap string (tri string)) : types.Map (tri string) :=
  types.MapValue types.StringType m.

(** A remote coupon with metadata. *)
Definition remoteCoupon : stripe.Coupon.t :=
  {| stripe.Coupon.ID := "co_1";
     stripe.Coupon.AmountOff := 0;
     stripe.Coupon.AppliesTo := None;
     stripe.Coupon.Currency := "";
     stripe.Coupon.CurrencyOptions := None;
     stripe.Coupon.Duration := "once";
     stripe.Coupon.DurationInMonths := 0;
     stripe.Coupon.MaxRedemptions := 0;
     stripe.Coupon.Metadata := Some {[ "test" := "test_metadata" ]};
     stripe.Coupon.Name := "test_name";
     stripe.Coupon.PercentOff := Go.float64_0;
     stripe.Coupon.RedeemBy := 0 |}.

(** A remote price without lookup key, nickname or amounts. *)
Definition barePrice : stripe.Price.t :=
  {| stripe.Price.ID := "price_1";
     stripe.Price.Active := true;
     stripe.Price.BillingScheme := "per_unit";
     stripe.Price.Currency := "usd";
     stripe.Price.LookupKey := "";
     stripe.Price.Nickname := "";
     stripe.Price.Product := Some "prod_1";
     stripe.Price.TaxBehavior := "unspecified";
     stripe.Price.TiersMode := "";
     stripe.Price.UnitAmount := 0;
     stripe.Price.UnitAmountDecimal := Go.float64_0 |}.

(** An update of one of the three resources that carry metadata: the
    state and the plan handed to its [buildUpdateParams]. *)
Inductive Update :=
| WebhookEndpointUpdate (state plan : WebhookEndpointResourceModel.t)
| ProductUpdate (state plan : ProductResourceModel.t)
| CouponUpdate (state plan : CouponResourceModel.t).

Definition Update_stateMetadata (u : Update) : types.Map (tri string) :=
  match u with
  | WebhookEndpointUpdate state _ => WebhookEndpointResourceModel.Metadata state
  | ProductUpdate state _ => ProductResourceModel.Metadata state
  | CouponUpdate state _ => CouponResourceModel.Metadata state
  end.

Definition Update_planMetadata (u : Update) : types.Map (tri string) :=
  match u with
  | WebhookEndpointUpdate _ plan => WebhookEndpointResourceModel.Metadata plan
  | ProductUpdate _ plan => ProductResourceModel.Metadata plan
  | CouponUpdate _ plan => CouponResourceModel.Metadata plan
  end.

(** The metadata of the change-set the resource's builder returns. *)
Definition Update_paramsMetadata `{MapRange} (u : Update) : option (gmap string string) :=
  match u with
  | WebhookEndpointUpdate state plan =>
      stripe.WebhookEndpointParams.Metadata
        (WebhookEndpointResource_buildUpdateParams state plan)
  | ProductUpdate state plan =>
      stripe.ProductParams.Metadata (ProductResource_buildUpdateParams state plan)
  | CouponUpdate state plan =>
      stripe.CouponParams.Metadata (CouponResource_buildUpdateParams state plan)
  end.

(** The clear semantics of an optional string: [sent] is what the
    change-set holds for a field whose state and plan are [state] and
    [plan]. A value cleared by the plan is sent as the empty string; a
    value the plan sets, other than the state's, is sent as it is. *)
Definition clearsOrSends (state plan : types.String) (sent : option string) : Prop :=
  (∀ x, state = types.StringValue x → plan = types.StringNull → sent = Some "")
  ∧ (∀ v, plan = types.StringValue v → state ≠ types.StringValue v → sent = Some v).

(** The object [populateModel] makes of remote package dimensions. *)
Definition packageDimensionsObject (d : stripe.ProductPackageDimensions.t)
  : ProductPackageDimensionsResourceModel.t :=
  {| ProductPackageDimensionsResourceModel.Height :=
       types.Float64Value (stripe.ProductPackageDimensions.Height d);
     ProductPackageDimensionsResourceModel.Length :=
       types.Float64Value (stripe.ProductPackageDimensions.Length d);
     ProductPackageDimensionsResourceModel.Weight :=
       types.Float64Value (stripe.ProductPackageDimensions.Weight d);
     ProductPackageDimensionsResourceModel.Width :=
       types.Float64Value (stripe.ProductPackageDimensions.Width d) |}.

(** The four dimensions are all different from zero. *)
Definition allNonZero (d : stripe.ProductPackageDimensions.t) : Prop :=
  isZeroFloat64 (stripe.ProductPackageDimensions.Height d) = false
  ∧ isZeroFloat64 (stripe.ProductPackageDimensions.Length d) = false
  ∧ isZeroFloat64 (stripe.ProductPackageDimensions.Weight d) = false
  ∧ isZeroFloat64 (stripe.ProductPackageDimensions.Width d) = false.

(** One of the four dimensions is zero. *)
Definition someZero (d : stripe.ProductPackageDimensions.t) : Prop :=
  isZeroFloat64 (stripe.ProductPackageDimensions.Height d) = true
  ∨ isZeroFloat64 (stripe.ProductPackageDimensions.Length d) = true
  ∨ isZeroFloat64 (stripe.ProductPackageDimensions.Weight d) = true
  ∨ isZeroFloat64 (stripe.ProductPackageDimensions.Width d) = true.

(* ===================================================================== *)
(** ** Further code of the provider *)
(* ===================================================================== *)

(** [convertSetToStringPtrs] ([utils.go]); a [types.Set] has the shape of
    a list: an element type and, when known, its elements. *)
Definition convertSetToStringPtrs (set : types.List) : Go.slice (option string) :=
  if types.Coll_IsUnknown set || types.Coll_IsNull set then None
  else
    Go.append_all
      (λ element : tri string,
         if types.IsNull element then None
         else Some (types.ValueString element))
      None (types.List_Elements set).

(** *** The replacement rule of the coupon's [currency_options]
    ([RequiresReplaceIf] in [CouponResource.Schema]) *)

Module mapplanmodifier.
Record MapRequest := {
  PlanValue : types.Map CouponCurrencyOptionsModel.t;
  StateValue : types.Map CouponCurrencyOptionsModel.t
}.
Record RequiresReplaceIfFuncResponse := {
  Diagnostics : diag.Diagnostics;
  RequiresReplace : bool
}.
End mapplanmodifier.

(** Go's [a != b] on two [types.Int64] or two [types.Bool]: the structs
    differ. *)
Definition tri_ne {A} `{EqDecision A} (a b : tri A) : bool := negb (bool_decide (a = b)).

(** The body of [for k, v := range planCurrencyOptions]. *)
Definition replaceIfChanged
    (stateCurrencyOptions : gmap string CouponCurrencyOptionsModel.t)
    (requiresReplace : bool) (entry : string * CouponCurrencyOptionsModel.t) : bool :=
  let '(k, v) := entry in
  match stateCurrencyOptions !! k with
  | Some s =>
      let requiresReplace :=
        if tri_ne (CouponCurrencyOptionsModel.AmountOff s)
                  (CouponCurrencyOptionsModel.AmountOff v)
        then true else requiresReplace in
      if tri_ne (CouponCurrencyOptionsModel.TopLevel s)
                (CouponCurrencyOptionsModel.TopLevel v)
      then true else requiresReplace
  | None => requiresReplace
  end.

(** The body of [for k := range stateCurrencyOptions]. *)
Definition replaceIfRemoved
    (planCurrencyOptions : gmap string CouponCurrencyOptionsModel.t)
    (requiresReplace : bool) (entry : string * CouponCurrencyOptionsModel.t) : bool :=
  match planCurrencyOptions !! entry.1 with
  | None => true
  | Some _ => requiresReplace
  end.

Definition CouponResource_currencyOptionsRequiresReplaceIf `{MapRange}
    (request : mapplanmodifier.MapRequest)
    (response : mapplanmodifier.RequiresReplaceIfFuncResponse)
  : mapplanmodifier.RequiresReplaceIfFuncResponse :=
  if types.Map_Equal CouponCurrencyOptionsModel.Equal
       (mapplanmodifier.PlanValue request) (mapplanmodifier.StateValue request)
  then response
  else
    let planCurrencyOptions := (ElementsAs (mapplanmodifier.PlanValue request)).1 in
    let stateCurrencyOptions := (ElementsAs (mapplanmodifier.StateValue request)).1 in
    {| mapplanmodifier.Diagnostics := mapplanmodifier.Diagnostics response;
       mapplanmodifier.RequiresReplace :=
         fold_left (replaceIfRemoved planCurrencyOptions) (range stateCurrencyOptions)
           (fold_left (replaceIfChanged stateCurrencyOptions) (range planCurrencyOptions)
              (mapplanmodifier.RequiresReplace response)) |}.

(** *** The provider ([provider.go]) *)

Module provider.
(** [resp.DataSourceData] and [resp.ResourceData] hold the API client
    made by [client.New(apiKey, nil)], given here by its key. *)
Record ConfigureResponse := {
  Diagnostics : diag.Diagnostics;
  DataSourceData : option string;
  ResourceData : option string
}.
Definition withDiagnostics (r : ConfigureResponse) (ds : diag.Diagnostics)
  : ConfigureResponse :=
  {| Diagnostics := ds; DataSourceData := DataSourceData r;
     ResourceData := ResourceData r |}.
End provider.

(** [configGet] is what [req.Config.Get] delivers: the [api_key] of the
    configuration and the diagnostics of the decoding; [env] is
    [os.Getenv("STRIPE_API_KEY")], empty when the variable is not set. *)
Definition StripeProvider_Configure
    (configGet : types.String * diag.Diagnostics) (env : string)
    (resp : provider.ConfigureResponse) : provider.ConfigureResponse :=
  let '(APIKey, getDiags) := configGet in
  let diags := diag.Append (provider.Diagnostics resp) getDiags in
  if diag.HasError diags then provider.withDiagnostics resp diags
  else
    let diags :=
      if types.IsUnknown APIKey
      then diag.AddAttributeError diags "api_key" "Unknown Stripe API key"
             "The Stripe API key must be set."
      else diags in
    if diag.HasError diags then provider.withDiagnostics resp diags
    else
      let apiKey := if negb (types.IsNull APIKey) then types.ValueString APIKey else env in
      let diags :=
        if String.eqb apiKey ""
        then diag.AddAttributeError diags "api_key" "Missing Stripe API key"
               "The Stripe API key must be set."
        else diags in
      if diag.HasError diags then provider.withDiagnostics resp diags
      else
        {| provider.Diagnostics := diags;
           provider.DataSourceData := Some apiKey;
           provider.ResourceData := Some apiKey |}.

(** *** The lifecycle of the webhook endpoint
    ([resource_webhook_endpoint.go]) *)

Inductive WebhookEndpointCall :=
| WebhookEndpointsNew (params : stripe.WebhookEndpointParams.t)
| WebhookEndpointsGet (id : string)
| WebhookEndpointsUpdate (id : string) (params : stripe.WebhookEndpointParams.t)
| WebhookEndpointsDel (id : string).

Class WebhookEndpointClient := {
  WebhookEndpoints_New :
    stripe.WebhookEndpointParams.t → stripe.WebhookEndpoint.t + string;
  WebhookEndpoints_Get : string → stripe.WebhookEndpoint.t + string;
  WebhookEndpoints_Update :
    string → stripe.WebhookEndpointParams.t → stripe.WebhookEndpoint.t + string;
  WebhookEndpoints_Del : string → stripe.WebhookEndpoint.t + string
}.

(** [plan.Id = ...; plan.Secret = ...]. *)
Definition WebhookEndpointResourceModel_set_Id_Secret
    (m : WebhookEndpointResourceModel.t) (id secret : types.String)
  : WebhookEndpointResourceModel.t :=
  {| WebhookEndpointResourceModel.Id := id;
     WebhookEndpointResourceModel.APIVersion := WebhookEndpointResourceModel.APIVersion m;
     WebhookEndpointResourceModel.Application := WebhookEndpointResourceModel.Application m;
     WebhookEndpointResourceModel.Description := WebhookEndpointResourceModel.Description m;
     WebhookEndpointResourceModel.Disabled := WebhookEndpointResourceModel.Disabled m;
     WebhookEndpointResourceModel.EnabledEvents :=
       WebhookEndpointResourceModel.EnabledEvents m;
     WebhookEndpointResourceModel.Metadata := WebhookEndpointResourceModel.Metadata m;
     WebhookEndpointResourceModel.Secret := secret;
     WebhookEndpointResourceModel.URL := WebhookEndpointResourceModel.URL m |}.

Definition WebhookEndpointResource_Create `{MapRange} `{ValueFrom} `{WebhookEndpointClient}
    (planGet : WebhookEndpointResourceModel.t * diag.Diagnostics)
    (resp : resource.Response WebhookEndpointResourceModel.t)
  : resource.Response WebhookEndpointResourceModel.t * list WebhookEndpointCall :=
  let '(plan, getDiags) := planGet in
  let diags := diag.Append (resource.Diagnostics resp) getDiags in
  if diag.HasError diags then (resource.withDiagnostics resp diags, [])
  else if diag.HasError diags then (resource.withDiagnostics resp diags, [])
  else
    let params := WebhookEndpointResource_buildCreateParams plan in
    match WebhookEndpoints_New params with
    | inr err =>
        (resource.withDiagnostics resp
           (diag.AddError diags "Client Error"
              ("Unable to create webhook endpoint, got error: " +:+ err)),
         [WebhookEndpointsNew params])
    | inl webhookEndpoint =>
        let plan :=
          WebhookEndpointResourceModel_set_Id_Secret plan
            (types.StringValue (stripe.WebhookEndpoint.ID webhookEndpoint))
            (types.StringValue (stripe.WebhookEndpoint.Secret webhookEndpoint)) in
        let '(plan, _) := WebhookEndpointResource_populateModel plan webhookEndpoint diags in
        (resource.setState diags plan, [WebhookEndpointsNew params])
    end.

Definition WebhookEndpointResource_Read `{ValueFrom} `{WebhookEndpointClient}
    (stateGet : WebhookEndpointResourceModel.t * diag.Diagnostics)
    (resp : resource.Response WebhookEndpointResourceModel.t)
  : resource.Response WebhookEndpointResourceModel.t * list WebhookEndpointCall :=
  let '(state, getDiags) := stateGet in
  let diags := diag.Append (resource.Diagnostics resp) getDiags in
  if diag.HasError diags then (resource.withDiagnostics resp diags, [])
  else
    let id := types.ValueString (WebhookEndpointResourceModel.Id state) in
    match WebhookEndpoints_Get id with
    | inr err =>
        (resource.withDiagnostics resp
           (diag.AddError diags "Client Error"
              ("Unable to read webhook endpoint, got error: " +:+ err)),
         [WebhookEndpointsGet id])
    | inl webhookEndpoint =>
        let '(state, _) := WebhookEndpointResource_populateModel state webhookEndpoint diags in
        (resource.setState diags state, [WebhookEndpointsGet id])
    end.

Definition WebhookEndpointResource_Update `{MapRange} `{ValueFrom} `{WebhookEndpointClient}
    (stateGet planGet : WebhookEndpointResourceModel.t * diag.Diagnostics)
    (resp : resource.Response WebhookEndpointResourceModel.t)
  : resource.Response WebhookEndpointResourceModel.t * list WebhookEndpointCall :=
  let '(state, stateDiags) := stateGet in
  let diags := diag.Append (resource.Diagnostics resp) stateDiags in
  if diag.HasError diags then (resource.withDiagnostics resp diags, [])
  else
    let '(plan, planDiags) := planGet in
    let diags := diag.Append diags planDiags in
    if diag.HasError diags then (resource.withDiagnostics resp diags, [])
    else
      let params := WebhookEndpointResource_buildUpdateParams state plan in
      let id := types.ValueString (WebhookEndpointResourceModel.Id plan) in
      match WebhookEndpoints_Update id params with
      | inr err =>
          (resource.withDiagnostics resp
             (diag.AddError diags "Client Error"
                ("Unable to create webhook endpoint, got error: " +:+ err)),
           [WebhookEndpointsUpdate id params])
      | inl webhookEndpoint =>
          let '(plan, _) := WebhookEndpointResource_populateModel plan webhookEndpoint diags in
          (resource.setState diags plan, [WebhookEndpointsUpdate id params])
      end.

Definition WebhookEndpointResource_Delete `{WebhookEndpointClient}
    (stateGet : WebhookEndpointResourceModel.t * diag.Diagnostics)
    (resp : resource.Response WebhookEndpointResourceModel.t)
  : resource.Response WebhookEndpointResourceModel.t * list WebhookEndpointCall :=
  let '(state, getDiags) := stateGet in
  let diags := diag.Append (resource.Diagnostics resp) getDiags in
  if diag.HasError diags then (resource.withDiagnostics resp diags, [])
  else
    let id := types.ValueString (WebhookEndpointResourceModel.Id state) in
    match WebhookEndpoints_Del id with
    | inr err =>
        (resource.withDiagnostics resp
           (diag.AddError diags "Client Error"
              ("Unable to delete webhook endpoint, got error: " +:+ err)),
         [WebhookEndpointsDel id])
    | inl _ => (resource.withDiagnostics resp diags, [WebhookEndpointsDel id])
    end.

Definition WebhookEndpointResource_ImportState `{ValueFrom} `{WebhookEndpointClient}
    (reqID : string) (resp : resource.Response WebhookEndpointResourceModel.t)
  : resource.Response WebhookEndpointResourceModel.t * list WebhookEndpointCall :=
  let diags := resource.Diagnostics resp in
  match WebhookEndpoints_Get reqID with
  | inr err =>
      (resource.withDiagnostics resp
         (diag.AddError diags "Client Error"
            ("Unable to import webhook endpoint, got error: " +:+ err)),
       [WebhookEndpointsGet reqID])
  | inl webhookEndpoint =>
      let state :=
        WebhookEndpointResourceModel_set_Id_Secret WebhookEndpointResourceModel.zero
          (types.StringValue reqID)
          (WebhookEndpointResourceModel.Secret WebhookEndpointResourceModel.zero) in
      let '(state, _) := WebhookEndpointResource_populateModel state webhookEndpoint diags in
      (resource.setState diags state, [WebhookEndpointsGet reqID])
  end.

(** *** Reading and importing a product ([resource_product.go]) *)



(** A lifecycle call on the coupon handler, with what the request
    delivers. *)
Inductive CouponOperation :=
| CouponCreate (planGet : CouponResourceModel.t * diag.Diagnostics)
| CouponRead (stateGet : CouponResourceModel.t * diag.Diagnostics)
| CouponUpdateOp (stateGet planGet : CouponResourceModel.t * diag.Diagnostics)
| CouponDelete (stateGet : CouponResourceModel.t * diag.Diagnostics)
| CouponImportState (reqID : string).

Definition CouponResource_invoke `{MapRange} `{ValueFrom} `{Client}
    (op : CouponOperation) (resp : resource.Response CouponResourceModel.t)
  : resource.Response CouponResourceModel.t * list Call :=
  match op with
  | CouponCreate planGet => CouponResource_Create planGet resp
  | CouponRead stateGet => CouponResource_Read stateGet resp
  | CouponUpdateOp stateGet planGet => CouponResource_Update stateGet planGet resp
  | CouponDelete stateGet => CouponResource_Delete stateGet resp
  | CouponImportState reqID => CouponResource_ImportState reqID resp
  end.

(** The diagnostics of decoding the request of an operation. *)
Definition CouponOperation_decodeDiags (op : CouponOperation) : diag.Diagnostics :=
  match op with
  | CouponCreate planGet => planGet.2
  | CouponRead stateGet => stateGet.2
  | CouponUpdateOp stateGet planGet => stateGet.2 ++ planGet.2
  | CouponDelete stateGet => stateGet.2
  | CouponImportState _ => []
  end.

(** A lifecycle call on the webhook endpoint handler. *)
Inductive WebhookEndpointOperation :=
| WebhookEndpointCreate (planGet : WebhookEndpointResourceModel.t * diag.Diagnostics)
| WebhookEndpointRead (stateGet : WebhookEndpointResourceModel.t * diag.Diagnostics)
| WebhookEndpointUpdateOp
    (stateGet planGet : WebhookEndpointResourceModel.t * diag.Diagnostics)
| WebhookEndpointDelete (stateGet : WebhookEndpointResourceModel.t * diag.Diagnostics)
| WebhookEndpointImportState (reqID : string).

Definition WebhookEndpointResource_invoke `{MapRange} `{ValueFrom} `{WebhookEndpointClient}
    (op : WebhookEndpointOperation)
    (resp : resource.Response WebhookEndpointResourceModel.t)
  : resource.Response WebhookEndpointResourceModel.t * list WebhookEndpointCall :=
  match op with
  | WebhookEndpointCreate planGet => WebhookEndpointResource_Create planGet resp
  | WebhookEndpointRead stateGet => WebhookEndpointResource_Read stateGet resp
  | WebhookEndpointUpdateOp stateGet planGet =>
      WebhookEndpointResource_Update stateGet planGet resp
  | WebhookEndpointDelete stateGet => WebhookEndpointResource_Delete stateGet resp
  | WebhookEndpointImportState reqID => WebhookEndpointResource_ImportState reqID resp
  end.

(** A remote API for webhook endpoints that answers every call with an
    error. *)
Definition failingWebhookEndpointClient (err : string) : WebhookEndpointClient := {|
  WebhookEndpoints_New _ := inr err;
  WebhookEndpoints_Get _ := inr err;
  WebhookEndpoints_Update _ _ := inr err;
  WebhookEndpoints_Del _ := inr err
|}.

(** A remote API for webhook endpoints that answers every call with
    [we]. *)
Definition webhookEndpointClient (we : stripe.WebhookEndpoint.t) : WebhookEndpointClient := {|
  WebhookEndpoints_New _ := inl we;
  WebhookEndpoints_Get _ := inl we;
  WebhookEndpoints_Update _ _ := inl we;
  WebhookEndpoints_Del _ := inl we
|}.

(** The remote webhook endpoint of the test "all fields populated", with
    an identifier and a secret. *)
Definition remoteWebhookEndpoint : stripe.WebhookEndpoint.t :=
  {| stripe.WebhookEndpoint.ID := "we_1";
     stripe.WebhookEndpoint.APIVersion := "2024-09-30";
     stripe.WebhookEndpoint.Application := "app_id";
     stripe.WebhookEndpoint.Description := "Test description";
     stripe.WebhookEndpoint.EnabledEvents := Some ["event1"; "event2"];
     stripe.WebhookEndpoint.Metadata := Some {[ "key" := "value" ]};
     stripe.WebhookEndpoint.Secret := "whsec_1";
     stripe.WebhookEndpoint.Status := "enabled";
     stripe.WebhookEndpoint.URL := "https://example.com" |}.

(** The all-zero package dimensions that clear the remote ones. *)
Definition zeroPackageDimensionsParams : stripe.ProductPackageDimensionsParams.t :=
  {| stripe.ProductPackageDimensionsParams.Height := Some Go.float64_0;
     stripe.ProductPackageDimensionsParams.Length := Some Go.float64_0;
     stripe.ProductPackageDimensionsParams.Weight := Some Go.float64_0;
     stripe.ProductPackageDimensionsParams.Width := Some Go.float64_0 |}.

(** The pointer a builder makes of a null-normalised scalar: [nil] for
    the zero value. *)
Definition nonZeroPointer {A} (isZero : A → bool) (x : A) : option A :=
  if isZero x then None else Some x.

(** A remote list is null-normalised into [v]: the null list of strings
    when the remote list is nil or empty, the known list of its strings
    otherwise. *)
Definition normalizedList (remote : Go.slice string) (v : types.List) : Prop :=
  match remote with
  | Some (x :: xs) => v = types.ListValue types.StringType (Value <$> (x :: xs))
  | _ => v = types.ListNull types.StringType
  end.

(** A remote metadata map is null-normalised into [v]. *)
Definition normalizedMap (remote : option (gmap string string))
    (v : types.Map (tri string)) : Prop :=
  (default ∅ remote = ∅ ∧ v = types.MapNull types.StringType)
  ∨ (default ∅ remote ≠ ∅
     ∧ v = types.MapValue types.StringType (Value <$> default ∅ remote)).

(** No remote dimension is a NaN (a JSON number never is). *)
Definition dimensionsAreNumbers (product : stripe.Product.t) : bool :=
  match stripe.Product.PackageDimensions product with
  | Some d =>
      negb (Go.float64_isNaN (stripe.ProductPackageDimensions.Height d))
      && negb (Go.float64_isNaN (stripe.ProductPackageDimensions.Length d))
      && negb (Go.float64_isNaN (stripe.ProductPackageDimensions.Weight d))
      && negb (Go.float64_isNaN (stripe.ProductPackageDimensions.Width d))
  | None => true
  end.

(** The pointers a builder makes of a remote list of strings that went
    through the model: [nil] for no element. *)
Definition pointersOf (remote : Go.slice string) : Go.slice (option string) :=
  match remote with
  | Some (x :: xs) => Some (Some <$> (x :: xs))
  | _ => None
  end.

(** The parameters that carry the four remote dimensions. *)
Definition remoteDimensionsParams (d : stripe.ProductPackageDimensions.t)
  : stripe.ProductPackageDimensionsParams.t :=
  {| stripe.ProductPackageDimensionsParams.Height :=
       Some (stripe.ProductPackageDimensions.Height d);
     stripe.ProductPackageDimensionsParams.Length :=
       Some (stripe.ProductPackageDimensions.Length d);
     stripe.ProductPackageDimensionsParams.Weight :=
       Some (stripe.ProductPackageDimensions.Weight d);
     stripe.ProductPackageDimensionsParams.Width :=
       Some (stripe.ProductPackageDimensions.Width d) |}.

(** A remote coupon in dollars with a second amount in euros, as the API
    answers with [currency_options] expanded. *)
Definition remoteCouponWithOptions : stripe.Coupon.t :=
  {| stripe.Coupon.ID := "co_2";
     stripe.Coupon.AmountOff := 100;
     stripe.Coupon.AppliesTo := None;
     stripe.Coupon.Currency := "usd";
     stripe.Coupon.CurrencyOptions :=
       Some {[ "usd" := {| stripe.CouponCurrencyOptions.AmountOff := 100 |};
               "eur" := {| stripe.CouponCurrencyOptions.AmountOff := 90 |} ]};
     stripe.Coupon.Duration := "once";
     stripe.Coupon.DurationInMonths := 0;
     stripe.Coupon.MaxRedemptions := 0;
     stripe.Coupon.Metadata := None;
     stripe.Coupon.Name := "test_name";
     stripe.Coupon.PercentOff := Go.float64_0;
     stripe.Coupon.RedeemBy := 0 |}.

(* ===================================================================== *)
(** * Properties *)
(* ===================================================================== *)

(** ** Loops over maps *)

Section range_loops.
Context `{MapRange}.

Lemma range_NoDup {V} (m : gmap string V) : NoDup (range m).*1.
Proof.
  rewrite (range_perm m). apply NoDup_fst_map_to_list.
Qed.

Lemma range_to_map {V} (m : gmap string V) : list_to_map (range m) = m.
Proof.
  rewrite <- (list_to_map_to_list m) at 2.
  apply list_to_map_proper; [apply range_NoDup | apply range_perm].
Qed.

Lemma elem_of_range {V} (m : gmap string V) k v :
  (k, v) ∈ range m ↔ m !! k = Some v.
Proof.
  rewrite (range_perm m). apply elem_of_map_to_list.
Qed.

End range_loops.

(** A loop whose body stores [g k v] under the key [k] it visits when
    [c k v] holds, and does nothing otherwise: afterwards every visited
    key that passed the test holds its value, every other key is as
    before. *)
Lemma fold_insert_lookup {V W} (c : string → V → bool) (g : string → V → W)
    (step : gmap string W → string * V → gmap string W)
    (kvs : list (string * V)) (init : gmap string W) (k : string) :
  (∀ acc k v, step acc (k, v) = if c k v then <[k := g k v]> acc else acc) →
  NoDup kvs.*1 →
  fold_left step kvs init !! k =
    match (list_to_map kvs : gmap string V) !! k with
    | Some v => if c k v then Some (g k v) else init !! k
    | None => init !! k
    end.
Proof.
  intros Hstep. revert init.
  induction kvs as [|[k0 v0] kvs IH]; intros init Hnd; simpl.
  - by rewrite lookup_empty.
  - apply NoDup_cons in Hnd as [Hk0 Hnd].
    rewrite IH by done. rewrite Hstep.
    destruct (decide (k = k0)) as [->|Hne].
    + rewrite lookup_insert_eq.
      rewrite (not_elem_of_list_to_map_1 kvs k0) by done.
      destruct (c k0 v0); [by rewrite lookup_insert_eq | done].
    + rewrite lookup_insert_ne by done.
      destruct (list_to_map kvs !! k) as [v|]; destruct (c k0 v0);
        rewrite ?lookup_insert_ne; done.
Qed.

Lemma range_insert_lookup `{MapRange} {V W} (c : string → V → bool)
    (g : string → V → W) (step : gmap string W → string * V → gmap string W)
    (m : gmap string V) (init : gmap string W) (k : string) :
  (∀ acc k v, step acc (k, v) = if c k v then <[k := g k v]> acc else acc) →
  fold_left step (range m) init !! k =
    match m !! k with
    | Some v => if c k v then Some (g k v) else init !! k
    | None => init !! k
    end.
Proof.
  intros Hstep.
  rewrite (fold_insert_lookup c g step) by (done || apply range_NoDup).
  by rewrite range_to_map.
Qed.

(** The metadata parameter is a map made on its first entry; its entries
    are those of the same loop on a plain map. *)
Lemma fold_AddMetadata_entries {V} (c : string → V → bool) (g : string → V → string)
    (step : option (gmap string string) → string * V → option (gmap string string))
    (kvs : list (string * V)) (md : option (gmap string string)) :
  (∀ md k v, step md (k, v) = if c k v then stripe.AddMetadata md k (g k v) else md) →
  default ∅ (fold_left step kvs md) =
    fold_left (λ acc kv, if c kv.1 kv.2 then <[kv.1 := g kv.1 kv.2]> acc else acc)
              kvs (default ∅ md).
Proof.
  intros Hstep. revert md.
  induction kvs as [|[k0 v0] kvs IH]; intros md; simpl; [done|].
  rewrite IH, Hstep. by destruct (c k0 v0).
Qed.

Lemma addPlanMetadata_lookup `{MapRange} (planMetadata : gmap string (tri string))
    (md : option (gmap string string)) (k : string) :
  metadataAt (addPlanMetadata planMetadata md) k =
    match planMetadata !! k with
    | Some v => Some (types.ValueString v)
    | None => metadataAt md k
    end.
Proof.
  unfold metadataAt, addPlanMetadata.
  rewrite (fold_AddMetadata_entries (λ _ _, true) (λ _ v, types.ValueString v))
    by (by intros ? ? ?).
  rewrite (range_insert_lookup (λ _ _, true) (λ _ v, types.ValueString v))
    by (by intros ? ? ?).
  done.
Qed.

Lemma clearStateMetadata_lookup `{MapRange}
    (planMetadata stateMetadata : gmap string (tri string))
    (md : option (gmap string string)) (k : string) :
  metadataAt (clearStateMetadata planMetadata stateMetadata md) k =
    match stateMetadata !! k, planMetadata !! k with
    | Some _, None => Some ""
    | _, _ => metadataAt md k
    end.
Proof.
  unfold metadataAt, clearStateMetadata.
  rewrite (fold_AddMetadata_entries
             (λ k (_ : tri string), bool_decide (planMetadata !! k = None)) (λ _ _, ""));
    [|intros ? k' ?; simpl; by destruct (planMetadata !! k')].
  rewrite (range_insert_lookup
             (λ k (_ : tri string), bool_decide (planMetadata !! k = None)) (λ _ _, ""))
    by (by intros ? ? ?).
  destruct (stateMetadata !! k); [|done].
  by destruct (planMetadata !! k).
Qed.

(** The metadata of an update, key by key, when plan and state differ. *)
Lemma updateMetadata_lookup `{MapRange} (state plan : types.Map (tri string)) (k : string) :
  types.Map_Equal types.String_Equal plan state = false →
  metadataAt (updateMetadata state plan) k =
    metadataDiffAt (types.Map_Elements state) (types.Map_Elements plan) k.
Proof.
  intros Hne. unfold updateMetadata, metadataDiffAt. rewrite Hne. simpl.
  rewrite clearStateMetadata_lookup, addPlanMetadata_lookup.
  destruct (types.Map_Elements plan !! k), (types.Map_Elements state !! k); done.
Qed.

(** ** Equality of attribute values *)

Lemma tri_Equal_refl {A} (eqb : A → A → bool) (v : tri A) :
  (∀ a, v = Value a → eqb a a = true) → types.tri_Equal eqb v v = true.
Proof. destruct v; simpl; auto. Qed.

Lemma String_Equal_refl (v : types.String) : types.String_Equal v v = true.
Proof. apply tri_Equal_refl. intros a _. apply String.eqb_refl. Qed.

Lemma Bool_Equal_refl (v : types.Bool) : types.Bool_Equal v v = true.
Proof. apply tri_Equal_refl. intros a _. by destruct a. Qed.

Lemma Int64_Equal_refl (v : types.Int64) : types.Int64_Equal v v = true.
Proof. apply tri_Equal_refl. intros a _. apply Z.eqb_refl. Qed.

(** [String_Equal] decides equality of the two values. *)
Lemma String_Equal_true (v o : types.String) : types.String_Equal v o = true ↔ v = o.
Proof.
  destruct v, o; simpl; try (split; (done || congruence)).
  rewrite String.eqb_eq. split; congruence.
Qed.

Lemma String_Equal_false (v o : types.String) : v ≠ o → types.String_Equal v o = false.
Proof.
  intros Hne. destruct (types.String_Equal v o) eqn:E; [|done].
  by apply String_Equal_true in E.
Qed.

Lemma float64_eq_refl (x : spec_float) : Go.float64_isNaN x = false → Go.float64_eq x x = true.
Proof.
  unfold Go.float64_eq, SFeqb. destruct x as [s|s| |s m e]; simpl; try done.
  - by destruct s.
  - intros _. rewrite Z.compare_refl, Pos.compare_cont_refl. by destruct s.
Qed.

Lemma Float64_Equal_refl (v : types.Float64) :
  Float64_isNumber v = true → types.Float64_Equal v v = true.
Proof.
  intros Hv. apply tri_Equal_refl. intros a ->. simpl in Hv.
  apply float64_eq_refl. by destruct (Go.float64_isNaN a).
Qed.

Lemma list_Equal_refl {E} (eqb : E → E → bool) (l : list E) :
  (∀ x, eqb x x = true) → types.list_Equal eqb l l = true.
Proof. intros Hx. induction l; simpl; [done|]. by rewrite Hx, IHl. Qed.

Lemma map_Equal_refl {E} (eqb : E → E → bool) (m : gmap string E) :
  (∀ x, eqb x x = true) → types.map_Equal eqb m m = true.
Proof.
  intros Hx. unfold types.map_Equal. rewrite Nat.eqb_refl. simpl.
  apply forallb_forall. intros [k v] Hin. simpl.
  apply list_elem_of_In, elem_of_map_to_list in Hin. by rewrite Hin.
Qed.

Lemma Coll_Equal_refl {C} (eqb : C → C → bool) (c : types.Coll C) :
  typed c = true → (∀ x, eqb x x = true) → types.Coll_Equal eqb c c = true.
Proof.
  unfold typed, types.Coll_Equal. intros Ht Hx.
  destruct (types.elementType c); [|done].
  rewrite bool_decide_eq_true_2 by done. simpl.
  apply tri_Equal_refl. auto.
Qed.

Lemma List_Equal_refl (l : types.List) : typed l = true → types.List_Equal l l = true.
Proof.
  intros Ht. apply Coll_Equal_refl; [done|]. intros x.
  apply list_Equal_refl, String_Equal_refl.
Qed.

Lemma Metadata_Equal_refl (m : types.Map (tri string)) :
  typed m = true → types.Map_Equal types.String_Equal m m = true.
Proof.
  intros Ht. apply Coll_Equal_refl; [done|]. intros x.
  apply map_Equal_refl, String_Equal_refl.
Qed.

Lemma CurrencyOptions_Equal_refl (m : types.Map CouponCurrencyOptionsModel.t) :
  typed m = true → types.Map_Equal CouponCurrencyOptionsModel.Equal m m = true.
Proof.
  intros Ht. apply Coll_Equal_refl; [done|]. intros x.
  apply map_Equal_refl. intros e. unfold CouponCurrencyOptionsModel.Equal.
  by rewrite Int64_Equal_refl, Bool_Equal_refl.
Qed.

Lemma PackageDimensions_Equal_refl
    (o : types.Object ProductPackageDimensionsResourceModel.t) :
  PackageDimensions_wf o = true →
  types.tri_Equal ProductPackageDimensionsResourceModel.Equal o o = true.
Proof.
  intros Hwf. apply tri_Equal_refl. intros p ->. simpl in Hwf.
  repeat (apply andb_prop in Hwf as [Hwf ?]).
  unfold ProductPackageDimensionsResourceModel.Equal.
  by rewrite !Float64_Equal_refl.
Qed.

Lemma updateMetadata_same `{MapRange} (m : types.Map (tri string)) :
  typed m = true → updateMetadata m m = None.
Proof. intros Ht. unfold updateMetadata. by rewrite Metadata_Equal_refl. Qed.

(** ** Null normalisation (populate) *)

Lemma StringNullIfEmpty_normalizes (s : string) :
  normalizes isEmptyString s (StringNullIfEmpty s).
Proof.
  unfold StringNullIfEmpty, isEmptyString.
  destruct (String.eqb s "") eqn:E; simpl; auto.
Qed.

Lemma Int64NullIfEmpty_normalizes (n : Z) :
  normalizes isZeroInt64 n (Int64NullIfEmpty n).
Proof.
  unfold Int64NullIfEmpty, isZeroInt64.
  destruct (Z.eqb n 0) eqn:E; simpl; auto.
Qed.

Lemma Float64NullIfEmpty_normalizes (x : spec_float) :
  normalizes isZeroFloat64 x (Float64NullIfEmpty x).
Proof.
  unfold Float64NullIfEmpty, isZeroFloat64.
  destruct (Go.float64_eq x Go.float64_0) eqn:E; simpl; auto.
Qed.

(** The fields [populateModel] of the webhook endpoint sets before its
    first conversion. *)
Lemma Webhook_populate_strings `{ValueFrom} model we respDiag :
  let m := (WebhookEndpointResource_populateModel model we respDiag).1 in
  WebhookEndpointResourceModel.APIVersion m
    = StringNullIfEmpty (stripe.WebhookEndpoint.APIVersion we)
  ∧ WebhookEndpointResourceModel.Application m
    = StringNullIfEmpty (stripe.WebhookEndpoint.Application we)
  ∧ WebhookEndpointResourceModel.Description m
    = StringNullIfEmpty (stripe.WebhookEndpoint.Description we).
Proof.
  unfold WebhookEndpointResource_populateModel.
  destruct (ListValueFrom _ _) as [ee d1].
  destruct (diag.HasError d1); [done|].
  destruct (MapValueFrom _ _) as [md d2].
  by destruct (diag.HasError d2).
Qed.

(** C1, as the claim states it, fails: the product's [name] is populated
    as given, so an empty remote name becomes the concrete empty string
    (the expectation of the test "Empty fields"). *)
Lemma C1_counterexample :
  stripe.Product.Name emptyProduct = ""
  ∧ ProductResourceModel.Name
      (ProductResource_populateModel (H := reflect_ValueFrom)
         ProductResourceModel.zero emptyProduct []).1 = types.StringValue ""
  ∧ ¬ normalizes isEmptyString (stripe.Product.Name emptyProduct)
        (ProductResourceModel.Name
           (ProductResource_populateModel (H := reflect_ValueFrom)
              ProductResourceModel.zero emptyProduct []).1).
Proof.
  split; [done|]. split; [done|]. simpl. intros [_ ?]. discriminate.
Qed.

(** The price handler populates its scalars as given, without
    normalisation: a remote price without lookup key, nickname or amounts
    gives concrete empty strings and zeros. *)
Lemma PriceResource_populateModel_keeps_zero_values :
  ∃ m, PriceResource_populateModel PriceResourceModel.zero barePrice = Some m
       ∧ PriceResourceModel.LookupKey m = types.StringValue ""
       ∧ PriceResourceModel.Nickname m = types.StringValue ""
       ∧ PriceResourceModel.UnitAmount m = types.Int64Value 0%Z
       ∧ PriceResourceModel.UnitAmountDecimal m = types.Float64Value Go.float64_0.
Proof. eexists. repeat split. Qed.

(** C1 (amended): the webhook endpoint, product and coupon handlers map
    the zero value of each scalar they normalise to null and any other
    value to itself; the booleans and the required strings (product name,
    webhook url) are always concrete, populated as given. *)
Theorem C1_populate_null_normalization `{MapRange} `{ValueFrom}
    (wm : WebhookEndpointResourceModel.t) (we : stripe.WebhookEndpoint.t)
    (pm : ProductResourceModel.t) (p : stripe.Product.t)
    (cm : CouponResourceModel.t) (c : stripe.Coupon.t)
    (respDiag : diag.Diagnostics) :
  let w' := (WebhookEndpointResource_populateModel wm we respDiag).1 in
  let w'' := (WebhookEndpointResource_populateModel (H := reflect_ValueFrom)
                wm we respDiag).1 in
  let p' := (ProductResource_populateModel pm p respDiag).1 in
  let c' := (CouponResource_populateModel cm c respDiag).1 in
  (normalizes isEmptyString (stripe.WebhookEndpoint.APIVersion we)
     (WebhookEndpointResourceModel.APIVersion w')
   ∧ normalizes isEmptyString (stripe.WebhookEndpoint.Application we)
       (WebhookEndpointResourceModel.Application w')
   ∧ normalizes isEmptyString (stripe.WebhookEndpoint.Description we)
       (WebhookEndpointResourceModel.Description w'))
  ∧ (normalizes isEmptyString (stripe.Product.Description p)
       (ProductResourceModel.Description p')
     ∧ normalizes isEmptyString (stripe.Product.StatementDescriptor p)
         (ProductResourceModel.StatementDescriptor p')
     ∧ normalizes isEmptyString (stripe.Product.UnitLabel p)
         (ProductResourceModel.UnitLabel p')
     ∧ normalizes isEmptyString (stripe.Product.URL p)
         (ProductResourceModel.URL p'))
  ∧ (normalizes isEmptyString (stripe.Coupon.Duration c)
       (CouponResourceModel.Duration c')
     ∧ normalizes isZeroInt64 (stripe.Coupon.DurationInMonths c)
         (CouponResourceModel.DurationInMonths c')
     ∧ normalizes isZeroInt64 (stripe.Coupon.MaxRedemptions c)
         (CouponResourceModel.MaxRedemptions c')
     ∧ normalizes isEmptyString (stripe.Coupon.Name c)
         (CouponResourceModel.Name c')
     ∧ normalizes isZeroFloat64 (stripe.Coupon.PercentOff c)
         (CouponResourceModel.PercentOff c')
     ∧ normalizes isZeroInt64 (stripe.Coupon.RedeemBy c)
         (CouponResourceModel.RedeemBy c'))
  ∧ (ProductResourceModel.Active p' = types.BoolValue (stripe.Product.Active p)
     ∧ ProductResourceModel.Shippable p' = types.BoolValue (stripe.Product.Shippable p)
     ∧ ProductResourceModel.Name p' = types.StringValue (stripe.Product.Name p))
  ∧ (isConcrete (WebhookEndpointResourceModel.Disabled w'') = true
     ∧ WebhookEndpointResourceModel.URL w''
       = types.StringValue (stripe.WebhookEndpoint.URL we)).
Proof.
  intros w' w'' p' c'.
  split; [|split; [|split; [|split]]].
  - subst w'. pose proof (Webhook_populate_strings wm we respDiag) as Hs.
    simpl in Hs. destruct Hs as (-> & -> & ->).
    auto using StringNullIfEmpty_normalizes.
  - subst p'. unfold ProductResource_populateModel.
    destruct (ListValueFrom _ (stripe.Product.Images p)) as [? ?].
    destruct (stripe.Product.MarketingFeatures p);
      [destruct (ListValueFrom _ _) as [? ?]|];
      destruct (MapValueFrom _ _) as [? ?];
      (destruct (stripe.Product.PackageDimensions p) as [d|];
       [destruct (allDimensionsSet d);
        [destruct (ObjectValueFrom_ProductPackageDimensionsResourceModel _ _) as [? ?]|]|]);
      simpl; auto using StringNullIfEmpty_normalizes.
  - subst c'. unfold CouponResource_populateModel.
    destruct (stripe.Coupon.AppliesTo c) as [[products|]|];
      [destruct (ListValueFrom _ _) as [? ?]| |];
      destruct (MapValueFrom_CouponCurrencyOptionsModel _ _) as [? ?];
      destruct (MapValueFrom _ _) as [? ?]; simpl;
      auto 10 using StringNullIfEmpty_normalizes, Int64NullIfEmpty_normalizes,
        Float64NullIfEmpty_normalizes.
  - subst p'. unfold ProductResource_populateModel.
    destruct (ListValueFrom _ (stripe.Product.Images p)) as [? ?].
    destruct (stripe.Product.MarketingFeatures p);
      [destruct (ListValueFrom _ _) as [? ?]|];
      destruct (MapValueFrom _ _) as [? ?];
      (destruct (stripe.Product.PackageDimensions p) as [d|];
       [destruct (allDimensionsSet d);
        [destruct (ObjectValueFrom_ProductPackageDimensionsResourceModel _ _) as [? ?]|]|]);
      simpl; auto.
  - subst w''. unfold WebhookEndpointResource_populateModel. simpl.
    by destruct (String.eqb _ _).
Qed.

(** ** Conversion errors of populate and the saved state *)

(** Whatever the conversions report, a successful remote call makes
    [Create] save the populated model, with the diagnostics it had before
    [populateModel] ran. *)
Lemma CouponResource_Create_saves `{MapRange} `{ValueFrom} `{Client}
    (plan : CouponResourceModel.t) (getDiags : diag.Diagnostics)
    (resp : resource.Response CouponResourceModel.t) (coupon : stripe.Coupon.t) :
  let diags := diag.Append (resource.Diagnostics resp) getDiags in
  let params := expandCurrencyOptions (CouponResource_buildCreateParams plan) in
  diag.HasError diags = false →
  Coupons_New params = inl coupon →
  (CouponResource_Create (plan, getDiags) resp).1 =
    resource.setState diags
      (CouponResource_populateModel
         (CouponResourceModel.set_Id plan (types.StringValue (stripe.Coupon.ID coupon)))
         coupon diags).1.
Proof.
  intros diags params Hok Hnew. unfold CouponResource_Create.
  fold diags. rewrite Hok. fold params. rewrite Hnew.
  by destruct (CouponResource_populateModel _ _ _).
Qed.

(** C2 fails on the code: a conversion error raised while [Create] of the
    coupon populates the model is appended to [populateModel]'s own copy
    of the diagnostics; the response carries no error and the state is
    saved all the same. *)
Theorem C2_conversion_error_is_lost :
  let plan := couponModel types.zero types.zero (types.StringValue "test_name") in
  let created :=
    (@CouponResource_Create sorted_range failingMapValueFrom (couponClient remoteCoupon)
       (plan, []) freshResponse).1 in
  let populated :=
    @CouponResource_populateModel sorted_range failingMapValueFrom
      (CouponResourceModel.set_Id plan (types.StringValue "co_1")) remoteCoupon [] in
  populated.2 = [conversionError]
  ∧ diag.HasError populated.2 = true
  ∧ resource.Diagnostics created = []
  ∧ resource.State created = Some populated.1.
Proof. vm_compute. auto. Qed.

(** The product handler tests the diagnostics after [populateModel], and
    saves the state all the same: the test reads the handler's own
    diagnostics. *)
Lemma ProductResource_Create_saves `{MapRange} `{ValueFrom} `{Client}
    (plan : ProductResourceModel.t) (getDiags : diag.Diagnostics)
    (resp : resource.Response ProductResourceModel.t) (product : stripe.Product.t) :
  let diags := diag.Append (resource.Diagnostics resp) getDiags in
  diag.HasError diags = false →
  Products_New (ProductResource_buildCreateParams plan) = inl product →
  (ProductResource_Create (plan, getDiags) resp).1 =
    resource.setState diags
      (ProductResource_populateModel
         (ProductResourceModel_set_Id plan (types.StringValue (stripe.Product.ID product)))
         product diags).1.
Proof.
  intros diags Hok Hnew. unfold ProductResource_Create.
  fold diags. rewrite Hok, Hnew.
  by destruct (ProductResource_populateModel _ _ _).
Qed.

(** [Read], [Update] and [ImportState] of the coupon save the populated
    model in the same way. *)
Lemma CouponResource_Read_saves `{MapRange} `{ValueFrom} `{Client}
    (state : CouponResourceModel.t) (getDiags : diag.Diagnostics)
    (resp : resource.Response CouponResourceModel.t) (coupon : stripe.Coupon.t) :
  let diags := diag.Append (resource.Diagnostics resp) getDiags in
  diag.HasError diags = false →
  Coupons_Get (types.ValueString (CouponResourceModel.Id state))
    (expandCurrencyOptions stripe.CouponParams.empty) = inl coupon →
  (CouponResource_Read (state, getDiags) resp).1 =
    resource.setState diags (CouponResource_populateModel state coupon diags).1.
Proof.
  intros diags Hok Hget. unfold CouponResource_Read.
  fold diags. rewrite Hok, Hget.
  by destruct (CouponResource_populateModel _ _ _).
Qed.

Lemma CouponResource_Update_saves `{MapRange} `{ValueFrom} `{Client}
    (state plan : CouponResourceModel.t) (stateDiags planDiags : diag.Diagnostics)
    (resp : resource.Response CouponResourceModel.t) (coupon : stripe.Coupon.t) :
  let diags :=
    diag.Append (diag.Append (resource.Diagnostics resp) stateDiags) planDiags in
  diag.HasError (diag.Append (resource.Diagnostics resp) stateDiags) = false →
  diag.HasError diags = false →
  Coupons_Update (types.ValueString (CouponResourceModel.Id plan))
    (expandCurrencyOptions (CouponResource_buildUpdateParams state plan)) = inl coupon →
  (CouponResource_Update (state, stateDiags) (plan, planDiags) resp).1 =
    resource.setState diags (CouponResource_populateModel plan coupon diags).1.
Proof.
  intros diags Hok1 Hok Hupd. unfold CouponResource_Update.
  rewrite Hok1. fold diags. rewrite Hok, Hupd.
  by destruct (CouponResource_populateModel _ _ _).
Qed.

Lemma CouponResource_ImportState_saves `{MapRange} `{ValueFrom} `{Client}
    (reqID : string) (resp : resource.Response CouponResourceModel.t)
    (coupon : stripe.Coupon.t) :
  Coupons_Get reqID (expandCurrencyOptions stripe.CouponParams.empty) = inl coupon →
  (CouponResource_ImportState reqID resp).1 =
    resource.setState (resource.Diagnostics resp)
      (CouponResource_populateModel
         (CouponResourceModel.set_Id CouponResourceModel.zero (types.StringValue reqID))
         coupon (resource.Diagnostics resp)).1.
Proof.
  intros Hget. unfold CouponResource_ImportState. rewrite Hget.
  by destruct (CouponResource_populateModel _ _ _).
Qed.

(** ** No-op diff *)

(** C3, as the claim states it, fails: a model whose lists carry no
    element type (the zero value of the Go struct) is not [Equal] to
    itself, and the product builder then replaces the marketing features
    by the empty list (the expectation of the test "No fields updated"). *)
Lemma C3_counterexample :
  let state := namedProductModel "Product 2" in
  stripe.ProductParams.MarketingFeatures
    (@ProductResource_buildUpdateParams sorted_range state state) = Some []
  ∧ @ProductResource_buildUpdateParams sorted_range state state
    ≠ stripe.ProductParams.empty.
Proof. split; [done|]. intros Heq. discriminate Heq. Qed.

(** C3 (amended): for the three resources, a well-formed state (typed
    lists and maps, no NaN among the package dimensions), with or without
    unknown values, diffed against itself gives the empty parameters. *)
Theorem C3_noop_diff `{MapRange}
    (w : WebhookEndpointResourceModel.t) (p : ProductResourceModel.t)
    (c : CouponResourceModel.t) :
  WebhookEndpointResourceModel_wf w = true →
  ProductResourceModel_wf p = true →
  CouponResourceModel_wf c = true →
  WebhookEndpointResource_buildUpdateParams w w = stripe.WebhookEndpointParams.empty
  ∧ ProductResource_buildUpdateParams p p = stripe.ProductParams.empty
  ∧ CouponResource_buildUpdateParams c c = stripe.CouponParams.empty.
Proof.
  intros Hw Hp Hc.
  apply andb_prop in Hw as [Hw1 Hw2].
  apply andb_prop in Hp as [Hp Hp4]. apply andb_prop in Hp as [Hp Hp3].
  apply andb_prop in Hp as [Hp1 Hp2].
  apply andb_prop in Hc as [Hc1 Hc2].
  split; [|split].
  - unfold WebhookEndpointResource_buildUpdateParams.
    rewrite !String_Equal_refl, Bool_Equal_refl, List_Equal_refl,
      updateMetadata_same by done.
    done.
  - unfold ProductResource_buildUpdateParams.
    rewrite !String_Equal_refl, !Bool_Equal_refl, !List_Equal_refl,
      updateMetadata_same, PackageDimensions_Equal_refl by done.
    done.
  - unfold CouponResource_buildUpdateParams.
    rewrite String_Equal_refl, CurrencyOptions_Equal_refl,
      updateMetadata_same by done.
    done.
Qed.

Lemma C3_noop_diff_witness :
  let w := storedWebhookModel (types.StringValue "x") {[ "foo" := types.StringValue "bar" ]} in
  let p := storedProductModel "Product 1" Null in
  let c := couponModel
             (currencyOptionsMap {[ "usd" := currencyOption 1000 true ]})
             (metadataMap {[ "test" := types.StringValue "test" ]}) Unknown in
  @WebhookEndpointResource_buildUpdateParams sorted_range w w
    = stripe.WebhookEndpointParams.empty
  ∧ @ProductResource_buildUpdateParams sorted_range p p = stripe.ProductParams.empty
  ∧ @CouponResource_buildUpdateParams sorted_range c c = stripe.CouponParams.empty.
Proof.
  intros w p c. apply (@C3_noop_diff sorted_range w p c); reflexivity.
Defined.

(** ** Currency options of the coupon *)

Lemma ElementsAs_Elements {E} (m : types.Map E) : (ElementsAs m).1 = types.Map_Elements m.
Proof. unfold ElementsAs, types.Map_Elements. by destruct (types.content m). Qed.

(** The per-currency map after the loop of [buildUpdateParams]. *)
Lemma addCurrencyOption_lookup `{MapRange}
    (stateCurrencyOptions planCurrencyOptions : gmap string CouponCurrencyOptionsModel.t)
    (k : string) :
  fold_left (addCurrencyOption stateCurrencyOptions) (range planCurrencyOptions) ∅ !! k =
    match planCurrencyOptions !! k, stateCurrencyOptions !! k with
    | Some v, None => Some (currencyOptionParams v)
    | _, _ => None
    end.
Proof.
  rewrite (range_insert_lookup
             (λ k (_ : CouponCurrencyOptionsModel.t),
                bool_decide (stateCurrencyOptions !! k = None))
             (λ _ v, currencyOptionParams v)).
  - rewrite lookup_empty.
    destruct (planCurrencyOptions !! k); [|done].
    by destruct (stateCurrencyOptions !! k).
  - intros acc k' v. simpl. by destruct (stateCurrencyOptions !! k').
Qed.

(** C4: when the currency options of plan and state differ, the update
    carries a per-currency map holding exactly the plan's entries whose
    key the state lacks (nothing for a key only the state has), and
    leaves the top-level [AmountOff] and [Currency] nil. *)
Theorem C4_currency_options_additions_only `{MapRange}
    (state plan : CouponResourceModel.t) :
  types.Map_Equal CouponCurrencyOptionsModel.Equal
    (CouponResourceModel.CurrencyOptions plan)
    (CouponResourceModel.CurrencyOptions state) = false →
  let params := CouponResource_buildUpdateParams state plan in
  (∃ m, stripe.CouponParams.CurrencyOptions params = Some m
        ∧ ∀ k, m !! k =
            match types.Map_Elements (CouponResourceModel.CurrencyOptions plan) !! k,
                  types.Map_Elements (CouponResourceModel.CurrencyOptions state) !! k with
            | Some v, None => Some (currencyOptionParams v)
            | _, _ => None
            end)
  ∧ stripe.CouponParams.AmountOff params = None
  ∧ stripe.CouponParams.Currency params = None.
Proof.
  intros Hne params. subst params. unfold CouponResource_buildUpdateParams. simpl.
  rewrite Hne. simpl. split; [|done].
  eexists. split; [done|]. intros k.
  rewrite !ElementsAs_Elements. apply addCurrencyOption_lookup.
Qed.

Lemma C4_currency_options_additions_only_witness :
  let state :=
    couponModel (currencyOptionsMap {[ "usd" := currencyOption 1000 true ]})
      types.zero (types.StringValue "test_name") in
  let plan :=
    couponModel (currencyOptionsMap {[ "usd" := currencyOption 1000 true;
                                       "gbp" := currencyOption 1000 false ]})
      types.zero (types.StringValue "test_name") in
  let params := @CouponResource_buildUpdateParams sorted_range state plan in
  stripe.CouponParams.CurrencyOptions params
    = Some {[ "gbp" := {| stripe.CouponCurrencyOptionsParams.AmountOff := Some 1000%Z |} ]}
  ∧ stripe.CouponParams.AmountOff params = None
  ∧ stripe.CouponParams.Currency params = None.
Proof.
  intros state plan params.
  destruct (@C4_currency_options_additions_only sorted_range state plan)
    as (_ & Hamount & Hcurrency); [reflexivity|].
  split; [|split]; [vm_compute; reflexivity | exact Hamount | exact Hcurrency].
Defined.

(** The per-currency map after the loop of [buildCreateParams]. *)
Lemma routedOptions_fold (kvs : list (string * CouponCurrencyOptionsModel.t))
    (acc : CurrencyRouting) :
  routedOptions (fold_left routeCurrencyOption kvs acc) =
    fold_left (λ m kv, if negb (isTopLevel kv.2)
                       then <[kv.1 := currencyOptionParams kv.2]> m else m)
              kvs (routedOptions acc).
Proof.
  revert acc. induction kvs as [|[k e] kvs IH]; intros acc; simpl; [done|].
  rewrite IH. unfold routeCurrencyOption, isTopLevel.
  by destruct (types.ValueBool _).
Qed.

(** The top-level fields after the loop: those of a top-level entry the
    loop visited, or untouched when it visited none. *)
Lemma routedTopLevel_fold (kvs : list (string * CouponCurrencyOptionsModel.t))
    (acc : CurrencyRouting) :
  let r := fold_left routeCurrencyOption kvs acc in
  (routedCurrency r = routedCurrency acc
   ∧ routedAmountOff r = routedAmountOff acc
   ∧ Forall (λ kv, isTopLevel kv.2 = false) kvs)
  ∨ (∃ k e, (k, e) ∈ kvs ∧ isTopLevel e = true
            ∧ routedCurrency r = Some k
            ∧ routedAmountOff r
              = types.ValueInt64Pointer (CouponCurrencyOptionsModel.AmountOff e)).
Proof.
  revert acc. induction kvs as [|[k0 e0] kvs IH]; intros acc; cbv zeta; cbn [fold_left].
  - left. by repeat split.
  - pose proof (IH (routeCurrencyOption acc (k0, e0))) as IH'. cbv zeta in IH'.
    destruct IH' as [(Hc & Ha & Hall)|(k & e & Hin & Ht & Hc & Ha)].
    + destruct (isTopLevel e0) eqn:Htop.
      * right. exists k0, e0. rewrite Hc, Ha.
        unfold routeCurrencyOption. unfold isTopLevel in Htop. rewrite Htop. simpl.
        repeat split; [apply list_elem_of_here | done].
      * left. rewrite Hc, Ha.
        unfold routeCurrencyOption. pose proof Htop as Htop'.
        unfold isTopLevel in Htop'. rewrite Htop'. simpl.
        repeat split. by constructor.
    + right. exists k, e. repeat split; try done. by apply list_elem_of_further.
Qed.

(** C5: with the currency options present, [buildCreateParams] puts
    exactly the entries that are not top-level into the per-currency map,
    and a top-level entry into [AmountOff] and [Currency] (its amount and
    its key); these stay nil when no entry is top-level, and hold the one
    top-level entry when there is just one. *)
Theorem C5_top_level_currency_routing `{MapRange}
    (data : CouponResourceModel.t)
    (els : gmap string CouponCurrencyOptionsModel.t) :
  types.content (CouponResourceModel.CurrencyOptions data) = Value els →
  let params := CouponResource_buildCreateParams data in
  (∃ m, stripe.CouponParams.CurrencyOptions params = Some m
        ∧ ∀ k, m !! k =
            match els !! k with
            | Some e => if isTopLevel e then None else Some (currencyOptionParams e)
            | None => None
            end)
  ∧ match stripe.CouponParams.Currency params with
    | Some k =>
        ∃ e, els !! k = Some e ∧ isTopLevel e = true
             ∧ stripe.CouponParams.AmountOff params
               = types.ValueInt64Pointer (CouponCurrencyOptionsModel.AmountOff e)
    | None =>
        stripe.CouponParams.AmountOff params = None
        ∧ ∀ k e, els !! k = Some e → isTopLevel e = false
    end
  ∧ ∀ k e, els !! k = Some e → isTopLevel e = true →
      (∀ k' e', els !! k' = Some e' → isTopLevel e' = true → k' = k) →
      stripe.CouponParams.Currency params = Some k
      ∧ stripe.CouponParams.AmountOff params
        = types.ValueInt64Pointer (CouponCurrencyOptionsModel.AmountOff e).
Proof.
  intros Hels params.
  assert (Hmid :
    match stripe.CouponParams.Currency params with
    | Some k =>
        ∃ e, els !! k = Some e ∧ isTopLevel e = true
             ∧ stripe.CouponParams.AmountOff params
               = types.ValueInt64Pointer (CouponCurrencyOptionsModel.AmountOff e)
    | None =>
        stripe.CouponParams.AmountOff params = None
        ∧ ∀ k e, els !! k = Some e → isTopLevel e = false
    end).
  { subst params. unfold CouponResource_buildCreateParams. simpl.
    unfold types.Coll_IsUnknown, types.Coll_IsNull. rewrite Hels. simpl.
    rewrite ElementsAs_Elements. unfold types.Map_Elements. rewrite Hels. simpl.
    unfold routeCurrencyOptions.
    pose proof (routedTopLevel_fold (range els)
                  {| routedAmountOff := None; routedCurrency := None; routedOptions := ∅ |})
      as Hfold.
    cbv zeta in Hfold.
    destruct Hfold as [(Hc & Ha & Hall)|(k & e & Hin & Ht & Hc & Ha)].
    - rewrite Hc, Ha. simpl. split; [done|]. intros k e Hk.
      rewrite Forall_forall in Hall.
      apply (Hall (k, e)). by apply elem_of_range.
    - rewrite Hc. exists e. split; [by apply elem_of_range|]. by split. }
  split; [|split; [exact Hmid|]].
  - subst params. unfold CouponResource_buildCreateParams. simpl.
    unfold types.Coll_IsUnknown, types.Coll_IsNull. rewrite Hels. simpl.
    eexists. split; [done|]. intros k.
    rewrite ElementsAs_Elements. unfold types.Map_Elements. rewrite Hels. simpl.
    unfold routeCurrencyOptions. rewrite routedOptions_fold. simpl.
    rewrite (range_insert_lookup
               (λ _ (e : CouponCurrencyOptionsModel.t), negb (isTopLevel e))
               (λ _ e, currencyOptionParams e)) by (by intros ? ? ?).
    rewrite lookup_empty. destruct (els !! k) as [e|]; [|done].
    by destruct (isTopLevel e).
  - intros k e Hk Ht Huniq.
    destruct (stripe.CouponParams.Currency params) as [k0|].
    + destruct Hmid as (e0 & Hk0 & Ht0 & Ha).
      assert (k0 = k) as -> by eauto.
      rewrite Hk in Hk0. injection Hk0 as <-. by split.
    + destruct Hmid as [_ Hnone]. rewrite (Hnone k e Hk) in Ht. discriminate.
Qed.

Lemma C5_top_level_currency_routing_witness :
  let data :=
    couponModel (currencyOptionsMap {[ "usd" := currencyOption 1000 true ]})
      (metadataMap {[ "test" := types.StringValue "test_metadata" ]})
      (types.StringValue "test_name") in
  let params := @CouponResource_buildCreateParams sorted_range data in
  stripe.CouponParams.AmountOff params = Some 1000%Z
  ∧ stripe.CouponParams.Currency params = Some "usd"
  ∧ stripe.CouponParams.CurrencyOptions params = Some ∅.
Proof.
  intros data params.
  destruct (@C5_top_level_currency_routing sorted_range data
              {[ "usd" := currencyOption 1000 true ]} eq_refl)
    as (_ & _ & Hone).
  destruct (Hone "usd" (currencyOption 1000 true)) as [Hc Ha].
  - reflexivity.
  - reflexivity.
  - intros k' e' Hk' _. apply lookup_singleton_Some in Hk'. symmetry. apply Hk'.
  - split; [exact Ha|]. split; [exact Hc|]. vm_compute. reflexivity.
Defined.

(** With two top-level entries the loop assigns the top-level fields
    twice and the entry visited last remains; in the order of
    [map_to_list] that is "usd". Neither entry is in the per-currency
    map. *)
Lemma two_top_level_entries_last_wins :
  let data :=
    couponModel (currencyOptionsMap {[ "usd" := currencyOption 1000 true;
                                       "gbp" := currencyOption 500 true ]})
      types.zero types.StringNull in
  let params := @CouponResource_buildCreateParams sorted_range data in
  stripe.CouponParams.AmountOff params = Some 1000%Z
  ∧ stripe.CouponParams.Currency params = Some "usd"
  ∧ stripe.CouponParams.CurrencyOptions params = Some ∅.
Proof. vm_compute. auto. Qed.

(** ** Metadata of an update *)

(** C6: when the metadata of plan and state differ, the change-set holds,
    for each key of the plan, the plan's value, and for each key of the
    state that the plan lacks, the empty string; it holds no other key.
    This is so for the webhook endpoint, the product and the coupon. *)
Theorem C6_metadata_symmetric_diff `{MapRange} (u : Update) (k : string) :
  types.Map_Equal types.String_Equal
    (Update_planMetadata u) (Update_stateMetadata u) = false →
  metadataAt (Update_paramsMetadata u) k =
    metadataDiffAt (types.Map_Elements (Update_stateMetadata u))
                   (types.Map_Elements (Update_planMetadata u)) k.
Proof.
  intros Hne. destruct u as [state plan|state plan|state plan]; simpl in *;
    by apply updateMetadata_lookup.
Qed.

Lemma C6_metadata_symmetric_diff_witness :
  let u :=
    CouponUpdate
      (couponModel (types.MapNull currencyOptionsType)
         (metadataMap {[ "meta1" := types.StringValue "value1" ]})
         (types.StringValue "test_name"))
      (couponModel (types.MapNull currencyOptionsType)
         (metadataMap {[ "meta2" := types.StringValue "value2" ]})
         (types.StringValue "test_name")) in
  metadataAt (@Update_paramsMetadata sorted_range u) "meta1" = Some ""
  ∧ metadataAt (@Update_paramsMetadata sorted_range u) "meta2" = Some "value2"
  ∧ @Update_paramsMetadata sorted_range u
    = Some {[ "meta1" := ""; "meta2" := "value2" ]}.
Proof.
  intros u. split; [|split].
  - rewrite (@C6_metadata_symmetric_diff sorted_range u "meta1"); reflexivity.
  - rewrite (@C6_metadata_symmetric_diff sorted_range u "meta2"); reflexivity.
  - vm_compute. reflexivity.
Defined.

(** ** Clear semantics of optional strings *)

Lemma EmptyStringIfNull_clearsOrSends (state plan : types.String) :
  clearsOrSends state plan
    (if negb (types.String_Equal plan state) then EmptyStringIfNull plan else None).
Proof.
  split.
  - intros x -> ->. done.
  - intros v -> Hne. rewrite String_Equal_false by congruence. done.
Qed.

(** C7: every optional string that [buildUpdateParams] diffs (webhook
    description; product default_price, description, statement_descriptor,
    tax_code, unit_label, url; coupon name) is sent as the empty string
    when the state holds a value and the plan is null, and as the plan's
    value when the plan holds one that differs from the state's. *)
Theorem C7_clear_semantics `{MapRange} :
  (∀ state plan : WebhookEndpointResourceModel.t,
     clearsOrSends (WebhookEndpointResourceModel.Description state)
       (WebhookEndpointResourceModel.Description plan)
       (stripe.WebhookEndpointParams.Description
          (WebhookEndpointResource_buildUpdateParams state plan)))
  ∧ (∀ (f : ProductOptionalString) (state plan : ProductResourceModel.t),
       clearsOrSends (ProductResourceModel_get f state) (ProductResourceModel_get f plan)
         (ProductParams_get f (ProductResource_buildUpdateParams state plan)))
  ∧ (∀ state plan : CouponResourceModel.t,
       clearsOrSends (CouponResourceModel.Name state) (CouponResourceModel.Name plan)
         (stripe.CouponParams.Name (CouponResource_buildUpdateParams state plan))).
Proof.
  split; [|split].
  - intros state plan. unfold WebhookEndpointResource_buildUpdateParams. simpl.
    split.
    + intros x -> ->. done.
    + intros v -> Hne. rewrite String_Equal_false by congruence. done.
  - intros f state plan. destruct f; apply EmptyStringIfNull_clearsOrSends.
  - intros state plan. apply EmptyStringIfNull_clearsOrSends.
Qed.

Lemma C7_clear_semantics_witness :
  stripe.WebhookEndpointParams.Description
    (@WebhookEndpointResource_buildUpdateParams sorted_range
       (storedWebhookModel (types.StringValue "x") ∅)
       (storedWebhookModel types.StringNull ∅)) = Some ""
  ∧ stripe.ProductParams.Description
      (@ProductResource_buildUpdateParams sorted_range
         (storedProductModel "Product 1" (types.StringValue "An old product"))
         (storedProductModel "Product 1" (types.StringValue "A new product")))
    = Some "A new product".
Proof.
  destruct (@C7_clear_semantics sorted_range) as (Hw & Hp & _).
  split.
  - apply (Hw (storedWebhookModel (types.StringValue "x") ∅)
              (storedWebhookModel types.StringNull ∅)) with (x := "x"); reflexivity.
  - apply (Hp description
              (storedProductModel "Product 1" (types.StringValue "An old product"))
              (storedProductModel "Product 1" (types.StringValue "A new product")));
      [reflexivity | discriminate].
Defined.

(** ** Package dimensions of a product *)

Lemma allDimensionsSet_true (d : stripe.ProductPackageDimensions.t) :
  allDimensionsSet d = true ↔ allNonZero d.
Proof.
  unfold allDimensionsSet, allNonZero, isZeroFloat64.
  rewrite !andb_true_iff, !negb_true_iff. tauto.
Qed.

Lemma allDimensionsSet_false (d : stripe.ProductPackageDimensions.t) :
  allDimensionsSet d = false ↔ someZero d.
Proof.
  unfold allDimensionsSet, someZero, isZeroFloat64.
  rewrite !andb_false_iff, !negb_false_iff. tauto.
Qed.

Lemma populate_PackageDimensions (model : ProductResourceModel.t)
    (product : stripe.Product.t) (respDiag : diag.Diagnostics) :
  ProductResourceModel.PackageDimensions
    (ProductResource_populateModel (H := reflect_ValueFrom) model product respDiag).1 =
    match stripe.Product.PackageDimensions product with
    | Some d => if allDimensionsSet d then Value (packageDimensionsObject d) else Null
    | None => Null
    end.
Proof.
  unfold ProductResource_populateModel. simpl.
  destruct (stripe.Product.MarketingFeatures product);
    destruct (stripe.Product.PackageDimensions product) as [d|]; simpl; try done;
    by destruct (allDimensionsSet d).
Qed.

(** C8: the model's package dimensions are the object of the four remote
    dimensions when the remote struct is there and all four are different
    from zero, and null when the struct is absent or one dimension is
    zero: concrete exactly in the first case, never partly filled. *)
Theorem C8_package_dimensions_all_or_nothing (model : ProductResourceModel.t)
    (product : stripe.Product.t) (respDiag : diag.Diagnostics) :
  let dims :=
    ProductResourceModel.PackageDimensions
      (ProductResource_populateModel (H := reflect_ValueFrom) model product respDiag).1 in
  (∀ d, stripe.Product.PackageDimensions product = Some d → allNonZero d →
        dims = Value (packageDimensionsObject d))
  ∧ (∀ d, stripe.Product.PackageDimensions product = Some d → someZero d → dims = Null)
  ∧ (stripe.Product.PackageDimensions product = None → dims = Null)
  ∧ (isConcrete dims = true
     ↔ ∃ d, stripe.Product.PackageDimensions product = Some d ∧ allNonZero d).
Proof.
  intros dims. subst dims. rewrite populate_PackageDimensions.
  destruct (stripe.Product.PackageDimensions product) as [d|].
  - destruct (allDimensionsSet d) eqn:Hset.
    + apply allDimensionsSet_true in Hset as Hnz.
      repeat split; try done.
      * by intros ? [= <-] _.
      * intros ? [= <-] Hz. apply allDimensionsSet_false in Hz. congruence.
      * intros _. by exists d.
    + apply allDimensionsSet_false in Hset as Hz.
      repeat split; try done.
      * intros ? [= <-] Hnz. apply allDimensionsSet_true in Hnz. congruence.
      * intros (d' & [= <-] & Hnz). apply allDimensionsSet_true in Hnz. congruence.
  - repeat split; try done. by intros (d & ? & _).
Qed.

(** The case of the specification: no height, the three other dimensions
    set. *)
Lemma C8_package_dimensions_all_or_nothing_witness :
  ProductResourceModel.PackageDimensions
    (ProductResource_populateModel (H := reflect_ValueFrom)
       ProductResourceModel.zero flatProduct []).1 = Null.
Proof.
  destruct (C8_package_dimensions_all_or_nothing ProductResourceModel.zero flatProduct [])
    as (_ & Hzero & _).
  eapply Hzero; [reflexivity|]. left. reflexivity.
Defined.

(** ** Deleting a price *)

Lemma HasError_false_not_elem (ds : diag.Diagnostics) (d : diag.Diagnostic) :
  diag.HasError ds = false → diag.isError d = true → diag.Contains ds d = false.
Proof.
  intros Hno Herr. unfold diag.Contains. apply bool_decide_eq_false_2.
  intros Hin. unfold diag.HasError in Hno.
  assert (existsb diag.isError ds = true) as Hex.
  { apply existsb_exists. exists d. split; [by apply list_elem_of_In | done]. }
  congruence.
Qed.

Lemma HasError_app (ds ds' : diag.Diagnostics) :
  diag.HasError (ds ++ ds') = diag.HasError ds || diag.HasError ds'.
Proof. apply existsb_app. Qed.

(** C9: with a readable state (no error among the diagnostics once the
    state is decoded), [Delete] of a price adds the fixed error, leaves
    the state as it is, and makes no call on the API client. *)
Theorem C9_price_delete_unsupported `{Client}
    (state : PriceResourceModel.t) (getDiags : diag.Diagnostics)
    (resp : resource.Response PriceResourceModel.t) :
  diag.HasError (diag.Append (resource.Diagnostics resp) getDiags) = false →
  let result := PriceResource_Delete (state, getDiags) resp in
  result.2 = []
  ∧ resource.Diagnostics result.1
    = diag.Append (resource.Diagnostics resp) getDiags ++ [priceDeleteError]
  ∧ diag.HasError (resource.Diagnostics result.1) = true
  ∧ resource.State result.1 = resource.State resp.
Proof.
  intros Hok result. subst result. unfold PriceResource_Delete.
  rewrite Hok.
  assert (diag.AddError (diag.Append (resource.Diagnostics resp) getDiags) "Client Error"
            "Stripe API does not support deleting prices. Please archive the price instead."
          = diag.Append (resource.Diagnostics resp) getDiags ++ [priceDeleteError]) as ->.
  { unfold diag.AddError, diag.Append at 1. simpl.
    fold priceDeleteError. by rewrite HasError_false_not_elem. }
  rewrite HasError_app, Hok. simpl.
  repeat split. rewrite HasError_app. apply orb_true_r.
Qed.

Lemma C9_price_delete_unsupported_witness :
  let result :=
    @PriceResource_Delete (couponClient remoteCoupon)
      (PriceResourceModel.zero, []) freshResponse in
  result.2 = []
  ∧ resource.Diagnostics result.1 = [priceDeleteError]
  ∧ diag.HasError (resource.Diagnostics result.1) = true
  ∧ resource.State result.1 = None.
Proof.
  apply (@C9_price_delete_unsupported (couponClient remoteCoupon)
           PriceResourceModel.zero [] freshResponse).
  reflexivity.
Defined.

(** ** The plan modifier of [disabled] *)

(** C10: the modifier adds its attribute error exactly when the prior
    state is null and the planned value is [true]; the response then
    holds the error (appended, unless it was there already) and is an
    error response. In every other case the response is unchanged. The
    planned value is never changed. *)
Theorem C10_disallow_disabled_on_create
    (req : planmodifier.BoolRequest) (resp : planmodifier.BoolResponse) :
  let resp' := PlanModifyBool disabledPlanModifier req resp in
  let err := disabledOnCreateError (planmodifier.Path req) in
  planmodifier.resp_PlanValue resp' = planmodifier.resp_PlanValue resp
  ∧ planmodifier.RequiresReplace resp' = planmodifier.RequiresReplace resp
  ∧ if types.IsNull (planmodifier.State_Raw req)
       && bool_decide (planmodifier.PlanValue req = types.BoolValue true)
    then
      planmodifier.Diagnostics resp'
        = (if diag.Contains (planmodifier.Diagnostics resp) err
           then planmodifier.Diagnostics resp
           else planmodifier.Diagnostics resp ++ [err])
      ∧ err ∈ planmodifier.Diagnostics resp'
      ∧ diag.HasError (planmodifier.Diagnostics resp') = true
    else resp' = resp.
Proof.
  intros resp' err. subst resp'. unfold PlanModifyBool. simpl.
  destruct (types.IsNull (planmodifier.State_Raw req)); simpl; [|done].
  destruct (planmodifier.PlanValue req) as [| |[|]]; simpl; try done.
  assert (diag.AddAttributeError (planmodifier.Diagnostics resp)
            (planmodifier.Path req) "Client Error"
            ("Cannot create resource with attribute set to " +:+ "true")
          = if diag.Contains (planmodifier.Diagnostics resp) err
            then planmodifier.Diagnostics resp
            else planmodifier.Diagnostics resp ++ [err]) as -> by reflexivity.
  split; [done|]. split; [done|]. split; [done|].
  destruct (diag.Contains (planmodifier.Diagnostics resp) err) eqn:Hc.
  - apply bool_decide_eq_true_1 in Hc as Hin. split; [done|].
    apply existsb_exists. exists err. split; [by apply list_elem_of_In | done].
  - split.
    + apply elem_of_app. right. apply list_elem_of_here.
    + rewrite HasError_app. simpl. apply orb_true_r.
Qed.

(* ===================================================================== *)
(** * Further properties of the code *)
(* ===================================================================== *)

(** ** The helpers of [utils.go] *)

Lemma append_all_spec {A B} (f : A → B) (s : Go.slice B) (xs : list A) :
  Go.append_all f s xs =
    match xs with
    | [] => s
    | _ => Some (default [] s ++ (f <$> xs))
    end.
Proof.
  unfold Go.append_all. revert s.
  induction xs as [|x xs IH]; intros s; [done|].
  cbn [fold_left]. rewrite IH. unfold Go.append at 1 2. simpl.
  destruct xs as [|y xs]; [done|]. simpl. by rewrite <- app_assoc.
Qed.

Lemma convertListToStringPtrs_known (tflist : types.List) :
  convertListToStringPtrs tflist =
    match types.content tflist with
    | Value (x :: xs) => Some (types.ValueStringPointer <$> (x :: xs))
    | _ => None
    end.
Proof.
  unfold convertListToStringPtrs, types.Coll_IsUnknown, types.Coll_IsNull,
    types.List_Elements.
  destruct (types.content tflist) as [| |els]; simpl; try done.
  rewrite append_all_spec. destruct els as [|x xs]; [done|].
  simpl. f_equal. f_equal; [by destruct x|].
  apply list_fmap_ext. intros _ e _. by destruct e.
Qed.

(** X1: [convertListToStringPtrs] and [convertSetToStringPtrs] return
    [nil] for a null, unknown or empty collection, and otherwise one
    pointer per element, in order: [nil] for a null element, the string
    of a known one (the empty string for an unknown one). *)
Theorem convertListToStringPtrs_spec (tflist : types.List) :
  convertListToStringPtrs tflist =
    match types.content tflist with
    | Value (x :: xs) => Some (types.ValueStringPointer <$> (x :: xs))
    | _ => None
    end
  ∧ convertSetToStringPtrs tflist = convertListToStringPtrs tflist
  ∧ match convertListToStringPtrs tflist with
    | Some ptrs =>
        length ptrs = length (types.List_Elements tflist) ∧ ptrs ≠ []
    | None => types.List_Elements tflist = []
    end.
Proof.
  split; [apply convertListToStringPtrs_known|]. split; [done|].
  rewrite convertListToStringPtrs_known. unfold types.List_Elements.
  destruct (types.content tflist) as [| |[|x xs]]; simpl; try done.
  split; [by rewrite length_fmap | done].
Qed.

(** X2: [ListValueNullIfEmpty] and [MapValueNullIfEmpty] return the null
    collection of the given element type when the input has no element
    (null, unknown or empty), and the input itself otherwise; the result
    is never a known empty collection, and a second application changes
    nothing. *)
Theorem NullIfEmpty_collections {E} (l : types.List) (m : types.Map E)
    (t : types.AttrType) :
  ((types.List_Elements l = [] ∧ ListValueNullIfEmpty l t = types.ListNull t)
   ∨ (∃ x xs, types.content l = Value (x :: xs) ∧ ListValueNullIfEmpty l t = l))
  ∧ ((types.Map_Elements m = ∅ ∧ MapValueNullIfEmpty m t = types.MapNull t)
     ∨ (∃ els, types.content m = Value els ∧ els ≠ ∅ ∧ MapValueNullIfEmpty m t = m))
  ∧ ListValueNullIfEmpty (ListValueNullIfEmpty l t) t = ListValueNullIfEmpty l t
  ∧ MapValueNullIfEmpty (MapValueNullIfEmpty m t) t = MapValueNullIfEmpty m t.
Proof.
  unfold ListValueNullIfEmpty, MapValueNullIfEmpty, types.Coll_IsNull,
    types.List_Elements, types.Map_Elements.
  destruct l as [lt [| |[|x xs]]], m as [mt [| |els]]; simpl;
    try (destruct (size els) eqn:Hsz; simpl;
         [apply map_size_empty_iff in Hsz as ->|
          assert (els ≠ ∅) by (intros ->; by rewrite map_size_empty in Hsz)]);
    rewrite ?map_size_empty; simpl; rewrite ?Hsz; simpl;
    repeat split; eauto 10.
Qed.

(** ** Metadata on create *)

(** X3: the three [buildCreateParams] send every metadata entry of the
    plan, each key with the string of its value, and no other key,
    whatever the order in which the map is visited. *)
Theorem buildCreateParams_metadata `{MapRange}
    (w : WebhookEndpointResourceModel.t) (p : ProductResourceModel.t)
    (c : CouponResourceModel.t) (k : string) :
  metadataAt (stripe.WebhookEndpointParams.Metadata
                (WebhookEndpointResource_buildCreateParams w)) k
    = types.ValueString
        <$> types.Map_Elements (WebhookEndpointResourceModel.Metadata w) !! k
  ∧ metadataAt (stripe.ProductParams.Metadata (ProductResource_buildCreateParams p)) k
    = types.ValueString <$> types.Map_Elements (ProductResourceModel.Metadata p) !! k
  ∧ metadataAt (stripe.CouponParams.Metadata (CouponResource_buildCreateParams c)) k
    = types.ValueString <$> types.Map_Elements (CouponResourceModel.Metadata c) !! k.
Proof.
  assert (∀ m : types.Map (tri string),
            metadataAt (addPlanMetadata (types.Map_Elements m) None) k
            = types.ValueString <$> types.Map_Elements m !! k) as Hadd.
  { intros m. rewrite addPlanMetadata_lookup.
    by destruct (types.Map_Elements m !! k). }
  assert (∀ m : types.Map (tri string),
            types.content m = Null ∨ types.content m = Unknown →
            types.Map_Elements m !! k = None) as Hnone.
  { intros m [Hm|Hm]; unfold types.Map_Elements; by rewrite Hm. }
  split; [|split]; simpl.
  - unfold types.Coll_IsNull.
    destruct (types.content (WebhookEndpointResourceModel.Metadata w)) eqn:Hc;
      simpl; rewrite ?Hadd; try done.
    rewrite Hnone by auto. done.
  - unfold types.Coll_IsNull.
    destruct (types.content (ProductResourceModel.Metadata p)) eqn:Hc;
      simpl; rewrite ?Hadd; try done.
    rewrite Hnone by auto. done.
  - unfold types.Coll_IsUnknown.
    destruct (types.content (CouponResourceModel.Metadata c)) eqn:Hc;
      simpl; rewrite ?Hadd; try done.
    rewrite Hnone by auto. done.
Qed.

(** ** Lists and package dimensions on update *)

Lemma marketingFeaturesParams_spec (l : types.List) :
  marketingFeaturesParams l = Some (types.ValueStringPointer <$> types.List_Elements l).
Proof.
  unfold marketingFeaturesParams. rewrite append_all_spec.
  by destruct (types.List_Elements l).
Qed.

Lemma convertListToStringPtrs_empty (l : types.List) :
  types.List_Elements l = [] → convertListToStringPtrs l = None.
Proof.
  intros Hl. rewrite convertListToStringPtrs_known.
  unfold types.List_Elements in Hl.
  destruct (types.content l) as [| |[|x xs]]; done.
Qed.

(** X4: changed lists are replaced wholesale, with one asymmetry. A
    changed [marketing_features] is always sent, as the pointers of the
    plan's elements, an empty list when the plan has none. [images] and
    the webhook's [enabled_events] are sent in the same way when the plan
    has elements, but are left out of the change-set when the plan has
    none: removing all images is never sent. *)
Theorem update_lists_replaced_wholesale `{MapRange}
    (state plan : ProductResourceModel.t)
    (wstate wplan : WebhookEndpointResourceModel.t) :
  let params := ProductResource_buildUpdateParams state plan in
  let wparams := WebhookEndpointResource_buildUpdateParams wstate wplan in
  (types.List_Equal (ProductResourceModel.MarketingFeatures plan)
     (ProductResourceModel.MarketingFeatures state) = false →
   stripe.ProductParams.MarketingFeatures params
   = Some (types.ValueStringPointer
             <$> types.List_Elements (ProductResourceModel.MarketingFeatures plan)))
  ∧ (∀ x xs,
       types.List_Equal (ProductResourceModel.Images plan)
         (ProductResourceModel.Images state) = false →
       types.content (ProductResourceModel.Images plan) = Value (x :: xs) →
       stripe.ProductParams.Images params
       = Some (types.ValueStringPointer <$> (x :: xs)))
  ∧ (types.List_Elements (ProductResourceModel.Images plan) = [] →
     stripe.ProductParams.Images params = None)
  ∧ (∀ x xs,
       types.List_Equal (WebhookEndpointResourceModel.EnabledEvents wplan)
         (WebhookEndpointResourceModel.EnabledEvents wstate) = false →
       types.content (WebhookEndpointResourceModel.EnabledEvents wplan) = Value (x :: xs) →
       stripe.WebhookEndpointParams.EnabledEvents wparams
       = Some (types.ValueStringPointer <$> (x :: xs)))
  ∧ (types.List_Elements (WebhookEndpointResourceModel.EnabledEvents wplan) = [] →
     stripe.WebhookEndpointParams.EnabledEvents wparams = None).
Proof.
  intros params wparams. subst params wparams.
  unfold ProductResource_buildUpdateParams, WebhookEndpointResource_buildUpdateParams.
  simpl. repeat split.
  - intros ->. simpl. apply marketingFeaturesParams_spec.
  - intros x xs -> Hc. simpl.
    rewrite convertListToStringPtrs_known. by rewrite Hc.
  - intros Hl. rewrite convertListToStringPtrs_empty by done. by destruct (negb _).
  - intros x xs -> Hc. simpl.
    rewrite convertListToStringPtrs_known. by rewrite Hc.
  - intros Hl. rewrite convertListToStringPtrs_empty by done. by destruct (negb _).
Qed.

Lemma update_lists_replaced_wholesale_witness :
  let state := storedProductModel "Product 1" Null in
  let plan :=
    {| ProductResourceModel.Id := ProductResourceModel.Id state;
       ProductResourceModel.Active := ProductResourceModel.Active state;
       ProductResourceModel.DefaultPrice := Null;
       ProductResourceModel.Description := Null;
       ProductResourceModel.Images := types.ListNull types.StringType;
       ProductResourceModel.MarketingFeatures := types.ListNull types.StringType;
       ProductResourceModel.Metadata := ProductResourceModel.Metadata state;
       ProductResourceModel.Name := ProductResourceModel.Name state;
       ProductResourceModel.PackageDimensions := ProductResourceModel.PackageDimensions state;
       ProductResourceModel.Shippable := ProductResourceModel.Shippable state;
       ProductResourceModel.StatementDescriptor := Null;
       ProductResourceModel.TaxCode := Null;
       ProductResourceModel.UnitLabel := Null;
       ProductResourceModel.URL := Null |} in
  stripe.ProductParams.MarketingFeatures
    (@ProductResource_buildUpdateParams sorted_range state plan) = Some []
  ∧ stripe.ProductParams.Images
      (@ProductResource_buildUpdateParams sorted_range state plan) = None.
Proof.
  intros state plan.
  destruct (@update_lists_replaced_wholesale sorted_range state plan
              (storedWebhookModel Null ∅) (storedWebhookModel Null ∅))
    as (Hmf & _ & Himg & _).
  split; [apply Hmf; reflexivity | apply Himg; reflexivity].
Defined.

(** X5: package dimensions are cleared by zeros and stay cleared. When
    the state has package dimensions and the plan has none, the update
    sends the four dimensions as zero; when the plan has dimensions that
    differ from the state's, it sends the plan's four values. Once the
    remote product reports no package or a zero dimension, the populated
    state has null package dimensions and a plan without them sends no
    package dimensions any more. *)
Theorem package_dimensions_cleared_by_zeros `{MapRange}
    (state plan : ProductResourceModel.t) (product : stripe.Product.t)
    (respDiag : diag.Diagnostics) :
  let read :=
    (ProductResource_populateModel (H := reflect_ValueFrom) state product respDiag).1 in
  (isConcrete (ProductResourceModel.PackageDimensions state) = true →
   ProductResourceModel.PackageDimensions plan = Null →
   stripe.ProductParams.PackageDimensions (ProductResource_buildUpdateParams state plan)
   = Some zeroPackageDimensionsParams)
  ∧ (∀ p, ProductResourceModel.PackageDimensions plan = Value p →
          types.tri_Equal ProductPackageDimensionsResourceModel.Equal (Value p)
            (ProductResourceModel.PackageDimensions state) = false →
          stripe.ProductParams.PackageDimensions
            (ProductResource_buildUpdateParams state plan)
          = Some (packageDimensionsParams p))
  ∧ ((stripe.Product.PackageDimensions product = None
      ∨ ∃ d, stripe.Product.PackageDimensions product = Some d ∧ someZero d) →
     ProductResourceModel.PackageDimensions plan = Null →
     stripe.ProductParams.PackageDimensions (ProductResource_buildUpdateParams read plan)
     = None).
Proof.
  intros read. repeat split.
  - intros Hs Hp. unfold ProductResource_buildUpdateParams. simpl. rewrite Hp.
    by destruct (ProductResourceModel.PackageDimensions state).
  - intros p Hp Hne. unfold ProductResource_buildUpdateParams. simpl.
    rewrite Hp, Hne. done.
  - intros Hremote Hp. unfold ProductResource_buildUpdateParams. simpl. rewrite Hp.
    subst read. rewrite populate_PackageDimensions.
    destruct Hremote as [->|(d & -> & Hz)]; [done|].
    apply allDimensionsSet_false in Hz. by rewrite Hz.
Qed.

Lemma package_dimensions_cleared_by_zeros_witness :
  let state := storedProductModel "Product 1" Null in
  let plan := namedProductModel "Product 1" in
  stripe.ProductParams.PackageDimensions
    (@ProductResource_buildUpdateParams sorted_range state plan)
  = Some zeroPackageDimensionsParams
  ∧ stripe.ProductParams.PackageDimensions
      (@ProductResource_buildUpdateParams sorted_range
         (ProductResource_populateModel (H := reflect_ValueFrom) state flatProduct []).1
         plan) = None.
Proof.
  intros state plan.
  destruct (@package_dimensions_cleared_by_zeros sorted_range state plan flatProduct [])
    as (Hclear & _ & Hstay).
  split.
  - apply Hclear; reflexivity.
  - apply Hstay; [|reflexivity]. right. eexists. split; [reflexivity|].
    left. reflexivity.
Defined.

(** X6: the update of a coupon carries nothing but currency options,
    metadata and name: when these three agree between plan and state the
    parameters are empty, whatever the plan changes in duration,
    duration_in_months, max_redemptions, redeem_by, percent_off,
    applies_to or id. *)
Theorem coupon_update_sends_three_attributes_only `{MapRange}
    (state plan : CouponResourceModel.t) :
  types.Map_Equal CouponCurrencyOptionsModel.Equal
    (CouponResourceModel.CurrencyOptions plan)
    (CouponResourceModel.CurrencyOptions state) = true →
  types.Map_Equal types.String_Equal
    (CouponResourceModel.Metadata plan) (CouponResourceModel.Metadata state) = true →
  CouponResourceModel.Name plan = CouponResourceModel.Name state →
  CouponResource_buildUpdateParams state plan = stripe.CouponParams.empty.
Proof.
  intros Hco Hmd Hname. unfold CouponResource_buildUpdateParams, updateMetadata.
  rewrite Hco, Hmd, Hname, String_Equal_refl. done.
Qed.

Lemma coupon_update_sends_three_attributes_only_witness :
  let state :=
    {| CouponResourceModel.Id := types.StringValue "co_1";
       CouponResourceModel.AppliesTo := types.ListNull types.StringType;
       CouponResourceModel.CurrencyOptions := types.MapNull currencyOptionsType;
       CouponResourceModel.Duration := types.StringValue "repeating";
       CouponResourceModel.DurationInMonths := types.Int64Value 6%Z;
       CouponResourceModel.MaxRedemptions := types.Int64Value 5%Z;
       CouponResourceModel.Metadata := types.MapNull types.StringType;
       CouponResourceModel.Name := types.StringValue "test_name";
       CouponResourceModel.PercentOff := Null;
       CouponResourceModel.RedeemBy := types.Int64Value 1629484800%Z |} in
  let plan :=
    {| CouponResourceModel.Id := types.StringValue "co_1";
       CouponResourceModel.AppliesTo := types.ListNull types.StringType;
       CouponResourceModel.CurrencyOptions := types.MapNull currencyOptionsType;
       CouponResourceModel.Duration := types.StringValue "forever";
       CouponResourceModel.DurationInMonths := Null;
       CouponResourceModel.MaxRedemptions := types.Int64Value 10%Z;
       CouponResourceModel.Metadata := types.MapNull types.StringType;
       CouponResourceModel.Name := types.StringValue "test_name";
       CouponResourceModel.PercentOff := Null;
       CouponResourceModel.RedeemBy := Null |} in
  @CouponResource_buildUpdateParams sorted_range state plan = stripe.CouponParams.empty.
Proof.
  intros state plan.
  apply (@coupon_update_sends_three_attributes_only sorted_range state plan); reflexivity.
Defined.

(** ** Lifecycle calls: errors, calls on the API, identifiers *)

Lemma HasError_Append (ds new : diag.Diagnostics) :
  diag.HasError (diag.Append ds new) = diag.HasError ds || diag.HasError new.
Proof.
  unfold diag.Append. revert ds.
  induction new as [|d new IH]; intros ds; simpl.
  - by rewrite orb_false_r.
  - rewrite IH. destruct (diag.Contains ds d) eqn:Hc.
    + apply bool_decide_eq_true_1 in Hc.
      destruct (diag.isError d) eqn:Hd; simpl; [|done].
      assert (diag.HasError ds = true) as ->; [|done].
      apply existsb_exists. exists d. split; [by apply list_elem_of_In | done].
    + rewrite HasError_app. simpl. rewrite orb_false_r. by rewrite orb_assoc.
Qed.

Lemma HasError_AddError (ds : diag.Diagnostics) (s d : string) :
  diag.HasError (diag.AddError ds s d) = true.
Proof. unfold diag.AddError. rewrite HasError_Append. simpl. apply orb_true_r. Qed.

(** X7: a lifecycle call on the coupon handler that starts without error
    makes at most one call on the API, and none when decoding the request
    reports an error; whenever its diagnostics end with an error (from
    decoding or from the API), the state is left as it was. *)
Theorem coupon_lifecycle_error_keeps_state `{MapRange} `{ValueFrom} `{Client}
    (op : CouponOperation) (resp : resource.Response CouponResourceModel.t) :
  diag.HasError (resource.Diagnostics resp) = false →
  let result := CouponResource_invoke op resp in
  (length result.2 ≤ 1)%nat
  ∧ (diag.HasError (CouponOperation_decodeDiags op) = true → result.2 = [])
  ∧ (diag.HasError (resource.Diagnostics result.1) = true →
     resource.State result.1 = resource.State resp).
Proof.
  intros Hresp result. subst result.
  destruct op as [[plan gd]|[state gd]|[state sd] [plan pd]|[state gd]|reqID]; simpl.
  - unfold CouponResource_Create. rewrite HasError_Append, Hresp. simpl.
    destruct (diag.HasError gd) eqn:Hgd; simpl; [auto|].
    destruct (Coupons_New _) as [coupon|err]; simpl.
    + destruct (CouponResource_populateModel _ _ _) as [m d]. simpl.
      rewrite HasError_Append, Hresp, Hgd. simpl. repeat split; (lia || done).
    + repeat split; (lia || done).
  - unfold CouponResource_Read. rewrite HasError_Append, Hresp. simpl.
    destruct (diag.HasError gd) eqn:Hgd; simpl; [auto|].
    destruct (Coupons_Get _ _) as [coupon|err]; simpl.
    + destruct (CouponResource_populateModel _ _ _) as [m d]. simpl.
      rewrite HasError_Append, Hresp, Hgd. simpl. repeat split; (lia || done).
    + repeat split; (lia || done).
  - unfold CouponResource_Update. rewrite HasError_app.
    rewrite HasError_Append, Hresp. simpl.
    destruct (diag.HasError sd) eqn:Hsd; simpl; [auto|].
    rewrite !HasError_Append, Hresp, Hsd. simpl.
    destruct (diag.HasError pd) eqn:Hpd; simpl; [auto|].
    destruct (Coupons_Update _ _) as [coupon|err]; simpl.
    + destruct (CouponResource_populateModel _ _ _) as [m d]. simpl.
      rewrite !HasError_Append, Hresp, Hsd, Hpd. simpl. repeat split; (lia || done).
    + repeat split; (lia || done).
  - unfold CouponResource_Delete. rewrite HasError_Append, Hresp. simpl.
    destruct (diag.HasError gd) eqn:Hgd; simpl; [auto|].
    destruct (Coupons_Del _) as [coupon|err]; simpl; repeat split; (lia || done).
  - unfold CouponResource_ImportState.
    destruct (Coupons_Get _ _) as [coupon|err]; simpl.
    + destruct (CouponResource_populateModel _ _ _) as [m d]. simpl.
      rewrite Hresp. repeat split; (lia || done).
    + repeat split; (lia || done).
Qed.

Lemma coupon_lifecycle_error_keeps_state_witness :
  let result :=
    @CouponResource_invoke sorted_range reflect_ValueFrom (couponClient remoteCoupon)
      (CouponRead (CouponResourceModel.zero, [conversionError])) freshResponse in
  result.2 = [] ∧ resource.State result.1 = None.
Proof.
  intros result.
  destruct (@coupon_lifecycle_error_keeps_state sorted_range reflect_ValueFrom
              (couponClient remoteCoupon)
              (CouponRead (CouponResourceModel.zero, [conversionError])) freshResponse)
    as (_ & Hcalls & Hstate); [reflexivity|].
  split; [apply Hcalls; reflexivity | apply Hstate; reflexivity].
Defined.

(** X8: the same for the webhook endpoint handler: at most one call on
    the API, none when decoding the request reports an error, and the
    state left as it was whenever the diagnostics end with an error. *)
Theorem webhook_lifecycle_error_keeps_state `{MapRange} `{ValueFrom}
    `{WebhookEndpointClient}
    (op : WebhookEndpointOperation)
    (resp : resource.Response WebhookEndpointResourceModel.t) :
  diag.HasError (resource.Diagnostics resp) = false →
  let result := WebhookEndpointResource_invoke op resp in
  (length result.2 ≤ 1)%nat
  ∧ (match op with
     | WebhookEndpointCreate g | WebhookEndpointRead g | WebhookEndpointDelete g =>
         diag.HasError g.2 = true
     | WebhookEndpointUpdateOp sg pg => diag.HasError sg.2 || diag.HasError pg.2 = true
     | WebhookEndpointImportState _ => False
     end → result.2 = [])
  ∧ (diag.HasError (resource.Diagnostics result.1) = true →
     resource.State result.1 = resource.State resp).
Proof.
  intros Hresp result. subst result.
  destruct op as [[plan gd]|[state gd]|[state sd] [plan pd]|[state gd]|reqID]; simpl.
  - unfold WebhookEndpointResource_Create. rewrite HasError_Append, Hresp. simpl.
    destruct (diag.HasError gd) eqn:Hgd; simpl; [auto|].
    destruct (WebhookEndpoints_New _) as [we|err]; simpl.
    + destruct (WebhookEndpointResource_populateModel _ _ _) as [m d]. simpl.
      rewrite HasError_Append, Hresp, Hgd. simpl. repeat split; (lia || done).
    + repeat split; (lia || done).
  - unfold WebhookEndpointResource_Read. rewrite HasError_Append, Hresp. simpl.
    destruct (diag.HasError gd) eqn:Hgd; simpl; [auto|].
    destruct (WebhookEndpoints_Get _) as [we|err]; simpl.
    + destruct (WebhookEndpointResource_populateModel _ _ _) as [m d]. simpl.
      rewrite HasError_Append, Hresp, Hgd. simpl. repeat split; (lia || done).
    + repeat split; (lia || done).
  - unfold WebhookEndpointResource_Update.
    rewrite HasError_Append, Hresp. simpl.
    destruct (diag.HasError sd) eqn:Hsd; simpl; [auto|].
    rewrite !HasError_Append, Hresp, Hsd. simpl.
    destruct (diag.HasError pd) eqn:Hpd; simpl; [auto|].
    destruct (WebhookEndpoints_Update _ _) as [we|err]; simpl.
    + destruct (WebhookEndpointResource_populateModel _ _ _) as [m d]. simpl.
      rewrite !HasError_Append, Hresp, Hsd, Hpd. simpl. repeat split; (lia || done).
    + repeat split; (lia || done).
  - unfold WebhookEndpointResource_Delete. rewrite HasError_Append, Hresp. simpl.
    destruct (diag.HasError gd) eqn:Hgd; simpl; [auto|].
    destruct (WebhookEndpoints_Del _) as [we|err]; simpl; repeat split; (lia || done).
  - unfold WebhookEndpointResource_ImportState.
    destruct (WebhookEndpoints_Get _) as [we|err]; simpl.
    + destruct (WebhookEndpointResource_populateModel _ _ _) as [m d]. simpl.
      rewrite Hresp. repeat split; (lia || done).
    + repeat split; (lia || done).
Qed.

Lemma webhook_lifecycle_error_keeps_state_witness :
  let result :=
    @WebhookEndpointResource_invoke sorted_range reflect_ValueFrom
      (failingWebhookEndpointClient "no such webhook endpoint")
      (WebhookEndpointImportState "we_1") freshResponse in
  (length result.2 ≤ 1)%nat ∧ resource.State result.1 = None.
Proof.
  intros result.
  destruct (@webhook_lifecycle_error_keeps_state sorted_range reflect_ValueFrom
              (failingWebhookEndpointClient "no such webhook endpoint")
              (WebhookEndpointImportState "we_1") freshResponse)
    as (Hcalls & _ & Hstate); [reflexivity|].
  split; [exact Hcalls | apply Hstate; reflexivity].
Defined.

(** ** The replacement rule of the coupon's currency options *)

Lemma fold_left_flag {A} (p : A → bool) (step : bool → A → bool)
    (l : list A) (init : bool) :
  (∀ acc x, step acc x = if p x then true else acc) →
  fold_left step l init = init || existsb p l.
Proof.
  intros Hstep. revert init.
  induction l as [|x l IH]; intros init; simpl; [by rewrite orb_false_r|].
  rewrite IH, Hstep. destruct (p x), init; done.
Qed.

Lemma existsb_range_false `{MapRange} {V} (p : string * V → bool) (m : gmap string V) :
  existsb p (range m) = false ↔ ∀ k v, m !! k = Some v → p (k, v) = false.
Proof.
  split.
  - intros Hex k v Hk.
    destruct (p (k, v)) eqn:Hp; [|done].
    assert (existsb p (range m) = true) as Hex'; [|congruence].
    apply existsb_exists. exists (k, v).
    split; [|done]. by apply list_elem_of_In, elem_of_range.
  - intros Hall. destruct (existsb p (range m)) eqn:Hex; [|done].
    apply existsb_exists in Hex as ([k v] & Hin & Hp).
    apply list_elem_of_In, elem_of_range in Hin.
    rewrite (Hall k v Hin) in Hp. discriminate.
Qed.

Lemma requiresReplace_flag `{MapRange}
    (st pl : gmap string CouponCurrencyOptionsModel.t) :
  fold_left (replaceIfRemoved pl) (range st)
    (fold_left (replaceIfChanged st) (range pl) false) = false
  ↔ st ⊆ pl.
Proof.
  rewrite (fold_left_flag (λ e, bool_decide (pl !! e.1 = None)) (replaceIfRemoved pl));
    [|intros acc [k v]; unfold replaceIfRemoved; simpl; by destruct (pl !! k)].
  rewrite (fold_left_flag
             (λ e, match st !! e.1 with
                   | Some s =>
                       tri_ne (CouponCurrencyOptionsModel.AmountOff s)
                              (CouponCurrencyOptionsModel.AmountOff e.2)
                       || tri_ne (CouponCurrencyOptionsModel.TopLevel s)
                                 (CouponCurrencyOptionsModel.TopLevel e.2)
                   | None => false
                   end) (replaceIfChanged st));
    [|intros acc [k v]; unfold replaceIfChanged; simpl;
      destruct (st !! k) as [s|]; [|done];
      by destruct (tri_ne _ _), (tri_ne _ _)].
  simpl. rewrite orb_false_iff, !existsb_range_false, map_subseteq_spec.
  split.
  - intros [Hchanged Hremoved] k s Hs.
    specialize (Hremoved k s Hs). simpl in Hremoved.
    apply bool_decide_eq_false_1 in Hremoved.
    destruct (pl !! k) as [v|] eqn:Hv; [|done].
    specialize (Hchanged k v Hv). simpl in Hchanged. rewrite Hs in Hchanged.
    apply orb_false_iff in Hchanged as [Ha Ht].
    unfold tri_ne in Ha, Ht.
    apply negb_false_iff, bool_decide_eq_true_1 in Ha.
    apply negb_false_iff, bool_decide_eq_true_1 in Ht.
    f_equal. destruct s, v. simpl in *. by subst.
  - intros Hsub. split.
    + intros k v Hv. simpl. destruct (st !! k) as [s|] eqn:Hs; [|done].
      apply Hsub in Hs. rewrite Hv in Hs. injection Hs as <-.
      unfold tri_ne. by rewrite !bool_decide_eq_true_2.
    + intros k s Hs. simpl. apply Hsub in Hs. rewrite Hs.
      by apply bool_decide_eq_false_2.
Qed.

(** X9: the rule that decides between replacing a coupon and updating it
    in place. With [RequiresReplace] not yet set, the rule sets it
    exactly when the currency options of plan and state differ and some
    entry of the state is missing from the plan or has another amount or
    top-level mark there; a plan that keeps every entry of the state and
    only adds entries does not replace. The diagnostics are not touched. *)
Theorem currency_options_requires_replace `{MapRange}
    (request : mapplanmodifier.MapRequest)
    (response : mapplanmodifier.RequiresReplaceIfFuncResponse) :
  mapplanmodifier.RequiresReplace response = false →
  let result := CouponResource_currencyOptionsRequiresReplaceIf request response in
  (mapplanmodifier.RequiresReplace result = false
   ↔ (types.Map_Equal CouponCurrencyOptionsModel.Equal
        (mapplanmodifier.PlanValue request) (mapplanmodifier.StateValue request) = true
      ∨ types.Map_Elements (mapplanmodifier.StateValue request)
        ⊆ types.Map_Elements (mapplanmodifier.PlanValue request)))
  ∧ mapplanmodifier.Diagnostics result = mapplanmodifier.Diagnostics response.
Proof.
  intros Hrr result. subst result.
  unfold CouponResource_currencyOptionsRequiresReplaceIf.
  destruct (types.Map_Equal _ _ _) eqn:Heq; simpl.
  - split; [|done]. split; auto.
  - split; [|done]. rewrite Hrr, !ElementsAs_Elements, requiresReplace_flag.
    split; [auto | by intros [?|?]].
Qed.

Lemma currency_options_requires_replace_witness :
  let request :=
    {| mapplanmodifier.PlanValue :=
         currencyOptionsMap {[ "usd" := currencyOption 1000 true;
                               "gbp" := currencyOption 1000 false ]};
       mapplanmodifier.StateValue :=
         currencyOptionsMap {[ "usd" := currencyOption 1000 true ]} |} in
  let removal :=
    {| mapplanmodifier.PlanValue :=
         currencyOptionsMap {[ "usd" := currencyOption 1000 true ]};
       mapplanmodifier.StateValue :=
         currencyOptionsMap {[ "usd" := currencyOption 1000 true;
                               "gbp" := currencyOption 1000 false ]} |} in
  let response :=
    {| mapplanmodifier.Diagnostics := []; mapplanmodifier.RequiresReplace := false |} in
  mapplanmodifier.RequiresReplace
    (@CouponResource_currencyOptionsRequiresReplaceIf sorted_range request response)
  = false
  ∧ mapplanmodifier.RequiresReplace
      (@CouponResource_currencyOptionsRequiresReplaceIf sorted_range removal response)
    = true.
Proof.
  intros request removal response.
  destruct (@currency_options_requires_replace sorted_range request response eq_refl)
    as [Hiff _].
  split; [|vm_compute; reflexivity].
  apply Hiff. right. apply map_subseteq_spec. intros k s Hs.
  change (types.Map_Elements (mapplanmodifier.StateValue request))
    with ({[ "usd" := currencyOption 1000 true ]}
          : gmap string CouponCurrencyOptionsModel.t) in Hs.
  apply lookup_singleton_Some in Hs as [<- <-]. reflexivity.
Defined.

(** X10: an update in place loses nothing. When the rule above does not
    ask for a replacement although the currency options differ, every
    entry of the plan is either an entry of the state, unchanged, or is
    carried by the per-currency map of the update; and every key of the
    state is still in the plan. *)
Theorem currency_options_update_in_place_is_complete `{MapRange}
    (state plan : CouponResourceModel.t)
    (response : mapplanmodifier.RequiresReplaceIfFuncResponse) :
  let request :=
    {| mapplanmodifier.PlanValue := CouponResourceModel.CurrencyOptions plan;
       mapplanmodifier.StateValue := CouponResourceModel.CurrencyOptions state |} in
  mapplanmodifier.RequiresReplace response = false →
  types.Map_Equal CouponCurrencyOptionsModel.Equal
    (CouponResourceModel.CurrencyOptions plan)
    (CouponResourceModel.CurrencyOptions state) = false →
  mapplanmodifier.RequiresReplace
    (CouponResource_currencyOptionsRequiresReplaceIf request response) = false →
  ∃ m, stripe.CouponParams.CurrencyOptions (CouponResource_buildUpdateParams state plan)
       = Some m
       ∧ (∀ k v,
            types.Map_Elements (CouponResourceModel.CurrencyOptions plan) !! k = Some v →
            types.Map_Elements (CouponResourceModel.CurrencyOptions state) !! k = Some v
            ∨ (types.Map_Elements (CouponResourceModel.CurrencyOptions state) !! k = None
               ∧ m !! k = Some (currencyOptionParams v)))
       ∧ (∀ k s,
            types.Map_Elements (CouponResourceModel.CurrencyOptions state) !! k = Some s →
            types.Map_Elements (CouponResourceModel.CurrencyOptions plan) !! k = Some s
            ∧ m !! k = None).
Proof.
  intros request Hrr Hne Hno.
  unfold CouponResource_currencyOptionsRequiresReplaceIf in Hno. simpl in Hno.
  rewrite Hne in Hno. simpl in Hno.
  rewrite Hrr, !ElementsAs_Elements, requiresReplace_flag in Hno.
  rewrite map_subseteq_spec in Hno.
  unfold CouponResource_buildUpdateParams. simpl. rewrite Hne. simpl.
  eexists. split; [done|]. rewrite !ElementsAs_Elements. split.
  - intros k v Hv. rewrite addCurrencyOption_lookup, Hv.
    destruct (types.Map_Elements (CouponResourceModel.CurrencyOptions state) !! k)
      as [s|] eqn:Hs; [|by right].
    left. apply Hno in Hs. congruence.
  - intros k s Hs. rewrite addCurrencyOption_lookup, Hs.
    split; [by apply Hno|].
    by destruct (types.Map_Elements (CouponResourceModel.CurrencyOptions plan) !! k).
Qed.

Lemma currency_options_update_in_place_is_complete_witness :
  let state :=
    couponModel (currencyOptionsMap {[ "usd" := currencyOption 1000 true ]})
      types.zero (types.StringValue "test_name") in
  let plan :=
    couponModel (currencyOptionsMap {[ "usd" := currencyOption 1000 true;
                                       "gbp" := currencyOption 1000 false ]})
      types.zero (types.StringValue "test_name") in
  ∃ m, stripe.CouponParams.CurrencyOptions
         (@CouponResource_buildUpdateParams sorted_range state plan) = Some m
       ∧ m !! "gbp" = Some (currencyOptionParams (currencyOption 1000 false))
       ∧ m !! "usd" = None.
Proof.
  intros state plan.
  destruct (@currency_options_update_in_place_is_complete sorted_range state plan
              {| mapplanmodifier.Diagnostics := [];
                 mapplanmodifier.RequiresReplace := false |})
    as (m & Hm & Hplan & Hstate); [reflexivity | reflexivity | vm_compute; reflexivity |].
  exists m. split; [exact Hm|]. split.
  - destruct (Hplan "gbp" (currencyOption 1000 false)) as [Hs|[_ Hg]];
      [reflexivity | discriminate Hs | exact Hg].
  - apply (Hstate "usd" (currencyOption 1000 true)). reflexivity.
Defined.

(** ** Configuring the provider *)

Lemma HasError_AddAttributeError (ds : diag.Diagnostics) (p s d : string) :
  diag.HasError (diag.AddAttributeError ds p s d) = true.
Proof.
  unfold diag.AddAttributeError. rewrite HasError_Append. simpl. apply orb_true_r.
Qed.

(** X11: when the configuration decodes without error, the provider
    hands a client to the resources exactly when it finds a non-empty
    key, and the key of the configuration wins over the environment: a
    key set in the configuration is used as it is, the environment is
    used only when the configuration has none, an unknown key is an
    error, and so is a key set to the empty string, even when the
    environment has one. On an error no client is handed over. *)
Theorem provider_configure_key (APIKey : types.String) (getDiags : diag.Diagnostics)
    (env : string) (resp : provider.ConfigureResponse) :
  diag.HasError (diag.Append (provider.Diagnostics resp) getDiags) = false →
  let result := StripeProvider_Configure (APIKey, getDiags) env resp in
  let key :=
    match APIKey with
    | Value k => k
    | Null => env
    | Unknown => ""
    end in
  if String.eqb key ""
  then diag.HasError (provider.Diagnostics result) = true
       ∧ provider.ResourceData result = provider.ResourceData resp
       ∧ provider.DataSourceData result = provider.DataSourceData resp
  else provider.Diagnostics result = diag.Append (provider.Diagnostics resp) getDiags
       ∧ provider.ResourceData result = Some key
       ∧ provider.DataSourceData result = Some key.
Proof.
  intros Hok result key. subst result key. unfold StripeProvider_Configure.
  rewrite Hok. destruct APIKey as [| |k]; simpl.
  - rewrite Hok. destruct (String.eqb env "") eqn:He; [|by rewrite Hok].
    rewrite !HasError_AddAttributeError. simpl.
    by rewrite HasError_AddAttributeError.
  - rewrite !HasError_AddAttributeError. simpl.
    by rewrite HasError_AddAttributeError.
  - rewrite Hok. destruct (String.eqb k "") eqn:Hk; [|by rewrite Hok].
    rewrite !HasError_AddAttributeError. simpl.
    by rewrite HasError_AddAttributeError.
Qed.

Lemma provider_configure_key_witness :
  let fresh :=
    {| provider.Diagnostics := []; provider.DataSourceData := None;
       provider.ResourceData := None |} in
  provider.ResourceData
    (StripeProvider_Configure (types.StringValue "sk_test", []) "sk_env" fresh)
  = Some "sk_test"
  ∧ provider.ResourceData (StripeProvider_Configure (types.StringNull, []) "sk_env" fresh)
    = Some "sk_env"
  ∧ provider.ResourceData
      (StripeProvider_Configure (types.StringValue "", []) "sk_env" fresh) = None.
Proof.
  intros fresh. split; [|split].
  - apply (provider_configure_key (types.StringValue "sk_test") [] "sk_env" fresh).
    reflexivity.
  - apply (provider_configure_key types.StringNull [] "sk_env" fresh). reflexivity.
  - apply (provider_configure_key (types.StringValue "") [] "sk_env" fresh). reflexivity.
Defined.

(** ** Identifiers and the secret of a webhook endpoint *)

Lemma Webhook_populate_keeps_Id_Secret `{ValueFrom} model we respDiag :
  WebhookEndpointResourceModel.Id
    (WebhookEndpointResource_populateModel model we respDiag).1
  = WebhookEndpointResourceModel.Id model
  ∧ WebhookEndpointResourceModel.Secret
      (WebhookEndpointResource_populateModel model we respDiag).1
    = WebhookEndpointResourceModel.Secret model.
Proof.
  unfold WebhookEndpointResource_populateModel.
  destruct (ListValueFrom _ _) as [ee d1].
  destruct (diag.HasError d1); [done|].
  destruct (MapValueFrom _ _) as [md d2].
  by destruct (diag.HasError d2).
Qed.



(** X12: the identifier and the secret of a webhook endpoint. A
    successful [Create] saves the identifier and the secret the API
    answered with; a successful [Read] or [Update] keeps the identifier
    and the secret of the state, respectively of the plan, whatever the
    API answers; a successful [ImportState] saves the imported
    identifier and a null secret. *)
Theorem webhook_identifier_and_secret `{MapRange} `{ValueFrom} `{WebhookEndpointClient}
    (model plan : WebhookEndpointResourceModel.t) (reqID : string)
    (resp : resource.Response WebhookEndpointResourceModel.t)
    (we : stripe.WebhookEndpoint.t) :
  diag.HasError (resource.Diagnostics resp) = false →
  (WebhookEndpoints_New (WebhookEndpointResource_buildCreateParams plan) = inl we →
   ∃ m, resource.State (WebhookEndpointResource_Create (plan, []) resp).1 = Some m
        ∧ WebhookEndpointResourceModel.Id m
          = types.StringValue (stripe.WebhookEndpoint.ID we)
        ∧ WebhookEndpointResourceModel.Secret m
          = types.StringValue (stripe.WebhookEndpoint.Secret we))
  ∧ (WebhookEndpoints_Get (types.ValueString (WebhookEndpointResourceModel.Id model))
     = inl we →
     ∃ m, resource.State (WebhookEndpointResource_Read (model, []) resp).1 = Some m
          ∧ WebhookEndpointResourceModel.Id m = WebhookEndpointResourceModel.Id model
          ∧ WebhookEndpointResourceModel.Secret m
            = WebhookEndpointResourceModel.Secret model)
  ∧ (WebhookEndpoints_Update (types.ValueString (WebhookEndpointResourceModel.Id plan))
       (WebhookEndpointResource_buildUpdateParams model plan) = inl we →
     ∃ m, resource.State
            (WebhookEndpointResource_Update (model, []) (plan, []) resp).1 = Some m
          ∧ WebhookEndpointResourceModel.Id m = WebhookEndpointResourceModel.Id plan
          ∧ WebhookEndpointResourceModel.Secret m
            = WebhookEndpointResourceModel.Secret plan)
  ∧ (WebhookEndpoints_Get reqID = inl we →
     ∃ m, resource.State (WebhookEndpointResource_ImportState reqID resp).1 = Some m
          ∧ WebhookEndpointResourceModel.Id m = types.StringValue reqID
          ∧ WebhookEndpointResourceModel.Secret m = types.StringNull).
Proof.
  intros Hresp. repeat split.
  - intros Hnew. unfold WebhookEndpointResource_Create. simpl. rewrite Hresp, Hnew.
    match goal with
    | |- context [WebhookEndpointResource_populateModel ?a ?b ?c] =>
        pose proof (Webhook_populate_keeps_Id_Secret a b c) as [Hid Hsec];
        destruct (WebhookEndpointResource_populateModel a b c) as [m d]
    end.
    exists m. by repeat split.
  - intros Hget. unfold WebhookEndpointResource_Read. simpl. rewrite Hresp, Hget.
    match goal with
    | |- context [WebhookEndpointResource_populateModel ?a ?b ?c] =>
        pose proof (Webhook_populate_keeps_Id_Secret a b c) as [Hid Hsec];
        destruct (WebhookEndpointResource_populateModel a b c) as [m d]
    end.
    exists m. by repeat split.
  - intros Hupd. unfold WebhookEndpointResource_Update. simpl. rewrite Hresp. simpl.
    rewrite Hupd.
    match goal with
    | |- context [WebhookEndpointResource_populateModel ?a ?b ?c] =>
        pose proof (Webhook_populate_keeps_Id_Secret a b c) as [Hid Hsec];
        destruct (WebhookEndpointResource_populateModel a b c) as [m d]
    end.
    exists m. by repeat split.
  - intros Hget. unfold WebhookEndpointResource_ImportState. rewrite Hget.
    match goal with
    | |- context [WebhookEndpointResource_populateModel ?a ?b ?c] =>
        pose proof (Webhook_populate_keeps_Id_Secret a b c) as [Hid Hsec];
        destruct (WebhookEndpointResource_populateModel a b c) as [m d]
    end.
    exists m. by repeat split.
Qed.

Lemma webhook_identifier_and_secret_witness :
  (∃ m, resource.State
          (@WebhookEndpointResource_Create sorted_range reflect_ValueFrom
             (webhookEndpointClient remoteWebhookEndpoint)
             (storedWebhookModel Null ∅, []) freshResponse).1 = Some m
        ∧ WebhookEndpointResourceModel.Id m = types.StringValue "we_1"
        ∧ WebhookEndpointResourceModel.Secret m = types.StringValue "whsec_1")
  ∧ (∃ m, resource.State
            (@WebhookEndpointResource_ImportState reflect_ValueFrom
               (webhookEndpointClient remoteWebhookEndpoint) "we_9" freshResponse).1
          = Some m
          ∧ WebhookEndpointResourceModel.Id m = types.StringValue "we_9"
          ∧ WebhookEndpointResourceModel.Secret m = types.StringNull).
Proof.
  destruct (@webhook_identifier_and_secret sorted_range reflect_ValueFrom
              (webhookEndpointClient remoteWebhookEndpoint)
              (storedWebhookModel Null ∅) (storedWebhookModel Null ∅) "we_9"
              freshResponse remoteWebhookEndpoint eq_refl)
    as (Hcreate & _ & _ & Himport).
  split; [apply Hcreate; reflexivity | apply Himport; reflexivity].
Defined.



(** ** Collections read from the remote object *)

Lemma ListValueFrom_normalized (remote : Go.slice string) :
  normalizedList remote
    (ListValueNullIfEmpty
       (ListValueFrom (ValueFrom := reflect_ValueFrom) types.StringType remote).1
       types.StringType).
Proof. by destruct remote as [[|x xs]|]. Qed.

Lemma MapValueFrom_normalized (remote : option (gmap string string)) :
  normalizedMap remote
    (MapValueNullIfEmpty
       (MapValueFrom (ValueFrom := reflect_ValueFrom) types.StringType remote).1
       types.StringType).
Proof.
  unfold normalizedMap, MapValueNullIfEmpty, types.Coll_IsNull, types.Map_Elements.
  destruct remote as [m|]; simpl; [|by left].
  rewrite map_size_fmap. destruct (size m) eqn:Hsz; simpl.
  - left. by apply map_size_empty_iff in Hsz.
  - right. split; [|done]. intros ->. by rewrite map_size_empty in Hsz.
Qed.

Lemma populateCurrencyOption_lookup `{MapRange} (coupon : stripe.Coupon.t)
    (opts : gmap string stripe.CouponCurrencyOptions.t) (k : string) :
  fold_left (populateCurrencyOption coupon) (range opts) ∅ !! k =
    (λ cco,
       {| CouponCurrencyOptionsModel.AmountOff :=
            Int64NullIfEmpty (stripe.CouponCurrencyOptions.AmountOff cco);
          CouponCurrencyOptionsModel.TopLevel :=
            types.BoolValue (String.eqb (stripe.Coupon.Currency coupon) k) |})
    <$> opts !! k.
Proof.
  rewrite (range_insert_lookup (λ _ _, true)
             (λ k cco,
                {| CouponCurrencyOptionsModel.AmountOff :=
                     Int64NullIfEmpty (stripe.CouponCurrencyOptions.AmountOff cco);
                   CouponCurrencyOptionsModel.TopLevel :=
                     types.BoolValue (String.eqb (stripe.Coupon.Currency coupon) k) |})).
  - by destruct (opts !! k).
  - intros acc k' v. unfold populateCurrencyOption.
    by destruct (String.eqb _ _).
Qed.

(** The currency options of a populated coupon model: its elements. *)
Lemma populate_CurrencyOptions_Elements `{MapRange} (model : CouponResourceModel.t)
    (coupon : stripe.Coupon.t) (respDiag : diag.Diagnostics) :
  let co :=
    CouponResourceModel.CurrencyOptions
      (CouponResource_populateModel (H0 := reflect_ValueFrom) model coupon respDiag).1 in
  let els :=
    fold_left (populateCurrencyOption coupon)
      (range (default ∅ (stripe.Coupon.CurrencyOptions coupon))) ∅ in
  types.Map_Elements co = els
  ∧ types.elementType co = Some currencyOptionsType
  ∧ (els ≠ ∅ → types.content co = Value els)
  ∧ (els = ∅ → types.content co = Null).
Proof.
  intros co els. subst co. unfold CouponResource_populateModel.
  destruct (stripe.Coupon.AppliesTo coupon) as [[products|]|]; simpl; fold els;
    unfold MapValueNullIfEmpty, types.Coll_IsNull, types.Map_Elements; simpl;
    (destruct (size els) eqn:Hsz; simpl;
     [apply map_size_empty_iff in Hsz; rewrite Hsz; by repeat split
     |assert (els ≠ ∅) by (intros Hels; rewrite Hels, map_size_empty in Hsz; done);
      by repeat split]).
Qed.

(** X14: the currency options of a coupon read from the API. The model
    has an entry for exactly the currencies of the remote coupon; each
    entry holds the remote amount, null-normalised, and is marked
    top-level exactly when its currency is the coupon's own; so at most
    one entry is top-level. A coupon without currency options gives the
    null map. This holds whatever the order in which the remote map is
    visited. *)
Theorem coupon_populate_currency_options `{MapRange} (model : CouponResourceModel.t)
    (coupon : stripe.Coupon.t) (respDiag : diag.Diagnostics) :
  let co :=
    CouponResourceModel.CurrencyOptions
      (CouponResource_populateModel (H0 := reflect_ValueFrom) model coupon respDiag).1 in
  let remote := default ∅ (stripe.Coupon.CurrencyOptions coupon) in
  (∀ k, match remote !! k with
        | Some cco =>
            ∃ e, types.Map_Elements co !! k = Some e
                 ∧ normalizes isZeroInt64 (stripe.CouponCurrencyOptions.AmountOff cco)
                     (CouponCurrencyOptionsModel.AmountOff e)
                 ∧ CouponCurrencyOptionsModel.TopLevel e
                   = types.BoolValue (bool_decide (k = stripe.Coupon.Currency coupon))
        | None => types.Map_Elements co !! k = None
        end)
  ∧ (∀ k k' e e', types.Map_Elements co !! k = Some e →
                  types.Map_Elements co !! k' = Some e' →
                  isTopLevel e = true → isTopLevel e' = true → k = k')
  ∧ (remote = ∅ ↔ co = types.MapNull currencyOptionsType).
Proof.
  intros co remote.
  pose proof (populate_CurrencyOptions_Elements model coupon respDiag)
    as (Hels & Hty & Hknown & Hnull).
  fold co in Hels, Hty, Hknown, Hnull. fold remote in Hels, Hknown, Hnull.
  assert (∀ k, types.Map_Elements co !! k =
               (λ cco,
                  {| CouponCurrencyOptionsModel.AmountOff :=
                       Int64NullIfEmpty (stripe.CouponCurrencyOptions.AmountOff cco);
                     CouponCurrencyOptionsModel.TopLevel :=
                       types.BoolValue (String.eqb (stripe.Coupon.Currency coupon) k) |})
               <$> remote !! k) as Hlookup.
  { intros k. rewrite Hels. apply populateCurrencyOption_lookup. }
  assert (∀ k e, types.Map_Elements co !! k = Some e → isTopLevel e = true →
                 k = stripe.Coupon.Currency coupon) as Htop.
  { intros k e Hk Ht. rewrite Hlookup in Hk.
    destruct (remote !! k) as [cco|]; [|done]. injection Hk as <-.
    unfold isTopLevel in Ht. simpl in Ht. symmetry. by apply String.eqb_eq. }
  split; [|split].
  - intros k. rewrite Hlookup. destruct (remote !! k) as [cco|]; [|done].
    eexists. split; [done|]. simpl. split; [apply Int64NullIfEmpty_normalizes|].
    f_equal. destruct (String.eqb _ _) eqn:E.
    + apply String.eqb_eq in E. by rewrite bool_decide_eq_true_2.
    + apply String.eqb_neq in E. by rewrite bool_decide_eq_false_2.
  - intros k k' e e' Hk Hk' Ht Ht'.
    rewrite (Htop k e Hk Ht), (Htop k' e' Hk' Ht'). done.
  - assert (remote = ∅ ↔ types.Map_Elements co = ∅) as Hempty.
    { split.
      - intros Hr. apply map_eq. intros k. rewrite Hlookup, Hr, !lookup_empty. done.
      - intros Hc. apply map_eq. intros k. specialize (Hlookup k).
        rewrite Hc, !lookup_empty in *. by destruct (remote !! k). }
    rewrite Hempty. split.
    + intros He. rewrite Hels in He. specialize (Hnull He).
      destruct co as [ty c]. simpl in *. by subst.
    + intros ->. done.
Qed.

(** X15: the lists and metadata read from the API. Product images and
    marketing features, coupon [applies_to] and the metadata of the three
    resources are null-normalised; the marketing features of a product
    and the [applies_to] of a coupon are left as they were, respectively
    set to null, when the remote object has none. The enabled events of a
    webhook endpoint are not normalised: an empty remote list gives a
    known, empty list. *)
Theorem populate_collections `{MapRange}
    (wm : WebhookEndpointResourceModel.t) (we : stripe.WebhookEndpoint.t)
    (pm : ProductResourceModel.t) (p : stripe.Product.t)
    (cm : CouponResourceModel.t) (c : stripe.Coupon.t)
    (respDiag : diag.Diagnostics) :
  let w' := (WebhookEndpointResource_populateModel (H := reflect_ValueFrom)
               wm we respDiag).1 in
  let p' := (ProductResource_populateModel (H := reflect_ValueFrom) pm p respDiag).1 in
  let c' := (CouponResource_populateModel (H0 := reflect_ValueFrom) cm c respDiag).1 in
  (normalizedMap (stripe.WebhookEndpoint.Metadata we)
     (WebhookEndpointResourceModel.Metadata w')
   ∧ WebhookEndpointResourceModel.EnabledEvents w'
     = match stripe.WebhookEndpoint.EnabledEvents we with
       | Some events => types.ListValue types.StringType (Value <$> events)
       | None => types.ListNull types.StringType
       end)
  ∧ (normalizedList (stripe.Product.Images p) (ProductResourceModel.Images p')
     ∧ normalizedMap (stripe.Product.Metadata p) (ProductResourceModel.Metadata p')
     ∧ match stripe.Product.MarketingFeatures p with
       | Some features =>
           normalizedList (Some features) (ProductResourceModel.MarketingFeatures p')
       | None =>
           ProductResourceModel.MarketingFeatures p'
           = ProductResourceModel.MarketingFeatures pm
       end)
  ∧ (normalizedMap (stripe.Coupon.Metadata c) (CouponResourceModel.Metadata c')
     ∧ normalizedList (default None (stripe.Coupon.AppliesTo c))
         (CouponResourceModel.AppliesTo c')).
Proof.
  intros w' p' c'. split; [|split].
  - subst w'. unfold WebhookEndpointResource_populateModel. simpl.
    split; [apply MapValueFrom_normalized|].
    by destruct (stripe.WebhookEndpoint.EnabledEvents we).
  - subst p'. unfold ProductResource_populateModel. simpl.
    destruct (stripe.Product.MarketingFeatures p) as [features|] eqn:Hmf;
      (destruct (stripe.Product.PackageDimensions p) as [d|];
       [destruct (allDimensionsSet d)|]); simpl;
      (split; [apply ListValueFrom_normalized|]);
      (split; [apply MapValueFrom_normalized|]); try done;
      rewrite append_all_spec; (destruct features as [|x xs]; [done|]);
      simpl; unfold ListValueNullIfEmpty; simpl;
      change (list_fmap string string (λ name : string, name) xs) with (id <$> xs);
      by rewrite (list_fmap_id xs).
  - subst c'. unfold CouponResource_populateModel. simpl.
    destruct (stripe.Coupon.AppliesTo c) as [[products|]|]; simpl;
      (split; [apply MapValueFrom_normalized|]); try done.
    apply (ListValueFrom_normalized (Some products)).
Qed.

(** ** A state read from the API *)

Lemma typed_ListValueNullIfEmpty (l : types.List) (t : types.AttrType) :
  typed l = true → typed (ListValueNullIfEmpty l t) = true.
Proof. intros Hl. unfold ListValueNullIfEmpty. by destruct (_ || _). Qed.

Lemma typed_MapValueNullIfEmpty {E} (m : types.Map E) (t : types.AttrType) :
  typed m = true → typed (MapValueNullIfEmpty m t) = true.
Proof. intros Hm. unfold MapValueNullIfEmpty. by destruct (_ || _). Qed.

Lemma typed_ListValueFrom (remote : Go.slice string) :
  typed (ListValueFrom (ValueFrom := reflect_ValueFrom) types.StringType remote).1 = true.
Proof. by destruct remote. Qed.

Lemma typed_MapValueFrom (remote : option (gmap string string)) :
  typed (MapValueFrom (ValueFrom := reflect_ValueFrom) types.StringType remote).1 = true.
Proof. by destruct remote. Qed.

Lemma Webhook_populate_wf (model : WebhookEndpointResourceModel.t)
    (we : stripe.WebhookEndpoint.t) (respDiag : diag.Diagnostics) :
  WebhookEndpointResourceModel_wf
    (WebhookEndpointResource_populateModel (H := reflect_ValueFrom) model we respDiag).1
  = true.
Proof.
  unfold WebhookEndpointResourceModel_wf.
  replace (WebhookEndpointResourceModel.EnabledEvents
             (WebhookEndpointResource_populateModel (H := reflect_ValueFrom)
                model we respDiag).1)
    with (ListValueFrom (ValueFrom := reflect_ValueFrom) types.StringType
            (stripe.WebhookEndpoint.EnabledEvents we)).1 by reflexivity.
  replace (WebhookEndpointResourceModel.Metadata
             (WebhookEndpointResource_populateModel (H := reflect_ValueFrom)
                model we respDiag).1)
    with (MapValueNullIfEmpty
            (MapValueFrom (ValueFrom := reflect_ValueFrom) types.StringType
               (stripe.WebhookEndpoint.Metadata we)).1 types.StringType)
    by reflexivity.
  by rewrite typed_ListValueFrom, typed_MapValueNullIfEmpty by apply typed_MapValueFrom.
Qed.

Lemma Coupon_populate_wf `{MapRange} (model : CouponResourceModel.t)
    (coupon : stripe.Coupon.t) (respDiag : diag.Diagnostics) :
  CouponResourceModel_wf
    (CouponResource_populateModel (H0 := reflect_ValueFrom) model coupon respDiag).1
  = true.
Proof.
  unfold CouponResourceModel_wf.
  pose proof (populate_CurrencyOptions_Elements model coupon respDiag) as (_ & Hty & _).
  cbv zeta in Hty. unfold typed at 1. rewrite Hty. simpl.
  replace (CouponResourceModel.Metadata
             (CouponResource_populateModel (H0 := reflect_ValueFrom)
                model coupon respDiag).1)
    with (MapValueNullIfEmpty
            (MapValueFrom (ValueFrom := reflect_ValueFrom) types.StringType
               (stripe.Coupon.Metadata coupon)).1 types.StringType).
  - apply typed_MapValueNullIfEmpty, typed_MapValueFrom.
  - unfold CouponResource_populateModel.
    by destruct (stripe.Coupon.AppliesTo coupon) as [[products|]|].
Qed.

Lemma Product_populate_wf (model : ProductResourceModel.t)
    (product : stripe.Product.t) (respDiag : diag.Diagnostics) :
  ProductResourceModel_wf model = true →
  dimensionsAreNumbers product = true →
  ProductResourceModel_wf
    (ProductResource_populateModel (H := reflect_ValueFrom) model product respDiag).1
  = true.
Proof.
  intros Hwf Hnum. unfold ProductResourceModel_wf in *.
  apply andb_prop in Hwf as [Hwf _]. apply andb_prop in Hwf as [Hwf _].
  apply andb_prop in Hwf as [_ Hmf].
  rewrite populate_PackageDimensions.
  assert (PackageDimensions_wf
            match stripe.Product.PackageDimensions product with
            | Some d =>
                if allDimensionsSet d then Value (packageDimensionsObject d) else Null
            | None => Null
            end = true) as ->.
  { unfold dimensionsAreNumbers in Hnum.
    destruct (stripe.Product.PackageDimensions product) as [d|]; [|done].
    destruct (allDimensionsSet d); [|done]. exact Hnum. }
  rewrite andb_true_r.
  replace (ProductResourceModel.Images
             (ProductResource_populateModel (H := reflect_ValueFrom)
                model product respDiag).1)
    with (ListValueNullIfEmpty
            (ListValueFrom (ValueFrom := reflect_ValueFrom) types.StringType
               (stripe.Product.Images product)).1 types.StringType).
  2: { unfold ProductResource_populateModel.
       destruct (stripe.Product.MarketingFeatures product);
         (destruct (stripe.Product.PackageDimensions product) as [d|];
          [destruct (allDimensionsSet d)|]); reflexivity. }
  replace (ProductResourceModel.Metadata
             (ProductResource_populateModel (H := reflect_ValueFrom)
                model product respDiag).1)
    with (MapValueNullIfEmpty
            (MapValueFrom (ValueFrom := reflect_ValueFrom) types.StringType
               (stripe.Product.Metadata product)).1 types.StringType).
  2: { unfold ProductResource_populateModel.
       destruct (stripe.Product.MarketingFeatures product);
         (destruct (stripe.Product.PackageDimensions product) as [d|];
          [destruct (allDimensionsSet d)|]); reflexivity. }
  rewrite typed_ListValueNullIfEmpty by apply typed_ListValueFrom.
  rewrite typed_MapValueNullIfEmpty by apply typed_MapValueFrom.
  rewrite andb_true_r. simpl.
  destruct (stripe.Product.MarketingFeatures product) as [features|] eqn:Hf.
  - replace (ProductResourceModel.MarketingFeatures
               (ProductResource_populateModel (H := reflect_ValueFrom)
                  model product respDiag).1)
      with (ListValueNullIfEmpty
              (ListValueFrom (ValueFrom := reflect_ValueFrom) types.StringType
                 (Go.append_all (λ name : string, name) None features)).1
              types.StringType).
    + apply typed_ListValueNullIfEmpty, typed_ListValueFrom.
    + unfold ProductResource_populateModel. rewrite Hf.
      destruct (stripe.Product.PackageDimensions product) as [d|];
        [destruct (allDimensionsSet d)|]; reflexivity.
  - replace (ProductResourceModel.MarketingFeatures
               (ProductResource_populateModel (H := reflect_ValueFrom)
                  model product respDiag).1)
      with (ProductResourceModel.MarketingFeatures model); [done|].
    unfold ProductResource_populateModel. rewrite Hf.
    destruct (stripe.Product.PackageDimensions product) as [d|];
      [destruct (allDimensionsSet d)|]; reflexivity.
Qed.

(** X16: a state read from the API needs no update. The model populated
    from any remote webhook endpoint or coupon, diffed against itself,
    gives empty parameters; so does the model populated from a remote
    product over a well-formed prior state, when no remote dimension is a
    NaN. *)
Theorem read_state_needs_no_update `{MapRange}
    (wm : WebhookEndpointResourceModel.t) (we : stripe.WebhookEndpoint.t)
    (pm : ProductResourceModel.t) (p : stripe.Product.t)
    (cm : CouponResourceModel.t) (c : stripe.Coupon.t)
    (respDiag : diag.Diagnostics) :
  let w' := (WebhookEndpointResource_populateModel (H := reflect_ValueFrom)
               wm we respDiag).1 in
  let p' := (ProductResource_populateModel (H := reflect_ValueFrom) pm p respDiag).1 in
  let c' := (CouponResource_populateModel (H0 := reflect_ValueFrom) cm c respDiag).1 in
  ProductResourceModel_wf pm = true →
  dimensionsAreNumbers p = true →
  WebhookEndpointResource_buildUpdateParams w' w' = stripe.WebhookEndpointParams.empty
  ∧ ProductResource_buildUpdateParams p' p' = stripe.ProductParams.empty
  ∧ CouponResource_buildUpdateParams c' c' = stripe.CouponParams.empty.
Proof.
  intros w' p' c' Hpm Hnum.
  pose proof (Webhook_populate_wf wm we respDiag) as Hw. fold w' in Hw.
  pose proof (Product_populate_wf pm p respDiag Hpm Hnum) as Hp. fold p' in Hp.
  pose proof (Coupon_populate_wf cm c respDiag) as Hc. fold c' in Hc.
  clearbody w' p' c'.
  apply andb_prop in Hw as [Hw1 Hw2].
  apply andb_prop in Hp as [Hp Hp4]. apply andb_prop in Hp as [Hp Hp3].
  apply andb_prop in Hp as [Hp1 Hp2].
  apply andb_prop in Hc as [Hc1 Hc2].
  split; [|split].
  - unfold WebhookEndpointResource_buildUpdateParams.
    rewrite !String_Equal_refl, Bool_Equal_refl, List_Equal_refl,
      updateMetadata_same by done.
    done.
  - unfold ProductResource_buildUpdateParams.
    rewrite !String_Equal_refl, !Bool_Equal_refl, !List_Equal_refl,
      updateMetadata_same, PackageDimensions_Equal_refl by done.
    done.
  - unfold CouponResource_buildUpdateParams.
    rewrite String_Equal_refl, CurrencyOptions_Equal_refl,
      updateMetadata_same by done.
    done.
Qed.

Lemma read_state_needs_no_update_witness :
  let c' :=
    (@CouponResource_populateModel sorted_range reflect_ValueFrom
       CouponResourceModel.zero remoteCoupon []).1 in
  let p' :=
    (ProductResource_populateModel (H := reflect_ValueFrom)
       (storedProductModel "Product 1" Null) flatProduct []).1 in
  @CouponResource_buildUpdateParams sorted_range c' c' = stripe.CouponParams.empty
  ∧ @ProductResource_buildUpdateParams sorted_range p' p' = stripe.ProductParams.empty.
Proof.
  intros c' p'.
  destruct (@read_state_needs_no_update sorted_range
              WebhookEndpointResourceModel.zero remoteWebhookEndpoint
              (storedProductModel "Product 1" Null) flatProduct
              CouponResourceModel.zero remoteCoupon [])
    as (_ & Hp & Hc); [reflexivity | reflexivity |].
  split; [exact Hc | exact Hp].
Defined.

(** ** A price read from the API *)


(** ** From the API to the model and back to create parameters *)

Lemma String_pointer_round_trip (s : string) :
  (if negb (types.IsUnknown (StringNullIfEmpty s))
   then types.ValueStringPointer (StringNullIfEmpty s) else None)
  = nonZeroPointer isEmptyString s.
Proof.
  unfold StringNullIfEmpty, nonZeroPointer, isEmptyString.
  by destruct (String.eqb s "").
Qed.

Lemma Int64_pointer_round_trip (n : Z) :
  (if negb (types.IsUnknown (Int64NullIfEmpty n))
   then types.ValueInt64Pointer (Int64NullIfEmpty n) else None)
  = nonZeroPointer isZeroInt64 n.
Proof.
  unfold Int64NullIfEmpty, nonZeroPointer, isZeroInt64. by destruct (Z.eqb n 0).
Qed.

Lemma Float64_pointer_round_trip (x : spec_float) :
  (if negb (types.IsUnknown (Float64NullIfEmpty x))
   then types.ValueFloat64Pointer (Float64NullIfEmpty x) else None)
  = nonZeroPointer isZeroFloat64 x.
Proof.
  unfold Float64NullIfEmpty, nonZeroPointer, isZeroFloat64.
  by destruct (Go.float64_eq x Go.float64_0).
Qed.

Lemma Elements_MapValueNullIfEmpty {E} (m : types.Map E) (t : types.AttrType) :
  types.Map_Elements (MapValueNullIfEmpty m t) = types.Map_Elements m.
Proof.
  unfold MapValueNullIfEmpty, types.Coll_IsNull, types.Map_Elements.
  destruct m as [ty [| |els]]; simpl; rewrite ?map_size_empty; simpl; try done.
  destruct (size els) eqn:Hsz; simpl; [|done].
  by apply map_size_empty_iff in Hsz as ->.
Qed.

(** The metadata a builder sends for a metadata map read from the API. *)
Lemma metadata_round_trip `{MapRange} (remote : option (gmap string string)) (k : string) :
  let md :=
    MapValueNullIfEmpty
      (MapValueFrom (ValueFrom := reflect_ValueFrom) types.StringType remote).1
      types.StringType in
  metadataAt (addPlanMetadata (types.Map_Elements md) None) k = default ∅ remote !! k
  ∧ (default ∅ remote !! k ≠ None → types.content md ≠ Null ∧ types.content md ≠ Unknown)
  ∧ types.content md ≠ Unknown.
Proof.
  intros md. subst md. rewrite addPlanMetadata_lookup, Elements_MapValueNullIfEmpty.
  destruct remote as [m|]; simpl.
  - change (types.Map_Elements (types.MapValue types.StringType (Value <$> m)))
      with (Value <$> m : gmap string (tri string)).
    rewrite lookup_fmap. split; [by destruct (m !! k)|].
    unfold MapValueNullIfEmpty, types.Coll_IsNull, types.Map_Elements. simpl.
    rewrite map_size_fmap.
    destruct (size m) eqn:Hsz; simpl; [|done].
    apply map_size_empty_iff in Hsz as ->. by rewrite lookup_empty.
  - change (types.Map_Elements (types.MapNull types.StringType))
      with (∅ : gmap string (tri string)).
    rewrite lookup_empty. done.
Qed.

(** X18: what [populateModel] reads of a coupon, [buildCreateParams]
    writes back. Built from a model populated from a remote coupon, the
    create parameters hold the remote duration, months, redemptions,
    name, percentage and redeem date ([nil] for a zero value) and the
    remote metadata; the remote currency option of the coupon's own
    currency comes back as the top-level currency and amount, every other
    one as an entry of the per-currency map. *)
Theorem coupon_populate_create_round_trip `{MapRange}
    (model : CouponResourceModel.t) (c : stripe.Coupon.t)
    (respDiag : diag.Diagnostics) :
  let params :=
    CouponResource_buildCreateParams
      (CouponResource_populateModel (H0 := reflect_ValueFrom) model c respDiag).1 in
  let remote := default ∅ (stripe.Coupon.CurrencyOptions c) in
  (stripe.CouponParams.Duration params
   = nonZeroPointer isEmptyString (stripe.Coupon.Duration c)
   ∧ stripe.CouponParams.DurationInMonths params
     = nonZeroPointer isZeroInt64 (stripe.Coupon.DurationInMonths c)
   ∧ stripe.CouponParams.MaxRedemptions params
     = nonZeroPointer isZeroInt64 (stripe.Coupon.MaxRedemptions c)
   ∧ stripe.CouponParams.Name params
     = nonZeroPointer isEmptyString (stripe.Coupon.Name c)
   ∧ stripe.CouponParams.PercentOff params
     = nonZeroPointer isZeroFloat64 (stripe.Coupon.PercentOff c)
   ∧ stripe.CouponParams.RedeemBy params
     = nonZeroPointer isZeroInt64 (stripe.Coupon.RedeemBy c))
  ∧ (∀ k, metadataAt (stripe.CouponParams.Metadata params) k
          = default ∅ (stripe.Coupon.Metadata c) !! k)
  ∧ (∀ k cco, remote !! k = Some cco → k ≠ stripe.Coupon.Currency c →
       ∃ m, stripe.CouponParams.CurrencyOptions params = Some m
            ∧ m !! k
              = Some {| stripe.CouponCurrencyOptionsParams.AmountOff :=
                          nonZeroPointer isZeroInt64
                            (stripe.CouponCurrencyOptions.AmountOff cco) |})
  ∧ match remote !! stripe.Coupon.Currency c with
    | Some cco =>
        stripe.CouponParams.Currency params = Some (stripe.Coupon.Currency c)
        ∧ stripe.CouponParams.AmountOff params
          = nonZeroPointer isZeroInt64 (stripe.CouponCurrencyOptions.AmountOff cco)
        ∧ ∃ m, stripe.CouponParams.CurrencyOptions params = Some m
               ∧ m !! stripe.Coupon.Currency c = None
    | None =>
        stripe.CouponParams.Currency params = None
        ∧ stripe.CouponParams.AmountOff params = None
    end.
Proof.
  intros params remote.
  pose proof (populate_CurrencyOptions_Elements model c respDiag)
    as (Hels & _ & Hknown & Hnull).
  cbv zeta in Hels, Hknown, Hnull. fold remote in Hels, Hknown, Hnull.
  set (els := fold_left (populateCurrencyOption c) (range remote) ∅) in *.
  assert (∀ k, els !! k =
               (λ cco,
                  {| CouponCurrencyOptionsModel.AmountOff :=
                       Int64NullIfEmpty (stripe.CouponCurrencyOptions.AmountOff cco);
                     CouponCurrencyOptionsModel.TopLevel :=
                       types.BoolValue (String.eqb (stripe.Coupon.Currency c) k) |})
               <$> remote !! k) as Hlookup.
  { intros k. apply populateCurrencyOption_lookup. }
  assert (∀ n, types.ValueInt64Pointer (Int64NullIfEmpty n)
               = nonZeroPointer isZeroInt64 n) as Hptr.
  { intros n. unfold Int64NullIfEmpty, nonZeroPointer, isZeroInt64.
    by destruct (Z.eqb n 0). }
  (* the fields of the populated model the builder reads *)
  set (m' := (CouponResource_populateModel (H0 := reflect_ValueFrom) model c respDiag).1)
    in *.
  assert (CouponResourceModel.Duration m' = StringNullIfEmpty (stripe.Coupon.Duration c)
          ∧ CouponResourceModel.DurationInMonths m'
            = Int64NullIfEmpty (stripe.Coupon.DurationInMonths c)
          ∧ CouponResourceModel.MaxRedemptions m'
            = Int64NullIfEmpty (stripe.Coupon.MaxRedemptions c)
          ∧ CouponResourceModel.Name m' = StringNullIfEmpty (stripe.Coupon.Name c)
          ∧ CouponResourceModel.PercentOff m'
            = Float64NullIfEmpty (stripe.Coupon.PercentOff c)
          ∧ CouponResourceModel.RedeemBy m'
            = Int64NullIfEmpty (stripe.Coupon.RedeemBy c)
          ∧ CouponResourceModel.Metadata m'
            = MapValueNullIfEmpty
                (MapValueFrom (ValueFrom := reflect_ValueFrom) types.StringType
                   (stripe.Coupon.Metadata c)).1 types.StringType)
    as (HD & HDM & HMR & HN & HP & HR & HMD).
  { subst m'. unfold CouponResource_populateModel.
    by destruct (stripe.Coupon.AppliesTo c) as [[products|]|]. }
  (* the routing of the populated currency options *)
  assert (els ≠ ∅ →
          stripe.CouponParams.CurrencyOptions params
          = Some (routedOptions (routeCurrencyOptions els))
          ∧ stripe.CouponParams.Currency params
            = routedCurrency (routeCurrencyOptions els)
          ∧ stripe.CouponParams.AmountOff params
            = routedAmountOff (routeCurrencyOptions els)) as Hrouted.
  { intros Hne. subst params. unfold CouponResource_buildCreateParams. simpl.
    fold m'. rewrite ElementsAs_Elements, Hels.
    unfold types.Coll_IsUnknown, types.Coll_IsNull. rewrite (Hknown Hne). done. }
  assert (els = ∅ →
          stripe.CouponParams.Currency params = None
          ∧ stripe.CouponParams.AmountOff params = None) as Hnone.
  { intros He. subst params. unfold CouponResource_buildCreateParams. simpl.
    fold m'. unfold types.Coll_IsUnknown, types.Coll_IsNull. rewrite (Hnull He). done. }
  assert (∀ k, routedOptions (routeCurrencyOptions els) !! k =
               match els !! k with
               | Some e => if isTopLevel e then None else Some (currencyOptionParams e)
               | None => None
               end) as Hopts.
  { intros k. unfold routeCurrencyOptions. rewrite routedOptions_fold. simpl.
    rewrite (range_insert_lookup
               (λ _ (e : CouponCurrencyOptionsModel.t), negb (isTopLevel e))
               (λ _ e, currencyOptionParams e)) by (by intros ? ? ?).
    rewrite lookup_empty. destruct (els !! k) as [e|]; [|done].
    by destruct (isTopLevel e). }
  split; [|split; [|split]].
  - subst params. unfold CouponResource_buildCreateParams. simpl. fold m'.
    rewrite HD, HDM, HMR, HN, HP, HR.
    rewrite !String_pointer_round_trip, !Int64_pointer_round_trip,
      Float64_pointer_round_trip.
    done.
  - intros k. subst params. unfold CouponResource_buildCreateParams. simpl. fold m'.
    rewrite HMD.
    destruct (metadata_round_trip (stripe.Coupon.Metadata c) k) as (Hmd & _ & Hunk).
    cbv zeta in Hmd, Hunk. unfold types.Coll_IsUnknown.
    destruct (types.content (MapValueNullIfEmpty _ _)) eqn:Hc; done.
  - intros k cco Hk Hne.
    assert (els ≠ ∅) as Hels_ne.
    { intros He. specialize (Hlookup k). rewrite He, Hk, lookup_empty in Hlookup. done. }
    destruct (Hrouted Hels_ne) as (-> & _ & _).
    eexists. split; [done|]. rewrite Hopts, Hlookup, Hk. simpl.
    unfold isTopLevel. simpl.
    assert (String.eqb (stripe.Coupon.Currency c) k = false) as ->.
    { apply String.eqb_neq. congruence. }
    unfold currencyOptionParams. simpl. by rewrite Hptr.
  - destruct (remote !! stripe.Coupon.Currency c) as [cco|] eqn:Hcur.
    + assert (els ≠ ∅) as Hels_ne.
      { intros He. specialize (Hlookup (stripe.Coupon.Currency c)).
        rewrite He, Hcur, lookup_empty in Hlookup. done. }
      destruct (Hrouted Hels_ne) as (-> & -> & ->).
      pose proof (routedTopLevel_fold (range els)
                    {| routedAmountOff := None; routedCurrency := None;
                       routedOptions := ∅ |}) as Hfold.
      cbv zeta in Hfold. fold (routeCurrencyOptions els) in Hfold.
      destruct Hfold as [(_ & _ & Hall)|(k & e & Hin & Ht & Hc & Ha)].
      * exfalso. rewrite Forall_forall in Hall.
        specialize (Hlookup (stripe.Coupon.Currency c)). rewrite Hcur in Hlookup.
        simpl in Hlookup. apply elem_of_range in Hlookup.
        specialize (Hall _ Hlookup). unfold isTopLevel in Hall. simpl in Hall.
        by rewrite String.eqb_refl in Hall.
      * apply elem_of_range in Hin. rewrite Hlookup in Hin.
        destruct (remote !! k) as [cco'|] eqn:Hk; [|done].
        injection Hin as <-. unfold isTopLevel in Ht. simpl in Ht.
        apply String.eqb_eq in Ht. subst k.
        rewrite Hcur in Hk. injection Hk as <-.
        rewrite Hc, Ha. simpl. rewrite Hptr. repeat split.
        eexists. split; [done|]. rewrite Hopts, Hlookup, Hcur. simpl.
        unfold isTopLevel. simpl. by rewrite String.eqb_refl.
    + destruct (decide (els = ∅)) as [He|Hne]; [by apply Hnone|].
      destruct (Hrouted Hne) as (_ & -> & ->).
      pose proof (routedTopLevel_fold (range els)
                    {| routedAmountOff := None; routedCurrency := None;
                       routedOptions := ∅ |}) as Hfold.
      cbv zeta in Hfold. fold (routeCurrencyOptions els) in Hfold.
      destruct Hfold as [(Hc & Ha & _)|(k & e & Hin & Ht & _)]; [by rewrite Hc, Ha|].
      exfalso. apply elem_of_range in Hin. rewrite Hlookup in Hin.
      destruct (remote !! k) as [cco'|] eqn:Hk; [|done].
      injection Hin as <-. unfold isTopLevel in Ht. simpl in Ht.
      apply String.eqb_eq in Ht. subst k. congruence.
Qed.

Lemma coupon_populate_create_round_trip_witness :
  let params :=
    @CouponResource_buildCreateParams sorted_range
      (@CouponResource_populateModel sorted_range reflect_ValueFrom
         (couponModel types.zero types.zero Null) remoteCouponWithOptions []).1 in
  (∃ m, stripe.CouponParams.CurrencyOptions params = Some m
        ∧ m !! "eur"
          = Some {| stripe.CouponCurrencyOptionsParams.AmountOff := Some 90%Z |})
  ∧ stripe.CouponParams.Currency params = Some "usd"
  ∧ stripe.CouponParams.AmountOff params = Some 100%Z.
Proof.
  intros params.
  destruct (@coupon_populate_create_round_trip sorted_range
              (couponModel types.zero types.zero Null) remoteCouponWithOptions [])
    as (_ & _ & Hother & Htop).
  split.
  - apply (Hother "eur" {| stripe.CouponCurrencyOptions.AmountOff := 90 |});
      [reflexivity | discriminate].
  - assert (default ∅ (stripe.Coupon.CurrencyOptions remoteCouponWithOptions)
              !! stripe.Coupon.Currency remoteCouponWithOptions
            = Some {| stripe.CouponCurrencyOptions.AmountOff := 100 |}) as Husd
      by reflexivity.
    rewrite Husd in Htop. destruct Htop as (Hc & Ha & _). split; assumption.
Defined.

Lemma pointers_round_trip (remote : Go.slice string) :
  convertListToStringPtrs
    (ListValueFrom (ValueFrom := reflect_ValueFrom) types.StringType remote).1
  = pointersOf remote
  ∧ convertListToStringPtrs
      (ListValueNullIfEmpty
         (ListValueFrom (ValueFrom := reflect_ValueFrom) types.StringType remote).1
         types.StringType)
    = pointersOf remote.
Proof.
  rewrite !convertListToStringPtrs_known.
  destruct remote as [[|x xs]|]; simpl; try done.
  rewrite <- list_fmap_compose.
  assert (types.ValueStringPointer ∘ Value <$> xs = Some <$> xs) as ->; [|done].
  by apply list_fmap_ext.
Qed.

(** X19: what [populateModel] reads of a webhook endpoint,
    [buildCreateParams] writes back: the API version and the description
    ([nil] when empty), the URL, the enabled events ([nil] when there is
    none) and the metadata; the status is never part of the create
    parameters. *)
Theorem webhook_populate_create_round_trip `{MapRange}
    (model : WebhookEndpointResourceModel.t) (we : stripe.WebhookEndpoint.t)
    (respDiag : diag.Diagnostics) :
  let params :=
    WebhookEndpointResource_buildCreateParams
      (WebhookEndpointResource_populateModel (H := reflect_ValueFrom)
         model we respDiag).1 in
  stripe.WebhookEndpointParams.APIVersion params
  = nonZeroPointer isEmptyString (stripe.WebhookEndpoint.APIVersion we)
  ∧ stripe.WebhookEndpointParams.Description params
    = nonZeroPointer isEmptyString (stripe.WebhookEndpoint.Description we)
  ∧ stripe.WebhookEndpointParams.URL params = Some (stripe.WebhookEndpoint.URL we)
  ∧ stripe.WebhookEndpointParams.EnabledEvents params
    = pointersOf (stripe.WebhookEndpoint.EnabledEvents we)
  ∧ (∀ k, metadataAt (stripe.WebhookEndpointParams.Metadata params) k
          = default ∅ (stripe.WebhookEndpoint.Metadata we) !! k)
  ∧ stripe.WebhookEndpointParams.Disabled params = None.
Proof.
  intros params.
  set (m' := (WebhookEndpointResource_populateModel (H := reflect_ValueFrom)
                model we respDiag).1) in *.
  assert (WebhookEndpointResourceModel.APIVersion m'
          = StringNullIfEmpty (stripe.WebhookEndpoint.APIVersion we)
          ∧ WebhookEndpointResourceModel.Description m'
            = StringNullIfEmpty (stripe.WebhookEndpoint.Description we)
          ∧ WebhookEndpointResourceModel.URL m'
            = types.StringValue (stripe.WebhookEndpoint.URL we)
          ∧ WebhookEndpointResourceModel.EnabledEvents m'
            = (ListValueFrom (ValueFrom := reflect_ValueFrom) types.StringType
                 (stripe.WebhookEndpoint.EnabledEvents we)).1
          ∧ WebhookEndpointResourceModel.Metadata m'
            = MapValueNullIfEmpty
                (MapValueFrom (ValueFrom := reflect_ValueFrom) types.StringType
                   (stripe.WebhookEndpoint.Metadata we)).1 types.StringType)
    as (HA & HD & HU & HE & HM).
  { by subst m'. }
  clearbody m'. subst params. unfold WebhookEndpointResource_buildCreateParams. simpl.
  rewrite HA, HD, HU, HE, HM.
  split; [|split; [|split; [|split; [|split]]]]; try done.
  - unfold StringNullIfEmpty, nonZeroPointer, isEmptyString.
    by destruct (String.eqb _ "").
  - unfold StringNullIfEmpty, nonZeroPointer, isEmptyString.
    by destruct (String.eqb _ "").
  - destruct (pointers_round_trip (stripe.WebhookEndpoint.EnabledEvents we)) as (Hp & _).
    destruct (stripe.WebhookEndpoint.EnabledEvents we) as [l|]; [|done].
    exact Hp.
  - intros k.
    destruct (metadata_round_trip (stripe.WebhookEndpoint.Metadata we) k)
      as (Hmd & Hsome & _).
    cbv zeta in Hmd, Hsome. unfold types.Coll_IsNull.
    destruct (types.content (MapValueNullIfEmpty _ _)) eqn:Hc; simpl; try done.
    destruct (default ∅ (stripe.WebhookEndpoint.Metadata we) !! k) eqn:Hk; [|done].
    by destruct Hsome.
Qed.

(** X20: what [populateModel] reads of a product, [buildCreateParams]
    writes back: the two flags and the name as they are, the description,
    statement descriptor, unit label and URL ([nil] when empty), the
    images and the marketing features ([nil] when there is none), the
    metadata, the default price and the tax code when the product has
    them, and the package dimensions when all four are non-zero. *)
Theorem product_populate_create_round_trip `{MapRange}
    (model : ProductResourceModel.t) (product : stripe.Product.t)
    (respDiag : diag.Diagnostics) :
  let params :=
    ProductResource_buildCreateParams
      (ProductResource_populateModel (H := reflect_ValueFrom)
         model product respDiag).1 in
  (stripe.ProductParams.Active params = Some (stripe.Product.Active product)
   ∧ stripe.ProductParams.Shippable params = Some (stripe.Product.Shippable product)
   ∧ stripe.ProductParams.Name params = Some (stripe.Product.Name product)
   ∧ stripe.ProductParams.Description params
     = nonZeroPointer isEmptyString (stripe.Product.Description product)
   ∧ stripe.ProductParams.StatementDescriptor params
     = nonZeroPointer isEmptyString (stripe.Product.StatementDescriptor product)
   ∧ stripe.ProductParams.UnitLabel params
     = nonZeroPointer isEmptyString (stripe.Product.UnitLabel product)
   ∧ stripe.ProductParams.URL params
     = nonZeroPointer isEmptyString (stripe.Product.URL product))
  ∧ stripe.ProductParams.Images params = pointersOf (stripe.Product.Images product)
  ∧ (∀ features, stripe.Product.MarketingFeatures product = Some features →
       stripe.ProductParams.MarketingFeatures params = pointersOf (Some features))
  ∧ (∀ k, metadataAt (stripe.ProductParams.Metadata params) k
          = default ∅ (stripe.Product.Metadata product) !! k)
  ∧ (∀ id, stripe.Product.DefaultPrice product = Some id →
       stripe.ProductParams.DefaultPrice params = Some id)
  ∧ (∀ id, stripe.Product.TaxCode product = Some id →
       stripe.ProductParams.TaxCode params = Some id)
  ∧ stripe.ProductParams.PackageDimensions params
    = match stripe.Product.PackageDimensions product with
      | Some d => if allDimensionsSet d then Some (remoteDimensionsParams d) else None
      | None => None
      end.
Proof.
  intros params.
  set (m' := (ProductResource_populateModel (H := reflect_ValueFrom)
                model product respDiag).1) in *.
  assert (ProductResourceModel.Active m' = types.BoolValue (stripe.Product.Active product)
          ∧ ProductResourceModel.Shippable m'
            = types.BoolValue (stripe.Product.Shippable product)
          ∧ ProductResourceModel.Name m' = types.StringValue (stripe.Product.Name product)
          ∧ ProductResourceModel.Description m'
            = StringNullIfEmpty (stripe.Product.Description product)
          ∧ ProductResourceModel.StatementDescriptor m'
            = StringNullIfEmpty (stripe.Product.StatementDescriptor product)
          ∧ ProductResourceModel.UnitLabel m'
            = StringNullIfEmpty (stripe.Product.UnitLabel product)
          ∧ ProductResourceModel.URL m' = StringNullIfEmpty (stripe.Product.URL product)
          ∧ ProductResourceModel.Images m'
            = ListValueNullIfEmpty
                (ListValueFrom (ValueFrom := reflect_ValueFrom) types.StringType
                   (stripe.Product.Images product)).1 types.StringType
          ∧ ProductResourceModel.Metadata m'
            = MapValueNullIfEmpty
                (MapValueFrom (ValueFrom := reflect_ValueFrom) types.StringType
                   (stripe.Product.Metadata product)).1 types.StringType)
    as (HA & HS & HN & HD & HSD & HUL & HU & HI & HM).
  { subst m'. unfold ProductResource_populateModel.
    destruct (stripe.Product.MarketingFeatures product) as [features|],
      (stripe.Product.PackageDimensions product) as [d|];
      try destruct (allDimensionsSet d); done. }
  assert (∀ features, stripe.Product.MarketingFeatures product = Some features →
          ProductResourceModel.MarketingFeatures m'
          = ListValueNullIfEmpty
              (ListValueFrom (ValueFrom := reflect_ValueFrom) types.StringType
                 (Go.append_all (λ name : string, name) None features)).1
              types.StringType) as HMF.
  { intros features Hf. subst m'. unfold ProductResource_populateModel. rewrite Hf.
    destruct (stripe.Product.PackageDimensions product) as [d|];
      try destruct (allDimensionsSet d); done. }
  assert ((∀ id, stripe.Product.DefaultPrice product = Some id →
             ProductResourceModel.DefaultPrice m' = types.StringValue id)
          ∧ (∀ id, stripe.Product.TaxCode product = Some id →
               ProductResourceModel.TaxCode m' = types.StringValue id)) as (HDP & HTC).
  { split; intros id Hid; subst m'; unfold ProductResource_populateModel; rewrite Hid;
      destruct (stripe.Product.MarketingFeatures product) as [features|],
        (stripe.Product.PackageDimensions product) as [d|];
        try destruct (allDimensionsSet d); done. }
  assert (ProductResourceModel.PackageDimensions m'
          = match stripe.Product.PackageDimensions product with
            | Some d => if allDimensionsSet d then Value (packageDimensionsObject d)
                        else Null
            | None => Null
            end) as HPD.
  { subst m'. unfold ProductResource_populateModel.
    destruct (stripe.Product.MarketingFeatures product) as [features|],
      (stripe.Product.PackageDimensions product) as [d|];
      try destruct (allDimensionsSet d); done. }
  clearbody m'. subst params. unfold ProductResource_buildCreateParams. simpl.
  split; [|split; [|split; [|split; [|split; [|split]]]]].
  - rewrite HA, HS, HN, HD, HSD, HUL, HU, !String_pointer_round_trip. done.
  - rewrite HI.
    destruct (pointers_round_trip (stripe.Product.Images product)) as (_ & Hp).
    rewrite <- Hp. destruct (negb _) eqn:Hu; [done|].
    rewrite convertListToStringPtrs_known. unfold types.Coll_IsUnknown in Hu.
    by destruct (types.content _).
  - intros features Hf. rewrite (HMF _ Hf).
    rewrite append_all_spec, marketingFeaturesParams_spec.
    destruct features as [|x xs]; [done|]. simpl.
    change (list_fmap string string (λ name : string, name) xs) with (id <$> xs).
    rewrite <- !list_fmap_compose.
    do 3 f_equal.
  - intros k. rewrite HM.
    destruct (metadata_round_trip (stripe.Product.Metadata product) k)
      as (Hmd & Hsome & _).
    cbv zeta in Hmd, Hsome. unfold types.Coll_IsNull.
    destruct (types.content (MapValueNullIfEmpty _ _)) eqn:Hc; simpl; try done.
    destruct (default ∅ (stripe.Product.Metadata product) !! k) eqn:Hk; [|done].
    by destruct Hsome.
  - intros id Hid. by rewrite (HDP _ Hid).
  - intros id Hid. by rewrite (HTC _ Hid).
  - rewrite HPD.
    destruct (stripe.Product.PackageDimensions product) as [d|]; [|done].
    by destruct (allDimensionsSet d).
Qed.
